(** * IP-Ranges-Scraper: the CIDR converter, embedded and verified

    The development follows [src/ip_ranges/converter.py], [utils.py] and the
    [convert] branch of [__main__.py].  The converter leans on Python's
    [ipaddress] module, on [random.sample], on binary64 arithmetic and on the
    file system; each of these is given a model below:

    - text is [string]; a character is a code point below 256;
    - exceptions are values of [exn], carried by the [result] monad;
    - [ipaddress] is transcribed from CPython's [Lib/ipaddress.py];
    - a Python [float] is a [spec_float] at precision 53, [emax] 1024;
    - [random.sample] is an oracle whose answers are constrained by [fair];
    - the file system answers [stat] queries; logging and file writes are
      collected in a trace of [event]s.

    The scraper of [scraper.py], the [scrape] branch of [__main__.py] and
    [format_bytes] of [utils.py] follow: the network, the parsing of the
    page and [time.sleep] are the fields of a [web], and the scraper's
    effects are collected in a trace of [Scrape.event]s. *)

From Stdlib Require Import ZArith List String Ascii Bool Lia.
From Stdlib Require Import DecimalString HexadecimalString.
From Stdlib Require Import Orders Sorting.Mergesort Sorting.Sorted Sorting.Permutation.
From Stdlib Require Import Floats.SpecFloat.
Import ListNotations.

Open Scope Z_scope.

(* ================================================================= *)
(** ** Exceptions and results *)

Inductive exn : Type :=
| ValueError
| AddressValueError
| NetmaskValueError
| OverflowError
| OSError.

(** [AddressValueError] and [NetmaskValueError] derive from [ValueError]. *)
Definition is_ValueError (e : exn) : bool :=
  match e with
  | ValueError | AddressValueError | NetmaskValueError => true
  | OverflowError | OSError => false
  end.

Definition is_AddressValueError (e : exn) : bool :=
  match e with AddressValueError => true | _ => false end.

Definition is_NetmaskValueError (e : exn) : bool :=
  match e with NetmaskValueError => true | _ => false end.

(** Every exception of the model derives from [Exception]. *)
Definition is_Exception (e : exn) : bool := true.

Inductive result (A : Type) : Type :=
| Ok (a : A)
| Raise (e : exn).

Arguments Ok {A} a.
Arguments Raise {A} e.

Definition bind {A B : Type} (m : result A) (k : A -> result B) : result B :=
  match m with
  | Ok a => k a
  | Raise e => Raise e
  end.

Notation "x <- m ;; k" := (bind m (fun x => k))
  (at level 61, m at next level, right associativity).

Notation "' p <- m ;; k" := (bind m (fun x => let 'p := x in k))
  (at level 61, p pattern, m at next level, right associativity).

(** [try: body except (classes): handler]. *)
Definition try_except {A : Type} (body : result A) (classes : exn -> bool)
    (handler : exn -> result A) : result A :=
  match body with
  | Ok a => Ok a
  | Raise e => if classes e then handler e else Raise e
  end.

Fixpoint mapM {A B : Type} (f : A -> result B) (l : list A) : result (list B) :=
  match l with
  | [] => Ok []
  | a :: l' => b <- f a ;; bs <- mapM f l' ;; Ok (b :: bs)
  end.

(* ================================================================= *)
(** ** Python [str] operations used by the program *)

Module Str.

Definition eqb_ascii (a b : ascii) : bool := Ascii.eqb a b.

Definition is_empty (s : string) : bool :=
  match s with EmptyString => true | String _ _ => false end.

(** Truth value of a [str]: non-empty. *)
Definition truthy (s : string) : bool := negb (is_empty s).

(** [s.split(sep)] for a one-character separator. *)
Fixpoint split (sep : ascii) (s : string) : list string :=
  match s with
  | EmptyString => [EmptyString]
  | String c s' =>
      let r := split sep s' in
      if eqb_ascii c sep then EmptyString :: r
      else match r with
           | h :: t => String c h :: t
           | [] => [String c EmptyString]
           end
  end.

(** [sep in s]. *)
Fixpoint contains (sep : ascii) (s : string) : bool :=
  match s with
  | EmptyString => false
  | String c s' => eqb_ascii c sep || contains sep s'
  end.

(** [s.partition(sep)]: text before the first [sep], whether it was found,
    text after it. *)
Fixpoint partition (sep : ascii) (s : string) : string * bool * string :=
  match s with
  | EmptyString => (EmptyString, false, EmptyString)
  | String c s' =>
      if eqb_ascii c sep then (EmptyString, true, s')
      else let '(b, f, a) := partition sep s' in (String c b, f, a)
  end.

(** [sep.join(parts)]. *)
Fixpoint join (sep : string) (parts : list string) : string :=
  match parts with
  | [] => EmptyString
  | [p] => p
  | p :: ps => (p ++ sep ++ join sep ps)%string
  end.

(** Code points below 256 for which [str.isspace()] holds. *)
Definition isspace (c : ascii) : bool :=
  let n := N_of_ascii c in
  (((9 <=? n) && (n <=? 13)) || ((28 <=? n) && (n <=? 32))
   || (n =? 133) || (n =? 160))%N.

Fixpoint lstrip (s : string) : string :=
  match s with
  | EmptyString => EmptyString
  | String c s' => if isspace c then lstrip s' else s
  end.

Fixpoint rstrip (s : string) : string :=
  match s with
  | EmptyString => EmptyString
  | String c s' =>
      let r := rstrip s' in
      if isspace c && is_empty r then EmptyString else String c r
  end.

(** [s.strip()]. *)
Definition strip (s : string) : string := rstrip (lstrip s).

(** [s.startswith(c)] for a one-character prefix. *)
Definition startswith (c : ascii) (s : string) : bool :=
  match s with
  | EmptyString => false
  | String c' _ => eqb_ascii c' c
  end.

(** [s.endswith(suffix)]. *)
Definition endswith (suffix s : string) : bool :=
  let n := String.length s in
  let m := String.length suffix in
  (m <=? n)%nat && String.eqb (substring (n - m) m s) suffix.

Fixpoint forallb (p : ascii -> bool) (s : string) : bool :=
  match s with
  | EmptyString => true
  | String c s' => p c && forallb p s'
  end.

Definition is_decimal_digit (c : ascii) : bool :=
  let n := N_of_ascii c in ((48 <=? n) && (n <=? 57))%N.

(** [s.isascii() and s.isdigit()]: a non-empty run of the digits 0..9. *)
Definition isascii_isdigit (s : string) : bool :=
  negb (is_empty s) && forallb is_decimal_digit s.

Definition digit_value (c : ascii) : Z := Z.of_N (N_of_ascii c) - 48.

Fixpoint int10_acc (acc : Z) (s : string) : Z :=
  match s with
  | EmptyString => acc
  | String c s' => int10_acc (10 * acc + digit_value c) s'
  end.

(** [int(s, 10)] on a string of decimal digits. *)
Definition int10 (s : string) : Z := int10_acc 0 s.

(** Membership in [_HEX_DIGITS]. *)
Definition is_hex_digit (c : ascii) : bool :=
  let n := N_of_ascii c in
  (((48 <=? n) && (n <=? 57)) || ((65 <=? n) && (n <=? 70))
   || ((97 <=? n) && (n <=? 102)))%N.

Definition hex_digit_value (c : ascii) : Z :=
  let n := Z.of_N (N_of_ascii c) in
  if n <=? 57 then n - 48 else if n <=? 70 then n - 55 else n - 87.

Fixpoint int16_acc (acc : Z) (s : string) : Z :=
  match s with
  | EmptyString => acc
  | String c s' => int16_acc (16 * acc + hex_digit_value c) s'
  end.

(** [int(s, 16)] on a string of hexadecimal digits; the empty string is
    refused with [ValueError]. *)
Definition int16 (s : string) : result Z :=
  if is_empty s then Raise ValueError else Ok (int16_acc 0 s).

(** [str(n)] for [n >= 0]. *)
Definition of_int (n : Z) : string :=
  DecimalString.NilEmpty.string_of_uint (N.to_uint (Z.to_N n)).

(** ['%x' % n] for [n >= 0]. *)
Definition hex (n : Z) : string :=
  HexadecimalString.NilEmpty.string_of_uint (N.to_hex_uint (Z.to_N n)).

Fixpoint zeros (n : nat) : string :=
  match n with
  | O => EmptyString
  | S n' => String "0" (zeros n')
  end.

(** ['%032x' % n] for [n >= 0]: zero-padded on the left to 32 characters. *)
Definition hex032 (n : Z) : string :=
  let h := hex n in (zeros (32 - String.length h) ++ h)%string.

(** [s.upper()] on the code points below 256 whose upper case is again
    below 256 (all but U+00B5, U+00DF and U+00FF, which are left as is). *)
Definition upper_char (c : ascii) : ascii :=
  let n := N_of_ascii c in
  if (((97 <=? n) && (n <=? 122))
      || ((224 <=? n) && (n <=? 254) && negb (n =? 247)))%N
  then ascii_of_N (n - 32) else c.

Fixpoint upper (s : string) : string :=
  match s with
  | EmptyString => EmptyString
  | String c s' => String (upper_char c) (upper s')
  end.

End Str.

(* ================================================================= *)
(** ** Python [int] helpers *)

(** [n.bit_length()]. *)
Definition bit_length (n : Z) : Z :=
  if n =? 0 then 0 else Z.log2 (Z.abs n) + 1.

(** [int.from_bytes(bs, 'big')]. *)
Definition from_bytes_big (bs : list Z) : Z :=
  fold_left (fun acc b => 256 * acc + b) bs 0.

(** [n.to_bytes(4, 'big')] for [0 <= n < 2^32]. *)
Definition to_bytes4_big (n : Z) : list Z :=
  [Z.shiftr n 24 mod 256; Z.shiftr n 16 mod 256; Z.shiftr n 8 mod 256; n mod 256].

(* ================================================================= *)
(** ** The [ipaddress] module *)

Module ipaddress.

Inductive ip_version : Type := V4 | V6.

Definition version_eqb (a b : ip_version) : bool :=
  match a, b with
  | V4, V4 | V6, V6 => true
  | _, _ => false
  end.

(** [_max_prefixlen]: [IPV4LENGTH] or [IPV6LENGTH]. *)
Definition max_prefixlen (v : ip_version) : Z :=
  match v with V4 => 32 | V6 => 128 end.

(** [_ALL_ONES]. *)
Definition ALL_ONES (v : ip_version) : Z := 2 ^ max_prefixlen v - 1.

Definition HEXTET_COUNT : Z := 8.

(** An [IPv4Address] or [IPv6Address] object: [_ip], and for version 6 the
    [_scope_id]. *)
Record address : Type := mk_address {
  version : ip_version;
  ip : Z;
  scope_id : option string
}.

(** An [IPv4Network] or [IPv6Network] object. *)
Record network : Type := mk_network {
  network_address : address;
  netmask : address;
  prefixlen : Z
}.

Definition net_version (n : network) : ip_version := version (network_address n).

(** [int(address)]. *)
Definition int_of (a : address) : Z := ip a.

(** [_check_int_address]. *)
Definition check_int_address (v : ip_version) (a : Z) : result unit :=
  if a <? 0 then Raise AddressValueError
  else if a >? ALL_ONES v then Raise AddressValueError
  else Ok tt.

(** [IPv4Address(n)] and [IPv6Address(n)] for an [int] argument. *)
Definition address_of_int (v : ip_version) (a : Z) : result address :=
  _ <- check_int_address v a ;;
  Ok (mk_address v a None).

Definition IPv4Address_of_int : Z -> result address := address_of_int V4.
Definition IPv6Address_of_int : Z -> result address := address_of_int V6.

(** [_ip_int_from_prefix]. *)
Definition ip_int_from_prefix (v : ip_version) (prefixlen : Z) : Z :=
  Z.lxor (ALL_ONES v) (Z.shiftr (ALL_ONES v) prefixlen).

(** [_count_righthand_zero_bits]. *)
Definition count_righthand_zero_bits (number bits : Z) : Z :=
  if number =? 0 then bits
  else Z.min bits (bit_length (Z.land (Z.lnot number) (number - 1))).

(** [_prefix_from_ip_int]. *)
Definition prefix_from_ip_int (v : ip_version) (ip_int : Z) : result Z :=
  let trailing_zeroes := count_righthand_zero_bits ip_int (max_prefixlen v) in
  let prefixlen := max_prefixlen v - trailing_zeroes in
  let leading_ones := Z.shiftr ip_int trailing_zeroes in
  let all_ones := Z.shiftl 1 prefixlen - 1 in
  if negb (leading_ones =? all_ones) then Raise ValueError
  else Ok prefixlen.

(** [_report_invalid_netmask]. *)
Definition report_invalid_netmask {A : Type} : result A := Raise NetmaskValueError.

(** [_prefix_from_prefix_string]. *)
Definition prefix_from_prefix_string (v : ip_version) (prefixlen_str : string)
    : result Z :=
  if negb (Str.isascii_isdigit prefixlen_str) then report_invalid_netmask
  else
    let prefixlen := Str.int10 prefixlen_str in
    if negb ((0 <=? prefixlen) && (prefixlen <=? max_prefixlen v))
    then report_invalid_netmask
    else Ok prefixlen.

(** [_split_optional_netmask]. *)
Definition split_optional_netmask (address : string) : result (list string) :=
  let addr := Str.split "/" address in
  if (2 <? Z.of_nat (List.length addr)) then Raise AddressValueError
  else Ok addr.

(** [_split_addr_prefix] on a [str] argument: the address text and, when a
    mask was written, the mask text ([None] stands for [_max_prefixlen]). *)
Definition split_addr_prefix (addr_text : string) : result (string * option string) :=
  parts <- split_optional_netmask addr_text ;;
  match parts with
  | [a; m] => Ok (a, Some m)
  | a :: _ => Ok (a, None)
  | [] => Ok (EmptyString, None)
  end.

(* ----------------------------------------------------------------- *)
(** *** Version 4 *)

(** [_BaseV4._parse_octet]. *)
Definition parse_octet (octet_str : string) : result Z :=
  if Str.is_empty octet_str then Raise ValueError
  else if negb (Str.isascii_isdigit octet_str) then Raise ValueError
  else if (3 <? String.length octet_str)%nat then Raise ValueError
  else if negb (String.eqb octet_str "0") && Str.startswith "0" octet_str
  then Raise ValueError
  else
    let octet_int := Str.int10 octet_str in
    if octet_int >? 255 then Raise ValueError
    else Ok octet_int.

(** [_BaseV4._ip_int_from_string]. *)
Definition v4_ip_int_from_string (ip_str : string) : result Z :=
  if Str.is_empty ip_str then Raise AddressValueError
  else
    let octets := Str.split "." ip_str in
    if negb (Nat.eqb (List.length octets) 4) then Raise AddressValueError
    else
      try_except
        (bs <- mapM parse_octet octets ;; Ok (from_bytes_big bs))
        is_ValueError
        (fun _ => Raise AddressValueError).

(** [IPv4Address(s)] for a [str] argument. *)
Definition IPv4Address_of_str (addr_str : string) : result address :=
  if Str.contains "/" addr_str then Raise AddressValueError
  else
    n <- v4_ip_int_from_string addr_str ;;
    Ok (mk_address V4 n None).

(** [_prefix_from_ip_string], which only version 4 reaches. *)
Definition prefix_from_ip_string (ip_str : string) : result Z :=
  ip_int <- try_except (v4_ip_int_from_string ip_str) is_AddressValueError
              (fun _ => report_invalid_netmask) ;;
  match prefix_from_ip_int V4 ip_int with
  | Ok p => Ok p
  | Raise e =>
      if is_ValueError e then
        let ip_int' := Z.lxor ip_int (ALL_ONES V4) in
        try_except (prefix_from_ip_int V4 ip_int') is_ValueError
          (fun _ => report_invalid_netmask)
      else Raise e
  end.

(** [_BaseV4._make_netmask] on a mask text, or on [_max_prefixlen] when no
    mask was written. *)
Definition v4_make_netmask (arg : option string) : result (address * Z) :=
  prefixlen <-
    match arg with
    | None =>
        let prefixlen := max_prefixlen V4 in
        if negb ((0 <=? prefixlen) && (prefixlen <=? max_prefixlen V4))
        then report_invalid_netmask else Ok prefixlen
    | Some s =>
        try_except (prefix_from_prefix_string V4 s) is_NetmaskValueError
          (fun _ => prefix_from_ip_string s)
    end ;;
  netmask <- IPv4Address_of_int (ip_int_from_prefix V4 prefixlen) ;;
  Ok (netmask, prefixlen).

(** The dotted decimal notation of a 32-bit integer. *)
Definition v4_text (ip_int : Z) : string :=
  Str.join "." (map Str.of_int (to_bytes4_big ip_int)).

(** [_BaseV4._string_from_ip_int]; [to_bytes] refuses a negative number
    and one that needs more than four bytes with [OverflowError]. *)
Definition v4_string_from_ip_int (ip_int : Z) : result string :=
  if (ip_int <? 0) || (ip_int >? ALL_ONES V4) then Raise OverflowError
  else Ok (v4_text ip_int).

(* ----------------------------------------------------------------- *)
(** *** Version 6 *)

(** [_BaseV6._parse_hextet]. *)
Definition parse_hextet (hextet_str : string) : result Z :=
  if negb (Str.forallb Str.is_hex_digit hextet_str) then Raise ValueError
  else if (4 <? String.length hextet_str)%nat then Raise ValueError
  else Str.int16 hextet_str.

Definition len {A : Type} (l : list A) : Z := Z.of_nat (List.length l).

(** [parts[i]] for [0 <= i < len(parts)]. *)
Definition item (parts : list string) (i : Z) : string :=
  nth (Z.to_nat i) parts EmptyString.

(** The loop that looks for the one empty part strictly between the two
    ends: [for i in range(1, len(parts) - 1)]. *)
Fixpoint find_skip_index (parts : list string) (i n : Z) (skip_index : option Z)
    : result (option Z) :=
  match parts with
  | [] => Ok skip_index
  | p :: rest =>
      if (1 <=? i) && (i <? n - 1) && Str.is_empty p then
        match skip_index with
        | Some _ => Raise AddressValueError
        | None => find_skip_index rest (i + 1) n (Some i)
        end
      else find_skip_index rest (i + 1) n skip_index
  end.

(** [ip_int <<= 16; ip_int |= _parse_hextet(part)] over a run of parts. *)
Fixpoint fold_hextets (ip_int : Z) (parts : list string) : result Z :=
  match parts with
  | [] => Ok ip_int
  | p :: rest =>
      h <- parse_hextet p ;;
      fold_hextets (Z.lor (Z.shiftl ip_int 16) h) rest
  end.

(** [_BaseV6._ip_int_from_string]. *)
Definition v6_ip_int_from_string (ip_str : string) : result Z :=
  if Str.is_empty ip_str then Raise AddressValueError
  else
    let parts := Str.split ":" ip_str in
    let min_parts := 3 in
    if len parts <? min_parts then Raise AddressValueError
    else
      parts <-
        (if Str.contains "." (last parts EmptyString) then
           a <- try_except (IPv4Address_of_str (last parts EmptyString))
                  is_AddressValueError (fun _ => Raise AddressValueError) ;;
           let ipv4_int := ip a in
           Ok (removelast parts
                 ++ [Str.hex (Z.land (Z.shiftr ipv4_int 16) 65535);
                     Str.hex (Z.land ipv4_int 65535)])
         else Ok parts) ;;
      let max_parts := HEXTET_COUNT + 1 in
      if len parts >? max_parts then Raise AddressValueError
      else
        skip_index <- find_skip_index parts 0 (len parts) None ;;
        '(parts_hi, parts_lo, parts_skipped) <-
          match skip_index with
          | Some skip_index =>
              let parts_hi := skip_index in
              let parts_lo := len parts - skip_index - 1 in
              parts_hi <-
                (if Str.is_empty (item parts 0) then
                   let parts_hi := parts_hi - 1 in
                   if negb (parts_hi =? 0) then Raise AddressValueError
                   else Ok parts_hi
                 else Ok parts_hi) ;;
              parts_lo <-
                (if Str.is_empty (item parts (len parts - 1)) then
                   let parts_lo := parts_lo - 1 in
                   if negb (parts_lo =? 0) then Raise AddressValueError
                   else Ok parts_lo
                 else Ok parts_lo) ;;
              let parts_skipped := HEXTET_COUNT - (parts_hi + parts_lo) in
              if parts_skipped <? 1 then Raise AddressValueError
              else Ok (parts_hi, parts_lo, parts_skipped)
          | None =>
              if negb (len parts =? HEXTET_COUNT) then Raise AddressValueError
              else if Str.is_empty (item parts 0) then Raise AddressValueError
              else if Str.is_empty (item parts (len parts - 1))
              then Raise AddressValueError
              else Ok (len parts, 0, 0)
          end ;;
        try_except
          (ip_int <- fold_hextets 0 (firstn (Z.to_nat parts_hi) parts) ;;
           let ip_int := Z.shiftl ip_int (16 * parts_skipped) in
           fold_hextets ip_int
             (skipn (List.length parts - Z.to_nat parts_lo) parts))
          is_ValueError
          (fun _ => Raise AddressValueError).

(** [_BaseV6._split_scope_id]. *)
Definition split_scope_id (ip_str : string) : result (string * option string) :=
  let '(addr, sep, scope) := Str.partition "%" ip_str in
  if negb sep then Ok (addr, None)
  else if Str.is_empty scope || Str.contains "%" scope
  then Raise AddressValueError
  else Ok (addr, Some scope).

(** [IPv6Address(s)] for a [str] argument. *)
Definition IPv6Address_of_str (addr_str : string) : result address :=
  if Str.contains "/" addr_str then Raise AddressValueError
  else
    '(addr_str, scope) <- split_scope_id addr_str ;;
    n <- v6_ip_int_from_string addr_str ;;
    Ok (mk_address V6 n scope).

(** [_BaseV6._make_netmask]. *)
Definition v6_make_netmask (arg : option string) : result (address * Z) :=
  prefixlen <-
    match arg with
    | None =>
        let prefixlen := max_prefixlen V6 in
        if negb ((0 <=? prefixlen) && (prefixlen <=? max_prefixlen V6))
        then report_invalid_netmask else Ok prefixlen
    | Some s => prefix_from_prefix_string V6 s
    end ;;
  netmask <- IPv6Address_of_int (ip_int_from_prefix V6 prefixlen) ;;
  Ok (netmask, prefixlen).

(** The class-dependent steps of the two network constructors. *)
Definition address_of_str (v : ip_version) : string -> result address :=
  match v with V4 => IPv4Address_of_str | V6 => IPv6Address_of_str end.

Definition make_netmask (v : ip_version) : option string -> result (address * Z) :=
  match v with V4 => v4_make_netmask | V6 => v6_make_netmask end.

(** [IPv4Network.__init__] and [IPv6Network.__init__], which differ in the
    class only. *)
Definition Network_init (v : ip_version) (addr_text : string) (strict : bool)
    : result network :=
  '(addr, mask) <- split_addr_prefix addr_text ;;
  network_address <- address_of_str v addr ;;
  '(netmask, prefixlen) <- make_netmask v mask ;;
  let packed := int_of network_address in
  if negb (Z.land packed (int_of netmask) =? packed) then
    if strict then Raise ValueError
    else
      network_address' <- address_of_int v (Z.land packed (int_of netmask)) ;;
      Ok (mk_network network_address' netmask prefixlen)
  else Ok (mk_network network_address netmask prefixlen).

Definition IPv4Network : string -> bool -> result network := Network_init V4.
Definition IPv6Network : string -> bool -> result network := Network_init V6.

(** The state of the scan in [_compress_hextets]. *)
Record colon_scan : Type := mk_scan {
  best_doublecolon_start : Z;
  best_doublecolon_len : Z;
  doublecolon_start : Z;
  doublecolon_len : Z
}.

Definition scan_step (st : colon_scan) (index : Z) (hextet : string) : colon_scan :=
  if String.eqb hextet "0" then
    let dlen := doublecolon_len st + 1 in
    let dstart := if doublecolon_start st =? -1 then index else doublecolon_start st in
    if dlen >? best_doublecolon_len st
    then mk_scan dstart dlen dstart dlen
    else mk_scan (best_doublecolon_start st) (best_doublecolon_len st) dstart dlen
  else mk_scan (best_doublecolon_start st) (best_doublecolon_len st) (-1) 0.

Fixpoint scan_hextets (st : colon_scan) (index : Z) (hextets : list string)
    : colon_scan :=
  match hextets with
  | [] => st
  | h :: rest => scan_hextets (scan_step st index h) (index + 1) rest
  end.

(** [_BaseV6._compress_hextets]. *)
Definition compress_hextets (hextets : list string) : list string :=
  let st := scan_hextets (mk_scan (-1) 0 (-1) 0) 0 hextets in
  if best_doublecolon_len st >? 1 then
    let best_doublecolon_end := best_doublecolon_start st + best_doublecolon_len st in
    let hextets1 :=
      if best_doublecolon_end =? len hextets then hextets ++ [EmptyString]
      else hextets in
    let hextets2 :=
      firstn (Z.to_nat (best_doublecolon_start st)) hextets1
        ++ [EmptyString]
        ++ skipn (Z.to_nat best_doublecolon_end) hextets1 in
    if best_doublecolon_start st =? 0 then EmptyString :: hextets2
    else hextets2
  else hextets.

(** [int(hex_str[x:x+4], 16)] rendered again with ['%x']. *)
Definition hextet_at (hex_str : string) (x : nat) : string :=
  Str.hex (Str.int16_acc 0 (substring x 4 hex_str)).

(** The compressed hexadecimal notation of a 128-bit integer. *)
Definition v6_text (ip_int : Z) : string :=
  let hex_str := Str.hex032 ip_int in
  let hextets := map (hextet_at hex_str) [0; 4; 8; 12; 16; 20; 24; 28]%nat in
  Str.join ":" (compress_hextets hextets).

(** [_BaseV6._string_from_ip_int]. *)
Definition v6_string_from_ip_int (ip_int : Z) : result string :=
  if ip_int >? ALL_ONES V6 then Raise ValueError
  else Ok (v6_text ip_int).

(* ----------------------------------------------------------------- *)
(** *** Both versions *)

(** [str(address)]. *)
Definition str (a : address) : result string :=
  match version a with
  | V4 => v4_string_from_ip_int (ip a)
  | V6 =>
      ip_str <- v6_string_from_ip_int (ip a) ;;
      match scope_id a with
      | Some sc => if Str.truthy sc then Ok (ip_str ++ "%" ++ sc)%string else Ok ip_str
      | None => Ok ip_str
      end
  end.

(** The text of an address that carries no scope. *)
Definition text_of (v : ip_version) (ip_int : Z) : string :=
  match v with V4 => v4_text ip_int | V6 => v6_text ip_int end.

Definition is_Address_or_Netmask_ValueError (e : exn) : bool :=
  is_AddressValueError e || is_NetmaskValueError e.

(** [ip_network(text, strict)]. *)
Definition ip_network (addr_text : string) (strict : bool) : result network :=
  try_except (IPv4Network addr_text strict) is_Address_or_Netmask_ValueError
    (fun _ =>
       try_except (IPv6Network addr_text strict) is_Address_or_Netmask_ValueError
         (fun _ => Raise ValueError)).

(** [self._address_class(n)]. *)
Definition address_class (n : network) (x : Z) : result address :=
  address_of_int (net_version n) x.

(** [network.hostmask]. *)
Definition hostmask (n : network) : result address :=
  address_class n (Z.lxor (int_of (netmask n)) (ALL_ONES (net_version n))).

(** [network.broadcast_address]. *)
Definition broadcast_address (n : network) : result address :=
  h <- hostmask n ;;
  address_class n (Z.lor (int_of (network_address n)) (int_of h)).

(** [network.num_addresses]. *)
Definition num_addresses (n : network) : result Z :=
  b <- broadcast_address n ;;
  Ok (int_of b - int_of (network_address n) + 1).

End ipaddress.

(** [range(a, b)] as a list. *)
Definition py_range (a b : Z) : list Z :=
  map (fun i => a + Z.of_nat i) (seq 0 (Z.to_nat (b - a))).

Definition nl : string := String (ascii_of_nat 10) EmptyString.

(* ================================================================= *)
(** ** Python [float]: binary64 *)

Module PyFloat.

Definition prec : Z := 53.
Definition emax : Z := 1024.

Definition float : Type := spec_float.

(** The literals [0.0] and [1.0]. *)
Definition zero : float := S754_zero false.
Definition one : float := S754_finite false 4503599627370496 (-52).

(** [a < b], [a <= b]; [a > b] is [ltb b a] and [a >= b] is [leb b a]. *)
Definition ltb (a b : float) : bool := SFltb a b.
Definition leb (a b : float) : bool := SFleb a b.

Definition mul (a b : float) : float := SFmul prec emax a b.

(** Conversion of an [int] operand of a [float] operation: rounded to
    nearest, ties to even; [OverflowError] when the result is not finite. *)
Definition of_int (n : Z) : result float :=
  match binary_normalize prec emax n 0 false with
  | S754_infinity _ => Raise OverflowError
  | f => Ok f
  end.

(** [int(x)]: truncation towards zero; [ValueError] on a NaN and
    [OverflowError] on an infinity. *)
Definition to_int (x : float) : result Z :=
  match x with
  | S754_zero _ => Ok 0
  | S754_nan => Raise ValueError
  | S754_infinity _ => Raise OverflowError
  | S754_finite s m e =>
      let a := if 0 <=? e then Z.shiftl (Zpos m) e else Z.shiftr (Zpos m) (- e) in
      Ok (if s then - a else a)
  end.

(** The builtins [min(a, b)] and [max(a, b)]: the first argument is kept
    unless the second compares strictly below (above) it. *)
Definition min (a b : float) : float := if ltb b a then b else a.
Definition max (a b : float) : float := if ltb a b then b else a.

End PyFloat.

(** [int * float]: the [int] is converted first. *)
Definition int_times_float (n : Z) (x : PyFloat.float) : result PyFloat.float :=
  f <- PyFloat.of_int n ;;
  Ok (PyFloat.mul f x).

(* ================================================================= *)
(** ** [pathlib.Path] on a POSIX system *)

Record path : Type := mk_path {
  root : string;          (* the empty string, "/" or "//" *)
  parts : list string     (* the components after the root *)
}.

Definition lstrip_sep (s : string) : string :=
  (fix go (s : string) : string :=
     match s with
     | String c s' => if Str.eqb_ascii c "/" then go s' else s
     | EmptyString => EmptyString
     end) s.

(** [splitroot] of the POSIX flavour: exactly two leading slashes are kept. *)
Definition splitroot (part : string) : string * string :=
  if Str.startswith "/" part then
    let stripped := lstrip_sep part in
    if Nat.eqb (String.length part - String.length stripped) 2
    then ("//"%string, stripped)
    else ("/"%string, stripped)
  else (EmptyString, part).

Definition keep_component (x : string) : bool :=
  negb (Str.is_empty x) && negb (String.eqb x ".").

(** [Path(text)]. *)
Definition Path (text : string) : path :=
  let '(r, rel) := splitroot text in
  mk_path r (filter keep_component (Str.split "/" rel)).

(** [p / text]. *)
Definition path_join (p : path) (text : string) : path :=
  let q := Path text in
  if Str.is_empty (root q) then mk_path (root p) (parts p ++ parts q) else q.

(** [p.name]. *)
Definition path_name (p : path) : string := last (parts p) EmptyString.

(** [name.rfind('.')], [None] standing for [-1]. *)
Fixpoint rfind_dot (name : string) (i : nat) : option nat :=
  match name with
  | EmptyString => None
  | String c s' =>
      match rfind_dot s' (S i) with
      | Some j => Some j
      | None => if Str.eqb_ascii c "." then Some i else None
      end
  end.

(** [p.stem]. *)
Definition stem (p : path) : string :=
  let name := path_name p in
  match rfind_dot name 0 with
  | Some i =>
      if (0 <? i)%nat && (i <? String.length name - 1)%nat
      then substring 0 i name else name
  | None => name
  end.

Definition path_eqb (p q : path) : bool :=
  String.eqb (root p) (root q)
  && Nat.eqb (List.length (parts p)) (List.length (parts q))
  && List.forallb (fun xy => String.eqb (fst xy) (snd xy)) (combine (parts p) (parts q)).

(* ================================================================= *)
(** ** The file system and the trace of effects *)

(** What iterating over an opened file delivers: all its lines, or some of
    them before an exception ([open] itself failing delivers none). *)
Inductive read_outcome : Type :=
| ReadAll (lines : list string)
| ReadFails (delivered : list string).

Inductive fs_node : Type :=
| RegularFile (content : read_outcome)
| Directory (names : list string).

Record world : Type := mk_world {
  stat : path -> option fs_node;
  mkdir_fails : path -> bool;
  open_for_writing_fails : path -> bool
}.

Definition is_file (w : world) (p : path) : bool :=
  match stat w p with Some (RegularFile _) => true | _ => false end.

Definition is_dir (w : world) (p : path) : bool :=
  match stat w p with Some (Directory _) => true | _ => false end.

(** [p._make_child_relpath(name)]: the entry [name] of the directory [p]. *)
Definition make_child_relpath (p : path) (name : string) : path :=
  mk_path (root p) (parts p ++ [name]).

(** [p.glob("*.zone")]: the entries of the directory whose name ends in
    [.zone], whatever their kind. *)
Definition glob_zone (w : world) (p : path) : list path :=
  match stat w p with
  | Some (Directory names) =>
      map (make_child_relpath p) (filter (Str.endswith ".zone") names)
  | _ => []
  end.

(** [open(p, "r")] followed by iteration. *)
Definition read_lines (w : world) (p : path) : read_outcome :=
  match stat w p with
  | Some (RegularFile c) => c
  | _ => ReadFails []
  end.

Inductive level : Type := DEBUG | INFO | WARNING | ERROR.

(** One constructor per logging call of the program, with the values it
    formats. *)
Inductive message : Type :=
| ErrorProcessingCIDR (cidr : string)
| SkippingInvalidLine (line_num : Z) (name line : string)
| ErrorReadingFile (p : path)
| SavedJSON (name : string)
| ErrorSavingJSON (base_name : string)
| SavedCSV (name : string)
| ErrorSavingCSV (base_name : string)
| CouldNotExpandCIDR (cidr base_name : string)
| SavedTXT (name : string)
| ErrorSavingTXT (base_name : string)
| Processing (base_upper : string)
| NoValidRangesFound (base_upper : string)
| FileOK (base_upper : string) (ranges ips : Z)
| OutputDirectory (p : path)
| SamplingEnabled (rate : PyFloat.float)
| ProcessingSingleFile (name : string)
| FoundZoneFiles (n : Z) (p : path)
| InputPathNotFound (p : path)
| NoFilesToProcess
| Separator
| GeneratedException (name : string)
| OperationTimedOut
| ConversionSummary
| SummaryProcessed (n : Z)
| SummaryFailed (n : Z)
| SummaryRanges (n : Z)
| SummaryAddresses (n : Z)
| SummarySamplingRate (rate : PyFloat.float)
| SummaryOutputSavedTo (p : path)
| ConverterBanner
| OutputFileNeedsSingleFile
| NoFilesWereProcessed
| ErrorDuringConversion.

(** The dictionary built by [cidr_to_ip_range]. *)
Module Range.
Record t : Type := mk {
  cidr : string;
  start_ip : string;
  end_ip : string;
  total_ips : Z
}.
End Range.

(** The dictionary handed to [json.dump]. *)
Module JsonDoc.
Record t : Type := mk {
  source : string;
  total_ranges : Z;
  total_ips : Z;
  sample_rate : PyFloat.float;
  ranges : list Range.t
}.
End JsonDoc.

Inductive body : Type :=
| Json (doc : JsonDoc.t)
| Text (lines : list string).

(** What a run does to the outside: log records, and files opened for
    writing together with what was written before they were closed. *)
Inductive event : Type :=
| Log (lvl : level) (msg : message)
| Wrote (p : path) (b : body).

Definition is_write (e : event) : bool :=
  match e with Wrote _ _ => true | Log _ _ => false end.

Definition written_paths (tr : list event) : list path :=
  flat_map (fun e => match e with Wrote p _ => [p] | Log _ _ => [] end) tr.

(* ================================================================= *)
(** ** [sorted] and [random.sample] *)

Module ZOrder <: TotalLeBool.

Definition t : Type := Z.

Definition leb (a b : Z) : bool := a <=? b.

Theorem leb_total : forall a b, leb a b = true \/ leb b a = true.
Proof.
  intros a b. unfold leb.
  destruct (Z.leb_spec a b); [now left | right; apply Z.leb_le; lia].
Qed.

End ZOrder.

Module ZSort := Sort ZOrder.

(** [sorted(l)] on a list of [int]. *)
Definition sorted (l : list Z) : list Z := ZSort.sort l.

(** What one call [random.sample(range(n), k)] returned: the calls of a run
    are told apart by the file and the position of the range in it. *)
Definition sampler : Type := string -> nat -> Z -> Z -> list Z.

(** [random.sample(range(n), k)]: [ValueError] when [k] is negative or above
    [n], otherwise the oracle's choice. *)
Definition random_sample (rng : sampler) (base_name : string) (call : nat)
    (n k : Z) : result (list Z) :=
  if (k <? 0) || (n <? k) then Raise ValueError
  else Ok (rng base_name call n k).

(** The contract of [random.sample(range(n), k)]: [k] distinct elements of
    [range(n)]. *)
Definition is_sample (n k : Z) (s : list Z) : Prop :=
  Z.of_nat (List.length s) = k /\ NoDup s /\ Forall (fun x => 0 <= x < n) s.

Definition fair (rng : sampler) : Prop :=
  forall base_name call n k, 0 <= k <= n -> is_sample n k (rng base_name call n k).

(* ================================================================= *)
(** ** [utils.py] *)

(** [validate_cidr]; on a [str] argument [strip] cannot raise
    [AttributeError], which leaves [ValueError] to catch. *)
Definition validate_cidr (cidr : string) : result bool :=
  try_except
    (_ <- ipaddress.ip_network (Str.strip cidr) false ;; Ok true)
    is_ValueError
    (fun _ => Ok false).

(** [ensure_directory]: [mkdir(parents=True, exist_ok=True)]. *)
Definition ensure_directory (w : world) (p : path) : result path :=
  if mkdir_fails w p then Raise OSError else Ok p.

(** The [converter] section of a configuration; [None] for an absent key. *)
Record converter_config : Type := mk_config {
  cfg_input_dir : option string;
  cfg_output_dir : option string;
  cfg_output_formats : option (list string);
  cfg_sample_rate : option PyFloat.float
}.

(** The [converter] section of [get_default_config()]. *)
Definition get_default_config : converter_config :=
  mk_config (Some "data/ip_zones"%string) (Some "data/ip_ranges"%string)
    (Some ["json"; "csv"; "txt"]%string) None.

(* ================================================================= *)
(** ** [converter.py]: class [CIDRConverter] *)

Module Converter.
Record t : Type := mk {
  input_path : path;
  output_dir : path;
  sample_rate : PyFloat.float;
  max_workers : Z;
  timeout : option Z;
  output_file_name : option string;
  output_formats : list string;
  total_ranges : Z;
  total_ips : Z;
  processed_files : Z;
  failed_files : Z
}.
End Converter.

Definition str_in (x : string) (l : list string) : bool :=
  existsb (String.eqb x) l.

(** Truth value of an optional [str]. *)
Definition opt_truthy (o : option string) : bool :=
  match o with Some s => Str.truthy s | None => false end.

(** [CIDRConverter.__init__]. *)
Definition init (input_path output_dir : string)
    (output_formats : option (list string)) (sample_rate : PyFloat.float)
    (max_workers : Z) (timeout : option Z) (output_file_name : option string)
    : Converter.t :=
  let output_formats :=
    match output_formats with
    | None => ["json"; "csv"; "txt"]%string
    | Some fs => if str_in "all" fs then ["json"; "csv"; "txt"]%string else fs
    end in
  Converter.mk
    (Path input_path)
    (Path output_dir)
    (PyFloat.max PyFloat.zero (PyFloat.min PyFloat.one sample_rate))
    (Z.max 1 max_workers)
    timeout
    output_file_name
    output_formats
    0 0 0 0.

(** [CIDRConverter.cidr_to_ip_range]: the log records and the value. *)
Definition cidr_to_ip_range (self : Converter.t) (cidr : string)
    : list event * result (option Range.t) :=
  match validate_cidr cidr with
  | Raise e => ([], Raise e)
  | Ok false => ([], Ok None)
  | Ok true =>
      match
        (network <- ipaddress.ip_network (Str.strip cidr) false ;;
         start <- ipaddress.str (ipaddress.network_address network) ;;
         b <- ipaddress.broadcast_address network ;;
         stop <- ipaddress.str b ;;
         n <- ipaddress.num_addresses network ;;
         Ok (Range.mk (Str.strip cidr) start stop n))
      with
      | Ok r => ([], Ok (Some r))
      | Raise e =>
          if is_ValueError e
          then ([Log WARNING (ErrorProcessingCIDR cidr)], Ok None)
          else ([], Raise e)
      end
  end.

(** The body of the loop of [process_zone_file] over the lines still to be
    read: the log, the list [ip_ranges] as it stands when the loop ends, and
    the exception that ended it, if any. *)
Fixpoint process_lines (self : Converter.t) (name : string) (line_num : Z)
    (lines : list string) (ip_ranges : list Range.t)
    : list event * list Range.t * option exn :=
  match lines with
  | [] => ([], ip_ranges, None)
  | line :: rest =>
      let line := Str.strip line in
      if Str.is_empty line || Str.startswith "#" line then
        process_lines self name (line_num + 1) rest ip_ranges
      else
        match cidr_to_ip_range self line with
        | (tr, Ok (Some ip_range)) =>
            let '(tr', rs, e) :=
              process_lines self name (line_num + 1) rest (ip_ranges ++ [ip_range]) in
            (tr ++ tr', rs, e)
        | (tr, Ok None) =>
            let '(tr', rs, e) :=
              process_lines self name (line_num + 1) rest ip_ranges in
            (tr ++ Log DEBUG (SkippingInvalidLine line_num name line) :: tr', rs, e)
        | (tr, Raise e) => (tr, ip_ranges, Some e)
        end
  end.

(** [CIDRConverter.process_zone_file]. *)
Definition process_zone_file (w : world) (self : Converter.t) (zone_file_path : path)
    : list event * list Range.t :=
  let name := path_name zone_file_path in
  match read_lines w zone_file_path with
  | ReadAll lines =>
      let '(tr, rs, e) := process_lines self name 1 lines [] in
      match e with
      | None => (tr, rs)
      | Some _ => (tr ++ [Log ERROR (ErrorReadingFile zone_file_path)], rs)
      end
  | ReadFails lines =>
      let '(tr, rs, _) := process_lines self name 1 lines [] in
      (tr ++ [Log ERROR (ErrorReadingFile zone_file_path)], rs)
  end.

(** The choice of the output file, shared by the three [save_ranges_*]:
    the explicit name when there is one and a single format was asked for,
    otherwise [<base_name>_ranges.<ext>]. *)
Definition output_file_for (self : Converter.t) (base_name ext : string) : path :=
  if opt_truthy (Converter.output_file_name self)
     && (Z.of_nat (List.length (Converter.output_formats self)) =? 1)
  then
    match Converter.output_file_name self with
    | Some name => path_join (Converter.output_dir self) name
    | None => Converter.output_dir self
    end
  else path_join (Converter.output_dir self) (base_name ++ "_ranges." ++ ext)%string.

(** [sum(r["total_ips"] for r in ip_ranges)]. *)
Definition sum_total_ips (ip_ranges : list Range.t) : Z :=
  fold_left (fun acc r => acc + Range.total_ips r) ip_ranges 0.

(** [CIDRConverter.save_ranges_json]. *)
Definition save_ranges_json (w : world) (self : Converter.t) (base_name : string)
    (ip_ranges : list Range.t) : list event :=
  let output_file := output_file_for self base_name "json" in
  if open_for_writing_fails w output_file
  then [Log ERROR (ErrorSavingJSON base_name)]
  else
    [Wrote output_file
       (Json (JsonDoc.mk (Str.upper base_name)
                (Z.of_nat (List.length ip_ranges))
                (sum_total_ips ip_ranges)
                (Converter.sample_rate self)
                ip_ranges));
     Log DEBUG (SavedJSON (path_name output_file))].

Definition csv_row (r : Range.t) : string :=
  (Range.cidr r ++ "," ++ Range.start_ip r ++ "," ++ Range.end_ip r ++ ","
     ++ Str.of_int (Range.total_ips r) ++ nl)%string.

(** [CIDRConverter.save_ranges_csv]. *)
Definition save_ranges_csv (w : world) (self : Converter.t) (base_name : string)
    (ip_ranges : list Range.t) : list event :=
  let output_file := output_file_for self base_name "csv" in
  if open_for_writing_fails w output_file
  then [Log ERROR (ErrorSavingCSV base_name)]
  else
    [Wrote output_file
       (Text (("CIDR,Start_IP,End_IP,Total_IPs" ++ nl)%string :: map csv_row ip_ranges));
     Log DEBUG (SavedCSV (path_name output_file))].

(** A loop [for x in xs: f.write(...)] whose body may raise: the lines
    written, and the exception that stopped the loop, if any. *)
Fixpoint write_each {A : Type} (line_of : A -> result string) (xs : list A)
    : list string * option exn :=
  match xs with
  | [] => ([], None)
  | x :: xs' =>
      match line_of x with
      | Ok s => let '(ls, e) := write_each line_of xs' in (s :: ls, e)
      | Raise e => ([], Some e)
      end
  end.

(** [f"{ip}\n"]. *)
Definition address_line (a : ipaddress.address) : result string :=
  s <- ipaddress.str a ;; Ok (s ++ nl)%string.

(** [for ip in network: f.write(f"{ip}\n")], with [network.__iter__]
    unfolded. *)
Definition write_network (network : ipaddress.network) : list string * option exn :=
  match ipaddress.broadcast_address network with
  | Raise e => ([], Some e)
  | Ok broadcast =>
      write_each
        (fun x => ip <- ipaddress.address_class network x ;; address_line ip)
        (py_range (ipaddress.int_of (ipaddress.network_address network))
                  (ipaddress.int_of broadcast + 1))
  end.

(** [for idx in indices: ...], the loop of the sampling branch. *)
Definition write_indices (network_int : Z) (indices : list Z)
    : list string * option exn :=
  write_each
    (fun idx =>
       let ip_int := network_int + idx in
       ip <- ipaddress.IPv4Address_of_int ip_int ;; address_line ip)
    indices.

(** [k = max(1, int(total_ips * self.sample_rate))]. *)
Definition sample_size (total_ips : Z) (sample_rate : PyFloat.float) : result Z :=
  x <- int_times_float total_ips sample_rate ;;
  v <- PyFloat.to_int x ;;
  Ok (Z.max 1 v).

(** The body of the inner [try] of [save_ranges_txt] for one range: the
    lines written for it and the exception that left the body, if any. *)
Definition write_range (rng : sampler) (self : Converter.t) (base_name : string)
    (call : nat) (ip_range : Range.t) : list string * option exn :=
  match ipaddress.ip_network (Range.cidr ip_range) false with
  | Raise e => ([], Some e)
  | Ok network =>
      if PyFloat.leb PyFloat.one (Converter.sample_rate self) then
        write_network network
      else if PyFloat.ltb PyFloat.zero (Converter.sample_rate self) then
        match
          (total_ips <- ipaddress.num_addresses network ;;
           k <- sample_size total_ips (Converter.sample_rate self) ;;
           Ok (total_ips, k))
        with
        | Raise e => ([], Some e)
        | Ok (total_ips, k) =>
            if k >=? total_ips then write_network network
            else
              match random_sample rng base_name call total_ips k with
              | Raise e => ([], Some e)
              | Ok chosen =>
                  let indices := sorted chosen in
                  let network_int := ipaddress.int_of (ipaddress.network_address network) in
                  write_indices network_int indices
              end
        end
      else ([], None)
  end.

(** The loop [for ip_range in ip_ranges] of [save_ranges_txt]: the lines of
    the file, the warnings logged, and the exception other than
    [ValueError] that ended the loop, if any. *)
Fixpoint write_ranges (rng : sampler) (self : Converter.t) (base_name : string)
    (call : nat) (ip_ranges : list Range.t)
    : list string * list event * option exn :=
  match ip_ranges with
  | [] => ([], [], None)
  | ip_range :: rest =>
      match write_range rng self base_name call ip_range with
      | (ls, None) =>
          let '(ls', tr, e) := write_ranges rng self base_name (S call) rest in
          (ls ++ ls', tr, e)
      | (ls, Some ex) =>
          if is_ValueError ex then
            let '(ls', tr, e) := write_ranges rng self base_name (S call) rest in
            (ls ++ ls',
             Log WARNING (CouldNotExpandCIDR (Range.cidr ip_range) base_name) :: tr,
             e)
          else (ls, [], Some ex)
      end
  end.

(** [CIDRConverter.save_ranges_txt]. *)
Definition save_ranges_txt (w : world) (rng : sampler) (self : Converter.t)
    (base_name : string) (ip_ranges : list Range.t) : list event :=
  let output_file := output_file_for self base_name "txt" in
  if open_for_writing_fails w output_file
  then [Log ERROR (ErrorSavingTXT base_name)]
  else
    let '(ls, tr, e) := write_ranges rng self base_name 0 ip_ranges in
    tr ++ [Wrote output_file (Text ls)]
       ++ match e with
          | None => [Log DEBUG (SavedTXT (path_name output_file))]
          | Some _ => [Log ERROR (ErrorSavingTXT base_name)]
          end.

(** The dictionary returned by [convert_file]. *)
Module FileStats.
Record t : Type := mk { ranges : Z; ips : Z }.
End FileStats.

(** [CIDRConverter.convert_file]. *)
Definition convert_file (w : world) (rng : sampler) (self : Converter.t)
    (zone_file : path) : list event * result (option FileStats.t) :=
  let base_name := stem zone_file in
  let '(tr, ip_ranges) := process_zone_file w self zone_file in
  let tr := Log INFO (Processing (Str.upper base_name)) :: tr in
  match ip_ranges with
  | [] => (tr ++ [Log WARNING (NoValidRangesFound (Str.upper base_name))], Ok None)
  | _ :: _ =>
      let file_ranges := Z.of_nat (List.length ip_ranges) in
      let file_ips := sum_total_ips ip_ranges in
      let tr_json :=
        if str_in "json" (Converter.output_formats self)
        then save_ranges_json w self base_name ip_ranges else [] in
      let tr_csv :=
        if str_in "csv" (Converter.output_formats self)
        then save_ranges_csv w self base_name ip_ranges else [] in
      let tr_txt :=
        if str_in "txt" (Converter.output_formats self)
        then save_ranges_txt w rng self base_name ip_ranges else [] in
      (tr ++ tr_json ++ tr_csv ++ tr_txt
          ++ [Log INFO (FileOK (Str.upper base_name) file_ranges file_ips)],
       Ok (Some (FileStats.mk file_ranges file_ips)))
  end.

(** The dictionary returned by [convert_all]; the two early returns leave
    the key ["failed_files"] out. *)
Module Stats.
Record t : Type := mk {
  total_files : Z;
  processed_files : Z;
  failed_files : option Z;
  total_ranges : Z;
  total_ips : Z
}.
End Stats.

Definition no_files : Stats.t := Stats.mk 0 0 None 0 0.

(** How the thread pool ran the submitted tasks: the order in which the
    futures completed (positions in [zone_files]); after how many of them
    [as_completed] raised [TimeoutError], if it did; and, for a task not
    yet delivered by then, whether it had already started, so that
    [cancel()] came too late and its effects still happen. *)
Record schedule : Type := mk_schedule {
  completion_order : list nat;
  timed_out_after : option nat;
  started : nat -> bool
}.

(** The files to process: [None] when the input path is neither a file nor
    a directory. *)
Definition discover (w : world) (self : Converter.t) : option (list path * event) :=
  let input_path := Converter.input_path self in
  if is_file w input_path then
    Some ([input_path], Log INFO (ProcessingSingleFile (path_name input_path)))
  else if is_dir w input_path then
    let zone_files := glob_zone w input_path in
    Some (zone_files,
          Log INFO (FoundZoneFiles (Z.of_nat (List.length zone_files)) input_path))
  else None.

(** The statistics are reset before the tasks are submitted. *)
Definition reset_statistics (self : Converter.t) : Converter.t :=
  Converter.mk
    (Converter.input_path self) (Converter.output_dir self)
    (Converter.sample_rate self) (Converter.max_workers self)
    (Converter.timeout self) (Converter.output_file_name self)
    (Converter.output_formats self)
    0 0 0 0.

Definition add_processed (self : Converter.t) (stats : FileStats.t) : Converter.t :=
  Converter.mk
    (Converter.input_path self) (Converter.output_dir self)
    (Converter.sample_rate self) (Converter.max_workers self)
    (Converter.timeout self) (Converter.output_file_name self)
    (Converter.output_formats self)
    (Converter.total_ranges self + FileStats.ranges stats)
    (Converter.total_ips self + FileStats.ips stats)
    (Converter.processed_files self + 1)
    (Converter.failed_files self).

Definition add_failed (self : Converter.t) : Converter.t :=
  Converter.mk
    (Converter.input_path self) (Converter.output_dir self)
    (Converter.sample_rate self) (Converter.max_workers self)
    (Converter.timeout self) (Converter.output_file_name self)
    (Converter.output_formats self)
    (Converter.total_ranges self)
    (Converter.total_ips self)
    (Converter.processed_files self)
    (Converter.failed_files self + 1).

(** The body of the loop over [as_completed]: [stats = future.result()],
    then the update of the counters. *)
Definition aggregate (self : Converter.t) (zf : path)
    (outcome : result (option FileStats.t)) : Converter.t * list event :=
  match outcome with
  | Ok (Some stats) => (add_processed self stats, [])
  | Ok None => (add_failed self, [])
  | Raise e =>
      if is_Exception e
      then (add_failed self, [Log ERROR (GeneratedException (path_name zf))])
      else (self, [])
  end.

(** The futures [as_completed] delivers before the loop ends. *)
Definition delivered (self : Converter.t) (sched : schedule) : list nat :=
  match Converter.timeout self, timed_out_after sched with
  | Some _, Some n => firstn n (completion_order sched)
  | _, _ => completion_order sched
  end.

Definition timed_out (self : Converter.t) (sched : schedule) : bool :=
  match Converter.timeout self, timed_out_after sched with
  | Some _, Some _ => true
  | _, _ => false
  end.

(** The tasks that ran without being delivered: those [cancel()] could not
    stop. *)
Definition undelivered_but_run (self : Converter.t) (sched : schedule) : list nat :=
  match Converter.timeout self, timed_out_after sched with
  | Some _, Some n => filter (started sched) (skipn n (completion_order sched))
  | _, _ => []
  end.

(** The loop over the delivered futures. *)
Fixpoint drain (w : world) (rng : sampler) (zone_files : list path)
    (futures : list nat) (self : Converter.t) : Converter.t * list event :=
  match futures with
  | [] => (self, [])
  | i :: rest =>
      match nth_error zone_files i with
      | None => drain w rng zone_files rest self
      | Some zf =>
          let '(tr, outcome) := convert_file w rng self zf in
          let '(self1, tr1) := aggregate self zf outcome in
          let '(self2, tr2) := drain w rng zone_files rest self1 in
          (self2, tr ++ tr1 ++ tr2)
      end
  end.

(** The effects of the tasks that ran without being delivered. *)
Definition late_effects (w : world) (rng : sampler) (zone_files : list path)
    (self : Converter.t) (tasks : list nat) : list event :=
  flat_map
    (fun i =>
       match nth_error zone_files i with
       | None => []
       | Some zf => fst (convert_file w rng self zf)
       end)
    tasks.

Definition summary (self : Converter.t) : list event :=
  [Log INFO Separator; Log INFO ConversionSummary;
   Log INFO (SummaryProcessed (Converter.processed_files self))]
  ++ (if Converter.failed_files self >? 0
      then [Log INFO (SummaryFailed (Converter.failed_files self))] else [])
  ++ [Log INFO (SummaryRanges (Converter.total_ranges self));
      Log INFO (SummaryAddresses (Converter.total_ips self))]
  ++ (if PyFloat.ltb (Converter.sample_rate self) PyFloat.one
      then [Log INFO (SummarySamplingRate (Converter.sample_rate self))] else [])
  ++ [Log INFO (SummaryOutputSavedTo (Converter.output_dir self))].

(** [CIDRConverter.convert_all]: the trace, the converter as the call
    leaves it, and the returned dictionary or the exception raised. *)
Definition convert_all (w : world) (rng : sampler) (sched : schedule)
    (self : Converter.t) : list event * Converter.t * result Stats.t :=
  match ensure_directory w (Converter.output_dir self) with
  | Raise e => ([], self, Raise e)
  | Ok _ =>
      let tr0 :=
        Log INFO (OutputDirectory (Converter.output_dir self))
        :: (if PyFloat.ltb (Converter.sample_rate self) PyFloat.one
            then [Log INFO (SamplingEnabled (Converter.sample_rate self))]
            else []) in
      match discover w self with
      | None =>
          (tr0 ++ [Log ERROR (InputPathNotFound (Converter.input_path self))],
           self, Ok no_files)
      | Some ([], found) =>
          (tr0 ++ [found; Log WARNING NoFilesToProcess], self, Ok no_files)
      | Some (zone_files, found) =>
          let self0 := reset_statistics self in
          let '(self1, tr1) := drain w rng zone_files (delivered self sched) self0 in
          let tr2 :=
            if timed_out self sched
            then Log ERROR OperationTimedOut
                 :: late_effects w rng zone_files self0 (undelivered_but_run self sched)
            else [] in
          (tr0 ++ [found; Log INFO Separator] ++ tr1 ++ tr2 ++ summary self1,
           self1,
           Ok (Stats.mk (Z.of_nat (List.length zone_files))
                 (Converter.processed_files self1)
                 (Some (Converter.failed_files self1))
                 (Converter.total_ranges self1)
                 (Converter.total_ips self1)))
      end
  end.

(** Python's [a or b] on optional text. *)
Definition or_else (a : option string) (b : string) : string :=
  match a with
  | Some s => if Str.truthy s then s else b
  | None => b
  end.

Definition get {A : Type} (o : option A) (default : A) : A :=
  match o with Some a => a | None => default end.

(** [convert_cidr_ranges], the configuration being given by its
    [converter] section ([None]: the default configuration). *)
Definition convert_cidr_ranges (w : world) (rng : sampler) (sched : schedule)
    (input_path output_dir : option string) (output_formats : option (list string))
    (sample_rate : option PyFloat.float) (max_workers : Z) (timeout : option Z)
    (output_file_name : option string) (config : option converter_config)
    : list event * Converter.t * result Stats.t :=
  let converter_config := get config get_default_config in
  let sample_rate :=
    match sample_rate with
    | Some r => r
    | None => get (cfg_sample_rate converter_config) PyFloat.one
    end in
  let converter :=
    init
      (or_else input_path (get (cfg_input_dir converter_config) "data/ip_zones"%string))
      (or_else output_dir (get (cfg_output_dir converter_config) "data/ip_ranges"%string))
      (Some match output_formats with
            | Some (f :: fs) => f :: fs
            | _ => get (cfg_output_formats converter_config) ["json"; "csv"; "txt"]%string
            end)
      sample_rate max_workers timeout output_file_name in
  convert_all w rng sched converter.

(* ================================================================= *)
(** ** [__main__.py]: the [convert] command *)

Record convert_args : Type := mk_args {
  arg_input : option string;
  arg_output : option string;
  arg_output_file : option string;
  arg_format : option (list string);
  arg_sample_rate : option PyFloat.float;
  arg_threads : Z;
  arg_timeout : option Z
}.

(** The [convert] branch of [main]: the trace and the exit status of the
    process. *)
Definition main_convert (w : world) (rng : sampler) (sched : schedule)
    (config : converter_config) (args : convert_args) : list event * Z :=
  let banner := [Log INFO Separator; Log INFO ConverterBanner; Log INFO Separator] in
  if opt_truthy (arg_output_file args) && opt_truthy (arg_input args)
     && is_dir w (Path (get (arg_input args) EmptyString))
  then (banner ++ [Log ERROR OutputFileNeedsSingleFile], 1)
  else
    let '(tr, _, outcome) :=
      convert_cidr_ranges w rng sched (arg_input args) (arg_output args)
        (arg_format args) (arg_sample_rate args) (arg_threads args)
        (arg_timeout args) (arg_output_file args) (Some config) in
    match outcome with
    | Ok stats =>
        if Stats.processed_files stats =? 0
        then (banner ++ tr ++ [Log WARNING NoFilesWereProcessed], 1)
        else (banner ++ tr, 0)
    | Raise e =>
        if is_Exception e then (banner ++ tr ++ [Log ERROR ErrorDuringConversion], 1)
        else (banner ++ tr, 1)
    end.

(* ================================================================= *)
(** ** [utils.py]: [format_bytes] *)

(** [a / b] on floats, for a divisor other than zero. *)
Definition float_div (a b : PyFloat.float) : PyFloat.float :=
  SFdiv PyFloat.prec PyFloat.emax a b.

(** The literal [1024.0]. *)
Definition kibi : PyFloat.float := S754_finite false 4503599627370496 (-42).

(** The number of tenths nearest to [m * 2 ^ e], a tie going to the even
    one. *)
Definition tenths (m : positive) (e : Z) : Z :=
  if 0 <=? e then Zpos m * 2 ^ e * 10
  else
    let num := Zpos m * 10 in
    let den := 2 ^ (- e) in
    let q := num / den in
    let r := num mod den in
    if (den <? 2 * r) || ((2 * r =? den) && Z.odd q) then q + 1 else q.

(** [format(x, ".1f")]. *)
Definition format_1f (x : PyFloat.float) : string :=
  match x with
  | S754_nan => "nan"
  | S754_infinity s => if s then "-inf" else "inf"
  | S754_zero s => if s then "-0.0" else "0.0"
  | S754_finite s m e =>
      let t := tenths m e in
      ((if s then "-" else "") ++ Str.of_int (t / 10) ++ "." ++ Str.of_int (t mod 10))%string
  end.

(** The variable [size] of [format_bytes]: the [int] it is called with,
    then the [float] that [size /= 1024.0] makes of it. *)
Inductive number : Type :=
| Int (n : Z)
| Float (x : PyFloat.float).

(** [size < 1024.0]; an [int] and a [float] are compared exactly. *)
Definition below_1024 (size : number) : bool :=
  match size with
  | Int n => n <? 1024
  | Float x => PyFloat.ltb x kibi
  end.

(** [f"{size:.1f}"]; an [int] is converted to a [float] first. *)
Definition format_size (size : number) : result string :=
  match size with
  | Int n => x <- PyFloat.of_int n ;; Ok (format_1f x)
  | Float x => Ok (format_1f x)
  end.

(** [size /= 1024.0]. *)
Definition divide_by_1024 (size : number) : result number :=
  match size with
  | Int n => x <- PyFloat.of_int n ;; Ok (Float (float_div x kibi))
  | Float x => Ok (Float (float_div x kibi))
  end.

(** The loop of [format_bytes] over the units still to try, and the
    [return] after it. *)
Fixpoint format_bytes_from (units : list string) (size : number) : result string :=
  match units with
  | [] => text <- format_size size ;; Ok (text ++ " PB")%string
  | unit :: rest =>
      if below_1024 size then
        text <- format_size size ;; Ok (text ++ " " ++ unit)%string
      else
        size' <- divide_by_1024 size ;;
        format_bytes_from rest size'
  end.

(** [format_bytes]. *)
Definition format_bytes (size : Z) : result string :=
  format_bytes_from ["B"; "KB"; "MB"; "GB"; "TB"]%string (Int size).

(* ================================================================= *)
(** ** The network and the clock *)

(** What [requests.get(url, timeout=...)] followed by
    [response.raise_for_status()] comes to: the content of the response, a
    [requests.RequestException] (an error status included), or an exception
    of another class. *)
Inductive reply : Type :=
| Content (body : string)
| RequestException
| OtherException (e : exn).

(** The outside of the scraper: the reply to the [n]-th request of a run,
    given its URL and time-out; the [href] attributes of the [a] elements
    that [BeautifulSoup] finds in a page, in the order of the document;
    [urljoin]; and the exception that [time.sleep] raises on a duration, if
    it raises one. *)
Record web : Type := mk_web {
  respond : nat -> string -> Z -> reply;
  hrefs_of : string -> list string;
  urljoin : string -> string -> string;
  sleep_raises : PyFloat.float -> option exn
}.

(* ================================================================= *)
(** ** [scraper.py]: class [IPRangeScraper] *)

Module Scrape.

(** One constructor per logging call of the scraper and of the [scrape]
    command, with the values it formats. *)
Inductive message : Type :=
| FetchingPage (url : string)
| ErrorFetchingPage
| FoundZoneFiles (n : Z)
| Downloading (country_upper : string) (attempt max_retries : Z)
| Downloaded (country_upper size : string)
| AttemptFailed (attempt : Z) (country_upper : string)
| FailedToDownload (country_upper : string) (max_retries : Z)
| OutputDirectory (p : path)
| NoZoneFilesFound
| StartingDownload (n : Z)
| Rule
| DownloadSummary
| SummarySuccessful (n : Z)
| SummaryFailed (n : Z)
| SummaryTotal (n : Z)
| FilesSavedTo (p : path)
| Separator
| ScraperBanner
| ErrorDuringScraping.

(** What a run of the scraper does to the outside: log records, requests
    sent, files written, and the time slept. *)
Inductive event : Type :=
| Log (lvl : level) (msg : message)
| Requested (url : string)
| Wrote (p : path) (content : string)
| Slept (seconds : PyFloat.float).

(** The dictionary returned by [download_all]. *)
Record stats : Type := mk_stats {
  total : Z;
  successful : Z;
  failed : Z
}.

End Scrape.

Module Scraper.
Record t : Type := mk {
  source_url : string;
  output_dir : path;
  delay_seconds : PyFloat.float;
  max_retries : Z;
  timeout : Z;
  successful_downloads : Z;
  failed_downloads : Z
}.
End Scraper.

(** [IPRangeScraper.__init__]. *)
Definition scraper_init (source_url output_dir : string)
    (delay_seconds : PyFloat.float) (max_retries timeout : Z) : Scraper.t :=
  Scraper.mk source_url (Path output_dir) delay_seconds max_retries timeout 0 0.

(** [sub in s]. *)
Fixpoint occurs (sub s : string) : bool :=
  String.prefix sub s
  || match s with
     | EmptyString => false
     | String _ s' => occurs sub s'
     end.

(** Membership in the class [[a-z]]. *)
Definition is_lower (c : ascii) : bool :=
  let n := N_of_ascii c in ((97 <=? n) && (n <=? 122))%N.

(** Group 1 of [re.search(r"/([a-z]{2})\.zone$", href)]; [$] matches at
    the end of the text and before a line feed that ends it. *)
Definition country_code_of (href : string) : option string :=
  let text :=
    if Str.endswith nl href then substring 0 (String.length href - 1) href
    else href in
  let n := String.length text in
  if (8 <=? n)%nat then
    match substring (n - 8) 8 text with
    | String slash (String a (String b rest)) =>
        if Str.eqb_ascii slash "/" && is_lower a && is_lower b
           && String.eqb rest ".zone"
        then Some (String a (String b EmptyString))
        else None
    | _ => None
    end
  else None.

(** The body of the loop of [scrape_zone_files] for one link: what it
    appends to [zone_links]. *)
Definition zone_link (net : web) (self : Scraper.t) (href : string)
    : list (string * string) :=
  if Str.endswith ".zone" href && occurs "/countries/" href then
    match country_code_of href with
    | Some country_code =>
        [(country_code, urljoin net (Scraper.source_url self) href)]
    | None => []
    end
  else [].

(** [IPRangeScraper.scrape_zone_files], as the request number [request] of
    the run: the trace, the number of the next request, and the list
    returned or the exception raised. *)
Definition scrape_zone_files (net : web) (self : Scraper.t) (request : nat)
    : list Scrape.event * nat * result (list (string * string)) :=
  let url := Scraper.source_url self in
  let tr := [Scrape.Log INFO (Scrape.FetchingPage url); Scrape.Requested url] in
  match respond net request url (Scraper.timeout self) with
  | Content body =>
      let zone_links := flat_map (zone_link net self) (hrefs_of net body) in
      (tr ++ [Scrape.Log INFO
                (Scrape.FoundZoneFiles (Z.of_nat (List.length zone_links)))],
       S request, Ok zone_links)
  | RequestException =>
      (tr ++ [Scrape.Log ERROR Scrape.ErrorFetchingPage], S request, Ok [])
  | OtherException e => (tr, S request, Raise e)
  end.

(** [float * int]: the [int] is converted first. *)
Definition float_times_int (x : PyFloat.float) (n : Z) : result PyFloat.float :=
  f <- PyFloat.of_int n ;;
  Ok (PyFloat.mul x f).

Definition add_successful (self : Scraper.t) : Scraper.t :=
  Scraper.mk
    (Scraper.source_url self) (Scraper.output_dir self) (Scraper.delay_seconds self)
    (Scraper.max_retries self) (Scraper.timeout self)
    (Scraper.successful_downloads self + 1)
    (Scraper.failed_downloads self).

Definition add_failed_download (self : Scraper.t) : Scraper.t :=
  Scraper.mk
    (Scraper.source_url self) (Scraper.output_dir self) (Scraper.delay_seconds self)
    (Scraper.max_retries self) (Scraper.timeout self)
    (Scraper.successful_downloads self)
    (Scraper.failed_downloads self + 1).

(** The loop [for attempt in range(1, self.max_retries + 1)] of
    [download_zone_file] over the attempts still to make, and the
    [return False] after it: the trace, the scraper as the call leaves it,
    the number of the next request, and the value returned or the
    exception raised. *)
Fixpoint download_attempts (w : world) (net : web) (self : Scraper.t)
    (country_code url : string) (filepath : path) (attempts : list Z)
    (request : nat) : list Scrape.event * Scraper.t * nat * result bool :=
  match attempts with
  | [] => ([], self, request, Ok false)
  | attempt :: rest =>
      let country_upper := Str.upper country_code in
      let tr :=
        [Scrape.Log INFO
           (Scrape.Downloading country_upper attempt (Scraper.max_retries self));
         Scrape.Requested url] in
      match respond net request url (Scraper.timeout self) with
      | Content body =>
          if open_for_writing_fails w filepath
          then (tr, self, S request, Raise OSError)
          else
            let tr := tr ++ [Scrape.Wrote filepath body] in
            let file_size := Z.of_nat (String.length body) in
            match format_bytes file_size with
            | Raise e => (tr, self, S request, Raise e)
            | Ok size =>
                (tr ++ [Scrape.Log INFO (Scrape.Downloaded country_upper size)],
                 add_successful self, S request, Ok true)
            end
      | RequestException =>
          let tr :=
            tr ++ [Scrape.Log WARNING (Scrape.AttemptFailed attempt country_upper)] in
          if attempt <? Scraper.max_retries self then
            match float_times_int (Scraper.delay_seconds self) (2 ^ (attempt - 1)) with
            | Raise e => (tr, self, S request, Raise e)
            | Ok wait_time =>
                match sleep_raises net wait_time with
                | Some e => (tr, self, S request, Raise e)
                | None =>
                    let '(tr', self', request', outcome) :=
                      download_attempts w net self country_code url filepath rest
                        (S request) in
                    (tr ++ Scrape.Slept wait_time :: tr', self', request', outcome)
                end
            end
          else
            (tr ++ [Scrape.Log ERROR
                      (Scrape.FailedToDownload country_upper (Scraper.max_retries self))],
             add_failed_download self, S request, Ok false)
      | OtherException e => (tr, self, S request, Raise e)
      end
  end.

(** [IPRangeScraper.download_zone_file]. *)
Definition download_zone_file (w : world) (net : web) (self : Scraper.t)
    (country_code url : string) (request : nat)
    : list Scrape.event * Scraper.t * nat * result bool :=
  let filename := (country_code ++ ".zone")%string in
  let filepath := path_join (Scraper.output_dir self) filename in
  download_attempts w net self country_code url filepath
    (py_range 1 (Scraper.max_retries self + 1)) request.

(** The loop [for country_code, url in zone_files] of [download_all]: the
    trace, the scraper as the loop leaves it, and the exception that ended
    it, if any. *)
Fixpoint download_each (w : world) (net : web) (self : Scraper.t)
    (zone_files : list (string * string)) (request : nat)
    : list Scrape.event * Scraper.t * option exn :=
  match zone_files with
  | [] => ([], self, None)
  | (country_code, url) :: rest =>
      match download_zone_file w net self country_code url request with
      | (tr, self1, request1, Raise e) => (tr, self1, Some e)
      | (tr, self1, request1, Ok _) =>
          match sleep_raises net (Scraper.delay_seconds self1) with
          | Some e => (tr, self1, Some e)
          | None =>
              let '(tr', self2, e) := download_each w net self1 rest request1 in
              (tr ++ Scrape.Slept (Scraper.delay_seconds self1) :: tr', self2, e)
          end
      end
  end.

Definition reset_downloads (self : Scraper.t) : Scraper.t :=
  Scraper.mk
    (Scraper.source_url self) (Scraper.output_dir self) (Scraper.delay_seconds self)
    (Scraper.max_retries self) (Scraper.timeout self) 0 0.

(** [IPRangeScraper.download_all]: the trace, the scraper as the call
    leaves it, and the returned dictionary or the exception raised. *)
Definition download_all (w : world) (net : web) (self : Scraper.t)
    : list Scrape.event * Scraper.t * result Scrape.stats :=
  match ensure_directory w (Scraper.output_dir self) with
  | Raise e => ([], self, Raise e)
  | Ok _ =>
      let tr0 := [Scrape.Log INFO (Scrape.OutputDirectory (Scraper.output_dir self))] in
      match scrape_zone_files net self 0 with
      | (tr1, _, Raise e) => (tr0 ++ tr1, self, Raise e)
      | (tr1, _, Ok []) =>
          (tr0 ++ tr1 ++ [Scrape.Log WARNING Scrape.NoZoneFilesFound], self,
           Ok (Scrape.mk_stats 0 0 0))
      | (tr1, request, Ok zone_files) =>
          let n := Z.of_nat (List.length zone_files) in
          let tr2 :=
            [Scrape.Log INFO (Scrape.StartingDownload n);
             Scrape.Log INFO Scrape.Rule] in
          let self0 := reset_downloads self in
          match download_each w net self0 zone_files request with
          | (tr3, self1, Some e) => (tr0 ++ tr1 ++ tr2 ++ tr3, self1, Raise e)
          | (tr3, self1, None) =>
              (tr0 ++ tr1 ++ tr2 ++ tr3
                 ++ [Scrape.Log INFO Scrape.Rule;
                     Scrape.Log INFO Scrape.DownloadSummary;
                     Scrape.Log INFO
                       (Scrape.SummarySuccessful (Scraper.successful_downloads self1));
                     Scrape.Log INFO
                       (Scrape.SummaryFailed (Scraper.failed_downloads self1));
                     Scrape.Log INFO (Scrape.SummaryTotal n);
                     Scrape.Log INFO (Scrape.FilesSavedTo (Scraper.output_dir self1))],
               self1,
               Ok (Scrape.mk_stats n (Scraper.successful_downloads self1)
                     (Scraper.failed_downloads self1)))
          end
      end
  end.

(** The [scraper] section of a configuration; [None] for an absent key. *)
Record scraper_config : Type := mk_scraper_config {
  cfg_source_url : option string;
  cfg_scraper_output_dir : option string;
  cfg_delay_seconds : option PyFloat.float;
  cfg_max_retries : option Z;
  cfg_timeout : option Z
}.

(** The float [0.1]. *)
Definition one_tenth : PyFloat.float := S754_finite false 7205759403792794 (-56).

(** The [scraper] section of [get_default_config()]. *)
Definition get_default_scraper_config : scraper_config :=
  mk_scraper_config (Some "https://www.ipdeny.com/ipblocks/"%string)
    (Some "data/ip_zones"%string) (Some one_tenth) (Some 3) (Some 30).

(** [scrape_ip_ranges], the configuration being given by its [scraper]
    section ([None]: the default configuration). *)
Definition scrape_ip_ranges (w : world) (net : web) (output_dir : option string)
    (config : option scraper_config)
    : list Scrape.event * Scraper.t * result Scrape.stats :=
  let scraper_config := get config get_default_scraper_config in
  let scraper :=
    scraper_init
      (get (cfg_source_url scraper_config) "https://www.ipdeny.com/ipblocks/"%string)
      (or_else output_dir
         (get (cfg_scraper_output_dir scraper_config) "data/ip_zones"%string))
      (get (cfg_delay_seconds scraper_config) one_tenth)
      (get (cfg_max_retries scraper_config) 3)
      (get (cfg_timeout scraper_config) 30) in
  download_all w net scraper.

(* ================================================================= *)
(** ** [__main__.py]: the [scrape] command *)

(** The [scrape] branch of [main]: the trace and the exit status of the
    process. *)
Definition main_scrape (w : world) (net : web) (config : scraper_config)
    (arg_output : option string) : list Scrape.event * Z :=
  let banner :=
    [Scrape.Log INFO Scrape.Separator; Scrape.Log INFO Scrape.ScraperBanner;
     Scrape.Log INFO Scrape.Separator] in
  let '(tr, _, outcome) := scrape_ip_ranges w net arg_output (Some config) in
  match outcome with
  | Ok stats =>
      if Scrape.failed stats >? 0 then (banner ++ tr, 1) else (banner ++ tr, 0)
  | Raise e =>
      if is_Exception e
      then (banner ++ tr ++ [Scrape.Log ERROR Scrape.ErrorDuringScraping], 1)
      else (banner ++ tr, 1)
  end.

(* ================================================================= *)
(** ** Concrete inputs used by the examples below *)

Module Examples.

Definition lookup (entries : list (path * fs_node)) (p : path) : option fs_node :=
  match find (fun e => path_eqb (fst e) p) entries with
  | Some e => Some (snd e)
  | None => None
  end.

(** A file system given by its entries, on which every [mkdir] and every
    [open(..., "w")] succeeds. *)
Definition world_of (entries : list (path * fs_node)) : world :=
  mk_world (lookup entries) (fun _ => false) (fun _ => false).

(** Two samplers: the [k] lowest offsets in ascending order, and the [k]
    highest in descending order. *)
Definition lowest : sampler := fun _ _ _ k => py_range 0 k.
Definition highest : sampler := fun _ _ n k => rev (py_range (n - k) n).

(** Every future completes, in the order of submission. *)
Definition in_order (n : nat) : schedule :=
  mk_schedule (seq 0 n) None (fun _ => true).

(** The floats [0.5] and [2 ** -32]. *)
Definition half : PyFloat.float := S754_finite false 4503599627370496 (-53).

Definition converter (input_path : string) (formats : list string)
    (rate : PyFloat.float) (output_file_name : option string) : Converter.t :=
  init input_path "out" (Some formats) rate 1 None output_file_name.

(** A directory [zones] with a file of comments only, a file with two
    networks, a sub-directory whose name ends in [.zone] and a file with
    another extension. *)
Definition zones : list (path * fs_node) :=
  [ (Path "zones", Directory ["empty.zone"; "cn.zone"; "old.zone"; "notes.txt"]%string);
    (Path "zones/empty.zone", RegularFile (ReadAll ["# nothing here"; ""; "invalid"]%string));
    (Path "zones/cn.zone",
       RegularFile (ReadAll ["10.0.0.5/30"; "# comment"; "bogus"; "192.168.1.0/31"]%string));
    (Path "zones/old.zone", Directory ["inner.zone"]%string);
    (Path "zones/old.zone/inner.zone", RegularFile (ReadAll ["10.9.9.9"]%string));
    (Path "zones/notes.txt", RegularFile (ReadAll ["1.1.1.1"]%string));
    (Path "nothing", Directory []) ].

Definition range_of (text : string) : Range.t :=
  match cidr_to_ip_range (converter "zones" ["txt"]%string PyFloat.one None) text with
  | (_, Ok (Some r)) => r
  | _ => Range.mk EmptyString EmptyString EmptyString 0
  end.

End Examples.

(* ================================================================= *)
(** ** Vocabulary of the statements *)

Import ipaddress.

(** The invariant of a network object: its prefix length is within the
    bounds of its class, its netmask is the one of that prefix length, and
    its network address has no bit outside the netmask. *)
Definition wf_network (n : network) : Prop :=
  let v := net_version n in
  0 <= prefixlen n <= max_prefixlen v /\
  netmask n = mk_address v (ip_int_from_prefix v (prefixlen n)) None /\
  Z.land (ip (network_address n)) (ip (netmask n)) = ip (network_address n).

(** The text of an address within the bounds of its class. *)
Definition address_text (a : address) : string :=
  match version a, scope_id a with
  | V6, Some sc =>
      if Str.truthy sc then (text_of V6 (ip a) ++ "%" ++ sc)%string
      else text_of V6 (ip a)
  | v, _ => text_of v (ip a)
  end.

(** [m] raises no exception outside the class [P]. *)
Definition raises_only (P : exn -> bool) {A : Type} (m : result A) : Prop :=
  forall e, m = Raise e -> P e = true.

(** What the non-strict constructor builds from the three parts of the
    text. *)
Definition masked (v : ip_version) (a nm : address) : address :=
  if Z.land (ip a) (ip nm) =? ip a then a
  else mk_address v (Z.land (ip a) (ip nm)) None.

(** The range of a network, as [cidr_to_ip_range] records it. *)
Definition range_of_network (text : string) (n : network) : Range.t :=
  let v := net_version n in
  let a := ip (network_address n) in
  let h := Z.ones (max_prefixlen v - prefixlen n) in
  Range.mk text (address_text (network_address n)) (text_of v (a + h))
    (2 ^ (max_prefixlen v - prefixlen n)).

(** What the loop of [process_zone_file] collects from some lines taken on
    their own. *)
Definition ranges_of_lines (self : Converter.t) (lines : list string) : list Range.t :=
  snd (fst (process_lines self EmptyString 1 lines [])).

(** What one line of a zone file contributes. *)
Definition kept (line : string) : list Range.t :=
  let line := Str.strip line in
  if Str.is_empty line || Str.startswith "#" line then []
  else match ip_network (Str.strip line) false with
       | Ok n => [range_of_network (Str.strip line) n]
       | Raise _ => []
       end.

(** The line written for the address [x] of a network of version [v]. *)
Definition line_of (v : ip_version) (x : Z) : string := (text_of v x ++ nl)%string.

(** Whether [IPv4Address] accepts the sum of a base address and an offset,
    neither of which is negative. *)
Definition fits (network_int idx : Z) : bool := network_int + idx <=? ALL_ONES V4.


(** [<output_dir>/<base_name>_ranges.<ext>]. *)
Definition default_output_file (self : Converter.t) (base_name ext : string) : path :=
  path_join (Converter.output_dir self) (base_name ++ "_ranges." ++ ext)%string.

(** The three records that open the [convert] command. *)
Definition banner : list event :=
  [Log INFO Separator; Log INFO ConverterBanner; Log INFO Separator].

(** Whether no valid range is found in a zone file. *)
Definition yields_no_range (w : world) (self : Converter.t) (zone_file : path) : bool :=
  match snd (process_zone_file w self zone_file) with
  | [] => true
  | _ :: _ => false
  end.

(** The number of elements of a list that satisfy a test. *)
Definition count {A : Type} (f : A -> bool) (l : list A) : Z :=
  Z.of_nat (List.length (filter f l)).

(** The files behind a list of futures. *)
Definition files_of (zone_files : list path) (futures : list nat) : list path :=
  flat_map
    (fun i => match nth_error zone_files i with Some zf => [zf] | None => [] end)
    futures.

(** Whether a line of a zone file is neither blank nor a comment and is
    refused by the parser. *)
Definition refused (line : string) : bool :=
  let line := Str.strip line in
  negb (Str.is_empty line || Str.startswith "#" line)
  && match ip_network (Str.strip line) false with
     | Ok _ => false
     | Raise _ => true
     end.

(** One DEBUG record for each refused line among [lines], the first of
    which is line [line_num] of the file [name]. *)
Fixpoint skipped_records (name : string) (line_num : Z) (lines : list string)
    : list event :=
  match lines with
  | [] => []
  | line :: rest =>
      (if refused line
       then [Log DEBUG (SkippingInvalidLine line_num name (Str.strip line))]
       else [])
      ++ skipped_records name (line_num + 1) rest
  end.

(** What the decimal text of one octet is checked for: [_parse_octet]
    reads the octet back, and the text is not empty and holds no dot, no
    slash and no white space. *)
Definition octet_reads_back (b : Z) : bool :=
  match parse_octet (Str.of_int b) with Ok n => n =? b | Raise _ => false end
  && negb (Str.is_empty (Str.of_int b))
  && negb (Str.contains "." (Str.of_int b))
  && negb (Str.contains "/" (Str.of_int b))
  && Str.forallb (fun c => negb (Str.isspace c)) (Str.of_int b).

(** A record as [cidr_to_ip_range] builds it: its [cidr] field is the text
    of a network, and the other fields are those of that network. *)
Definition parsed (r : Range.t) : Prop :=
  exists n, ip_network (Range.cidr r) false = Ok n
            /\ r = range_of_network (Range.cidr r) n.

(** Whether a format name is one the converter writes a file for. *)
Definition known_format (f : string) : bool :=
  String.eqb f "json" || String.eqb f "csv" || String.eqb f "txt".

(** The sum of a list of integers. *)
Definition zsum (l : list Z) : Z := fold_right Z.add 0 l.

(** The number of ranges found in a zone file, and the number of their
    addresses. *)
Definition ranges_in (w : world) (self : Converter.t) (zone_file : path) : Z :=
  Z.of_nat (List.length (snd (process_zone_file w self zone_file))).

Definition addresses_in (w : world) (self : Converter.t) (zone_file : path) : Z :=
  sum_total_ips (snd (process_zone_file w self zone_file)).

(** Every future is delivered: each task completes once, and
    [as_completed] does not time out. *)
Definition complete (self : Converter.t) (sched : schedule) (zone_files : list path)
    : Prop :=
  Permutation (completion_order sched) (seq 0 (List.length zone_files))
  /\ timed_out self sched = false.

(** The converter that [convert_cidr_ranges] builds for the [convert]
    command. *)
Definition converter_of (config : converter_config) (args : convert_args)
    : Converter.t :=
  init
    (or_else (arg_input args) (get (cfg_input_dir config) "data/ip_zones"%string))
    (or_else (arg_output args) (get (cfg_output_dir config) "data/ip_ranges"%string))
    (Some match arg_format args with
          | Some (f :: fs) => f :: fs
          | _ => get (cfg_output_formats config) ["json"; "csv"; "txt"]%string
          end)
    (match arg_sample_rate args with
     | Some r => r
     | None => get (cfg_sample_rate config) PyFloat.one
     end)
    (arg_threads args) (arg_timeout args) (arg_output_file args).

(** The check that [main] makes before it converts: an output file name
    together with an input path that is a directory. *)
Definition rejected (w : world) (args : convert_args) : bool :=
  opt_truthy (arg_output_file args) && opt_truthy (arg_input args)
  && is_dir w (Path (get (arg_input args) EmptyString)).

(** Whether [format_bytes] shows a size below [1024] as that many bytes. *)
Definition shown_in_bytes (n : Z) : bool :=
  match format_bytes n with
  | Ok text => String.eqb text (Str.of_int n ++ ".0 B")
  | Raise _ => false
  end.

(** Whether [format_bytes] shows a size as ["1024.0 KB"]. *)
Definition shown_as_1024_KB (n : Z) : bool :=
  match format_bytes n with
  | Ok text => String.eqb text "1024.0 KB"
  | Raise _ => false
  end.

(** The requests sent, the files written and the times slept in a trace of
    the scraper, in their order. *)
Definition requests_of (tr : list Scrape.event) : list string :=
  flat_map (fun e => match e with Scrape.Requested url => [url] | _ => [] end) tr.

Definition files_written (tr : list Scrape.event) : list (path * string) :=
  flat_map (fun e => match e with Scrape.Wrote p body => [(p, body)] | _ => [] end) tr.

Definition slept (tr : list Scrape.event) : list PyFloat.float :=
  flat_map (fun e => match e with Scrape.Slept seconds => [seconds] | _ => [] end) tr.

(** An outside on which nothing but a request fails: every reply is a
    content of less than [2 ** 53] bytes or a [RequestException], every
    file can be opened for writing, and [time.sleep] returns. *)
Definition only_requests_fail (w : world) (net : web) : Prop :=
  (forall n url t,
     match respond net n url t with
     | Content body => Z.of_nat (String.length body) < 2 ^ 53
     | RequestException => True
     | OtherException _ => False
     end)
  /\ (forall p, open_for_writing_fails w p = false)
  /\ (forall seconds, sleep_raises net seconds = None).

(** The wait before the attempt that follows the failed attempt
    [attempt]: [delay_seconds * (2 ** (attempt - 1))]. *)
Definition backoff (self : Scraper.t) (attempt : Z) (seconds : PyFloat.float) : Prop :=
  float_times_int (Scraper.delay_seconds self) (2 ^ (attempt - 1)) = Ok seconds.

(** The file a zone is saved to. *)
Definition zone_file_of (self : Scraper.t) (country_code : string) : path :=
  path_join (Scraper.output_dir self) (country_code ++ ".zone").

(** How a call of [download_zone_file] can end when nothing but a request
    fails: with a content written and counted, with a failure counted, or,
    for want of any attempt, with nothing done. *)
Definition download_ended (self self' : Scraper.t) (tr : list Scrape.event)
    (returned : bool) : Prop :=
  (returned = true /\ self' = add_successful self
   /\ List.length (files_written tr) = 1%nat /\ 1 <= Scraper.max_retries self)
  \/ (returned = false /\ self' = add_failed_download self
      /\ files_written tr = [] /\ 1 <= Scraper.max_retries self)
  \/ (returned = false /\ self' = self /\ files_written tr = []
      /\ Scraper.max_retries self < 1).

(** The links that [scrape_zone_files] returns when it is the first
    request of a run. *)
Definition zone_links (net : web) (self : Scraper.t) : list (string * string) :=
  match respond net 0 (Scraper.source_url self) (Scraper.timeout self) with
  | Content body => flat_map (zone_link net self) (hrefs_of net body)
  | _ => []
  end.

(** The scraper that [scrape_ip_ranges] builds for the [scrape] command. *)
Definition scraper_of (config : scraper_config) (arg_output : option string)
    : Scraper.t :=
  scraper_init
    (get (cfg_source_url config) "https://www.ipdeny.com/ipblocks/"%string)
    (or_else arg_output (get (cfg_scraper_output_dir config) "data/ip_zones"%string))
    (get (cfg_delay_seconds config) one_tenth)
    (get (cfg_max_retries config) 3)
    (get (cfg_timeout config) 30).

(** A country code as the pattern of [scrape_zone_files] matches it: two
    letters from [a] to [z]. *)
Definition two_lower_letters (country_code : string) : Prop :=
  exists a b, country_code = String a (String b EmptyString)
              /\ is_lower a = true /\ is_lower b = true.

(** What the decimal text of a prefix length is checked for: the
    constructor of version 4 netmasks reads the length back. *)
Definition prefix_reads_back (p : Z) : bool :=
  match v4_make_netmask (Some (Str.of_int p)) with
  | Ok (_, q) => q =? p
  | Raise _ => false
  end.

(** The text of a version 4 network in its canonical form,
    [<network address>/<prefix length>]. *)
Definition canonical_text (n : network) : string :=
  (v4_text (ip (network_address n)) ++ "/" ++ Str.of_int (prefixlen n))%string.


(* ================================================================= *)
(** ** Bit arithmetic of networks *)

Section Bits.

Lemma ALL_ONES_ones v : ALL_ONES v = Z.ones (max_prefixlen v).
Proof. destruct v; reflexivity. Qed.

Lemma max_prefixlen_pos v : 0 < max_prefixlen v.
Proof. destruct v; reflexivity. Qed.

Lemma shiftr_ones W p : 0 <= p <= W -> Z.shiftr (Z.ones W) p = Z.ones (W - p).
Proof.
  intros H. rewrite Z.shiftr_div_pow2 by lia. now apply Z.ones_div_pow2.
Qed.

Lemma ones_bounds n : 0 <= n -> 0 <= Z.ones n /\ Z.ones n = 2 ^ n - 1.
Proof.
  intros H. rewrite Z.ones_equiv. split; [|lia].
  assert (0 < 2 ^ n) by (apply Z.pow_pos_nonneg; lia). lia.
Qed.

Lemma hostmask_disjoint W p :
  0 <= p <= W -> Z.land (Z.lxor (Z.ones W) (Z.ones (W - p))) (Z.ones (W - p)) = 0.
Proof.
  intros H. apply Z.bits_inj'. intros n Hn.
  rewrite Z.land_spec, Z.lxor_spec, Z.bits_0.
  rewrite !Z.testbit_ones_nonneg by lia.
  destruct (Z.ltb_spec n W), (Z.ltb_spec n (W - p)); simpl; try reflexivity; lia.
Qed.

Lemma netmask_value W p :
  0 <= p <= W -> Z.lxor (Z.ones W) (Z.ones (W - p)) = 2 ^ W - 2 ^ (W - p).
Proof.
  intros H.
  assert (E : Z.lxor (Z.ones W) (Z.ones (W - p)) + Z.ones (W - p) = Z.ones W).
  { rewrite Z.add_nocarry_lxor by (now apply hostmask_disjoint).
    rewrite Z.lxor_assoc, Z.lxor_nilpotent, Z.lxor_0_r. reflexivity. }
  destruct (ones_bounds W) as [_ E1]; [lia|].
  destruct (ones_bounds (W - p)) as [_ E2]; [lia|].
  lia.
Qed.

Lemma land_subset_bounds a m : 0 <= m -> Z.land a m = a -> 0 <= a <= m.
Proof.
  intros Hm H. split.
  - rewrite <- H. apply Z.land_nonneg. now right.
  - assert (D : Z.ldiff a m = 0).
    { apply Z.bits_inj'. intros n Hn. rewrite Z.ldiff_spec, Z.bits_0.
      assert (B : Z.testbit a n = Z.testbit a n && Z.testbit m n)
        by (rewrite <- Z.land_spec, H; reflexivity).
      destruct (Z.testbit a n), (Z.testbit m n); simpl in *; congruence. }
    pose proof (Z.sub_nocarry_ldiff m a D) as S.
    assert (0 <= Z.ldiff m a) by (apply Z.ldiff_nonneg; now left).
    lia.
Qed.

Lemma land_disjoint_of_subset a m h :
  Z.land m h = 0 -> Z.land a m = a -> Z.land a h = 0.
Proof.
  intros Hmh Ha. rewrite <- Ha, <- Z.land_assoc, Hmh. apply Z.land_0_r.
Qed.

End Bits.

(** Arithmetic of a well-formed network. *)
Lemma ip_int_from_prefix_value v p :
  0 <= p <= max_prefixlen v ->
  ip_int_from_prefix v p = 2 ^ max_prefixlen v - 2 ^ (max_prefixlen v - p)
  /\ Z.lxor (ip_int_from_prefix v p) (ALL_ONES v) = Z.ones (max_prefixlen v - p)
  /\ 0 <= ip_int_from_prefix v p <= ALL_ONES v.
Proof.
  intros H. unfold ip_int_from_prefix. rewrite ALL_ONES_ones.
  rewrite shiftr_ones by lia.
  pose proof (netmask_value _ _ H) as E. rewrite E.
  split; [reflexivity|]. split.
  - rewrite <- E.
    rewrite (Z.lxor_comm (Z.ones (max_prefixlen v))), Z.lxor_assoc,
      Z.lxor_nilpotent, Z.lxor_0_r. reflexivity.
  - destruct (ones_bounds (max_prefixlen v)) as [_ E1]; [lia|].
    rewrite E1.
    assert (0 < 2 ^ (max_prefixlen v - p)) by (apply Z.pow_pos_nonneg; lia).
    assert (2 ^ (max_prefixlen v - p) <= 2 ^ max_prefixlen v)
      by (apply Z.pow_le_mono_r; lia).
    lia.
Qed.

Lemma check_int_address_ok v a :
  0 <= a <= ALL_ONES v -> address_of_int v a = Ok (mk_address v a None).
Proof.
  intros [H1 H2]. unfold address_of_int, check_int_address.
  destruct (Z.ltb_spec a 0); [lia|].
  destruct (Z.gtb_spec a (ALL_ONES v)); [lia|]. reflexivity.
Qed.

Lemma address_of_int_inv v a r :
  address_of_int v a = Ok r -> r = mk_address v a None /\ 0 <= a <= ALL_ONES v.
Proof.
  unfold address_of_int, check_int_address.
  destruct (Z.ltb_spec a 0); [discriminate|].
  destruct (Z.gtb_spec a (ALL_ONES v)); [discriminate|].
  simpl. intros E; inversion E. split; [reflexivity | lia].
Qed.

Lemma wf_network_arith n :
  wf_network n ->
  let v := net_version n in
  let a := ip (network_address n) in
  let h := Z.ones (max_prefixlen v - prefixlen n) in
  hostmask n = Ok (mk_address v h None)
  /\ broadcast_address n = Ok (mk_address v (a + h) None)
  /\ num_addresses n = Ok (2 ^ (max_prefixlen v - prefixlen n))
  /\ 0 <= a /\ a + h <= ALL_ONES v
  /\ Z.land a h = 0.
Proof.
  intros (Hp & Hm & Hl). cbv zeta.
  set (v := net_version n) in *. set (a := ip (network_address n)) in *.
  set (p := prefixlen n) in *.
  destruct (ip_int_from_prefix_value v p Hp) as (Ev & Eh & Hr).
  assert (Hh : hostmask n = Ok (mk_address v (Z.ones (max_prefixlen v - p)) None)).
  { unfold hostmask, address_class, int_of. fold v. rewrite Hm. simpl ip.
    rewrite Eh. apply check_int_address_ok.
    destruct (ones_bounds (max_prefixlen v - p)) as [B1 B2]; [lia|].
    split; [exact B1|]. rewrite ALL_ONES_ones.
    destruct (ones_bounds (max_prefixlen v)) as [_ B3]; [lia|].
    rewrite B2, B3.
    assert (2 ^ (max_prefixlen v - p) <= 2 ^ max_prefixlen v)
      by (apply Z.pow_le_mono_r; lia). lia. }
  rewrite Hm in Hl. simpl ip in Hl.
  assert (Hd : Z.land a (Z.ones (max_prefixlen v - p)) = 0).
  { apply land_disjoint_of_subset with (m := ip_int_from_prefix v p); [|exact Hl].
    unfold ip_int_from_prefix. rewrite ALL_ONES_ones, shiftr_ones by lia.
    now apply hostmask_disjoint. }
  destruct (land_subset_bounds a (ip_int_from_prefix v p)) as [Ha0 Ha1]; [lia|exact Hl|].
  destruct (ones_bounds (max_prefixlen v - p)) as [B1 B2]; [lia|].
  assert (Hsum : a + Z.ones (max_prefixlen v - p) <= ALL_ONES v).
  { rewrite ALL_ONES_ones.
    destruct (ones_bounds (max_prefixlen v)) as [_ B3]; [lia|]. lia. }
  assert (Hb : broadcast_address n
               = Ok (mk_address v (a + Z.ones (max_prefixlen v - p)) None)).
  { unfold broadcast_address. rewrite Hh. simpl. unfold address_class, int_of.
    fold v. fold a. simpl ip.
    rewrite <- Z.lxor_lor, <- Z.add_nocarry_lxor by exact Hd.
    apply check_int_address_ok. lia. }
  repeat split; try assumption.
  unfold num_addresses. rewrite Hb. simpl. unfold int_of. simpl ip. fold a.
  f_equal. lia.
Qed.

(* ================================================================= *)
(** ** Exceptions of the parsers *)

(** ** Inversion of the monadic combinators *)

Lemma bind_Ok_inv {A B} (m : result A) (k : A -> result B) b :
  bind m k = Ok b -> exists a, m = Ok a /\ k a = Ok b.
Proof. destruct m as [a|e]; simpl; [eauto | discriminate]. Qed.

Lemma try_except_Ok_inv {A} (m : result A) c h b :
  try_except m c h = Ok b ->
  m = Ok b \/ exists e, m = Raise e /\ c e = true /\ h e = Ok b.
Proof.
  destruct m as [a|e]; simpl; [intros E; inversion E; now left|].
  destruct (c e) eqn:Ec; [|discriminate]. intros E. right. eauto.
Qed.

Lemma raises_only_Ok P {A} (a : A) : raises_only P (Ok a).
Proof. intros e E. discriminate. Qed.

Lemma raises_only_Raise (P : exn -> bool) {A} e :
  P e = true -> raises_only P (@Raise A e).
Proof. intros H e' E. inversion E. now subst. Qed.

Lemma raises_only_bind P {A B} (m : result A) (k : A -> result B) :
  raises_only P m -> (forall a, m = Ok a -> raises_only P (k a)) ->
  raises_only P (bind m k).
Proof.
  intros Hm Hk e. destruct m as [a|e0]; simpl.
  - now apply Hk.
  - intros E. inversion E. subst. now apply Hm.
Qed.

Lemma raises_only_try_except P {A} (m : result A) c h :
  raises_only P m -> (forall e, raises_only P (h e)) ->
  raises_only P (try_except m c h).
Proof.
  intros Hm Hh e. destruct m as [a|e0]; simpl; [discriminate|].
  destruct (c e0).
  - apply Hh.
  - intros E. inversion E. subst. now apply Hm.
Qed.

Lemma raises_only_mapM P {A B} (f : A -> result B) l :
  (forall a, raises_only P (f a)) -> raises_only P (mapM f l).
Proof.
  intros Hf. induction l as [|a l IH]; simpl.
  - apply raises_only_Ok.
  - apply raises_only_bind; [apply Hf|]. intros b _.
    apply raises_only_bind; [apply IH|]. intros bs _. apply raises_only_Ok.
Qed.

Ltac raises_step :=
  match goal with
  | |- raises_only _ (Ok _) => apply raises_only_Ok
  | |- raises_only _ (Raise _) => apply raises_only_Raise; reflexivity
  | |- raises_only _ report_invalid_netmask => apply raises_only_Raise; reflexivity
  | |- raises_only _ (bind _ _) => apply raises_only_bind; [|intros ? ?]
  | |- raises_only _ (try_except _ _ _) => apply raises_only_try_except; [|intros ?]
  | |- raises_only _ (mapM _ _) => apply raises_only_mapM; intros ?
  | |- raises_only _ (if ?b then _ else _) => destruct b eqn:?
  | |- raises_only _ (match ?x with _ => _ end) => destruct x eqn:?
  | |- raises_only _ (let '(_, _) := ?x in _) => destruct x eqn:?
  end.

Ltac raises := repeat raises_step.

(** ** The parsers raise nothing but [ValueError] and its subclasses *)

Lemma parse_octet_raises s : raises_only is_ValueError (parse_octet s).
Proof. unfold parse_octet. raises. Qed.

Lemma v4_ip_int_from_string_raises s :
  raises_only is_ValueError (v4_ip_int_from_string s).
Proof. unfold v4_ip_int_from_string. raises. apply parse_octet_raises. Qed.

Lemma IPv4Address_of_str_raises s : raises_only is_ValueError (IPv4Address_of_str s).
Proof.
  unfold IPv4Address_of_str. raises. apply v4_ip_int_from_string_raises.
Qed.

Lemma address_of_int_raises v a : raises_only is_ValueError (address_of_int v a).
Proof. unfold address_of_int, check_int_address. raises. Qed.

Lemma prefix_from_ip_int_raises v x : raises_only is_ValueError (prefix_from_ip_int v x).
Proof. unfold prefix_from_ip_int. raises. Qed.

Lemma prefix_from_prefix_string_raises v s :
  raises_only is_ValueError (prefix_from_prefix_string v s).
Proof. unfold prefix_from_prefix_string. raises. Qed.

Lemma prefix_from_ip_string_raises s :
  raises_only is_ValueError (prefix_from_ip_string s).
Proof.
  unfold prefix_from_ip_string. raises.
  all: try apply v4_ip_int_from_string_raises.
  all: try apply prefix_from_ip_int_raises.
  apply raises_only_Raise. eapply prefix_from_ip_int_raises; eassumption.
Qed.

Lemma make_netmask_raises v mask : raises_only is_ValueError (make_netmask v mask).
Proof.
  destruct v; simpl; unfold v4_make_netmask, v6_make_netmask; raises;
    try apply address_of_int_raises;
    try apply prefix_from_prefix_string_raises;
    try apply prefix_from_ip_string_raises.
Qed.

Lemma split_addr_prefix_raises s : raises_only is_ValueError (split_addr_prefix s).
Proof. unfold split_addr_prefix, split_optional_netmask. raises. Qed.

Lemma parse_hextet_raises s : raises_only is_ValueError (parse_hextet s).
Proof. unfold parse_hextet, Str.int16. raises. Qed.

Lemma fold_hextets_raises l : forall acc, raises_only is_ValueError (fold_hextets acc l).
Proof.
  induction l as [|p l IH]; intros acc; simpl; raises.
  - apply parse_hextet_raises.
  - apply IH.
Qed.

Lemma find_skip_index_raises l : forall i n sk,
  raises_only is_ValueError (find_skip_index l i n sk).
Proof.
  induction l as [|p l IH]; intros i n sk; simpl; raises; apply IH.
Qed.

Lemma v6_ip_int_from_string_raises s :
  raises_only is_ValueError (v6_ip_int_from_string s).
Proof.
  unfold v6_ip_int_from_string. raises;
    try apply IPv4Address_of_str_raises;
    try apply find_skip_index_raises;
    try apply fold_hextets_raises.
Qed.

Lemma IPv6Address_of_str_raises s : raises_only is_ValueError (IPv6Address_of_str s).
Proof.
  unfold IPv6Address_of_str, split_scope_id. raises.
  all: try apply v6_ip_int_from_string_raises.
Qed.

Lemma address_of_str_raises v s : raises_only is_ValueError (address_of_str v s).
Proof.
  destruct v; [apply IPv4Address_of_str_raises | apply IPv6Address_of_str_raises].
Qed.

Lemma Network_init_raises v s strict :
  raises_only is_ValueError (Network_init v s strict).
Proof.
  unfold Network_init. raises.
  - apply split_addr_prefix_raises.
  - apply address_of_str_raises.
  - apply make_netmask_raises.
  - apply address_of_int_raises.
Qed.

Lemma ip_network_raises s strict :
  raises_only is_ValueError (ip_network s strict).
Proof.
  unfold ip_network, IPv4Network, IPv6Network. raises;
    apply Network_init_raises.
Qed.

(* ================================================================= *)
(** ** Well-formed networks and the range record *)

Lemma address_of_str_version v s a : address_of_str v s = Ok a -> version a = v.
Proof.
  destruct v; simpl; unfold IPv4Address_of_str, IPv6Address_of_str.
  - destruct (Str.contains "/" s); [discriminate|].
    intros H. apply bind_Ok_inv in H as (n & _ & E). now inversion E.
  - destruct (Str.contains "/" s); [discriminate|].
    intros H. apply bind_Ok_inv in H as ([x sc] & _ & H).
    apply bind_Ok_inv in H as (n & _ & E). now inversion E.
Qed.

Lemma bit_length_nonneg n : 0 <= bit_length n.
Proof.
  unfold bit_length. destruct (n =? 0); [lia|].
  pose proof (Z.log2_nonneg (Z.abs n)). lia.
Qed.

Lemma prefix_from_ip_int_range v x p :
  prefix_from_ip_int v x = Ok p -> 0 <= p <= max_prefixlen v.
Proof.
  unfold prefix_from_ip_int.
  destruct (negb _); [discriminate|]. intros E. inversion E. clear E.
  unfold count_righthand_zero_bits.
  pose proof (max_prefixlen_pos v).
  destruct (x =? 0); [lia|].
  pose proof (bit_length_nonneg (Z.land (Z.lnot x) (x - 1))). lia.
Qed.

Lemma prefix_from_prefix_string_range v s p :
  prefix_from_prefix_string v s = Ok p -> 0 <= p <= max_prefixlen v.
Proof.
  unfold prefix_from_prefix_string.
  destruct (negb (Str.isascii_isdigit s)); [discriminate|].
  destruct ((0 <=? Str.int10 s) && (Str.int10 s <=? max_prefixlen v)) eqn:E;
    simpl; [|discriminate].
  intros H. inversion H. subst. apply andb_true_iff in E as [E1 E2]. lia.
Qed.

Lemma prefix_from_ip_string_range s p :
  prefix_from_ip_string s = Ok p -> 0 <= p <= max_prefixlen V4.
Proof.
  unfold prefix_from_ip_string. intros H.
  apply bind_Ok_inv in H as (x & _ & H).
  destruct (prefix_from_ip_int V4 x) as [q|e] eqn:E.
  - inversion H. subst. eapply prefix_from_ip_int_range; eassumption.
  - destruct (is_ValueError e); [|discriminate].
    apply try_except_Ok_inv in H as [H | (e' & _ & _ & H)]; [|discriminate].
    eapply prefix_from_ip_int_range; eassumption.
Qed.

Lemma make_netmask_inv v mask nm p :
  make_netmask v mask = Ok (nm, p) ->
  0 <= p <= max_prefixlen v /\ nm = mk_address v (ip_int_from_prefix v p) None.
Proof.
  intros H.
  assert (G : exists q, 0 <= q <= max_prefixlen v
                        /\ (x <- address_of_int v (ip_int_from_prefix v q) ;; Ok (x, q))
                           = Ok (nm, p)).
  { destruct v; simpl in H; unfold v4_make_netmask, v6_make_netmask in H;
      apply bind_Ok_inv in H as (q & Hq & H); exists q; (split; [|exact H]).
    - destruct mask as [s|].
      + apply try_except_Ok_inv in Hq as [Hq | (e & _ & _ & Hq)].
        * eapply prefix_from_prefix_string_range; eassumption.
        * now apply prefix_from_ip_string_range in Hq.
      + simpl in Hq. inversion Hq. simpl. lia.
    - destruct mask as [s|].
      + eapply prefix_from_prefix_string_range; eassumption.
      + simpl in Hq. inversion Hq. simpl. lia. }
  destruct G as (q & Hq & G).
  apply bind_Ok_inv in G as (x & Hx & E). inversion E. subst.
  apply address_of_int_inv in Hx as [-> _]. now split.
Qed.

Lemma Network_init_inv v s strict n :
  Network_init v s strict = Ok n ->
  exists addr mask a nm p,
    split_addr_prefix s = Ok (addr, mask)
    /\ address_of_str v addr = Ok a
    /\ make_netmask v mask = Ok (nm, p)
    /\ n = mk_network (masked v a nm) nm p.
Proof.
  unfold Network_init. intros H.
  apply bind_Ok_inv in H as ([addr mask] & H1 & H).
  apply bind_Ok_inv in H as (a & H2 & H).
  apply bind_Ok_inv in H as ([nm p] & H3 & H).
  exists addr, mask, a, nm, p. repeat split; try assumption.
  unfold masked, int_of in *.
  destruct (Z.land (ip a) (ip nm) =? ip a) eqn:E; simpl in H.
  - now inversion H.
  - destruct strict; [discriminate|].
    apply bind_Ok_inv in H as (a' & Ha' & H).
    apply address_of_int_inv in Ha' as [-> _]. now inversion H.
Qed.

Lemma Network_init_nonstrict v s addr mask a nm p :
  split_addr_prefix s = Ok (addr, mask) ->
  address_of_str v addr = Ok a ->
  make_netmask v mask = Ok (nm, p) ->
  Network_init v s false = Ok (mk_network (masked v a nm) nm p).
Proof.
  intros H1 H2 H3. unfold Network_init. rewrite H1. simpl. rewrite H2. simpl.
  rewrite H3. simpl. unfold masked, int_of.
  destruct (Z.land (ip a) (ip nm) =? ip a) eqn:E; simpl; [reflexivity|].
  apply make_netmask_inv in H3 as [Hp ->]. simpl ip in *.
  destruct (ip_int_from_prefix_value v p Hp) as (_ & _ & Hr).
  rewrite check_int_address_ok; [reflexivity|].
  split.
  - apply Z.land_nonneg. right. lia.
  - destruct (land_subset_bounds (Z.land (ip a) (ip_int_from_prefix v p))
                (ip_int_from_prefix v p)) as [_ B]; [lia| |lia].
    now rewrite <- Z.land_assoc, Z.land_diag.
Qed.

Lemma masked_version v a nm : version a = v -> version (masked v a nm) = v.
Proof. unfold masked. destruct (_ =? _); simpl; auto. Qed.

Lemma masked_ip v a nm : ip (masked v a nm) = Z.land (ip a) (ip nm).
Proof.
  unfold masked. destruct (Z.eqb_spec (Z.land (ip a) (ip nm)) (ip a)); simpl; congruence.
Qed.

Lemma Network_init_wf v s strict n :
  Network_init v s strict = Ok n -> net_version n = v /\ wf_network n.
Proof.
  intros H. apply Network_init_inv in H as (addr & mask & a & nm & p & _ & Ha & Hm & ->).
  apply address_of_str_version in Ha.
  apply make_netmask_inv in Hm as [Hp ->].
  unfold wf_network, net_version. simpl.
  rewrite (masked_version v a _ Ha). repeat split; try lia.
  rewrite masked_ip. simpl. now rewrite <- Z.land_assoc, Z.land_diag.
Qed.

Lemma ip_network_inv s strict n :
  ip_network s strict = Ok n -> exists v, Network_init v s strict = Ok n.
Proof.
  unfold ip_network, IPv4Network, IPv6Network. intros H.
  apply try_except_Ok_inv in H as [H | (e & _ & _ & H)]; [now exists V4|].
  apply try_except_Ok_inv in H as [H | (e' & _ & _ & H)]; [now exists V6|].
  discriminate.
Qed.

Lemma ip_network_wf s strict n : ip_network s strict = Ok n -> wf_network n.
Proof.
  intros H. apply ip_network_inv in H as (v & H).
  now apply Network_init_wf in H.
Qed.

(** [str] succeeds on an address within the bounds of its class. *)
Lemma str_ok a : 0 <= ip a <= ALL_ONES (version a) -> str a = Ok (address_text a).
Proof.
  intros [H0 H1]. unfold str, address_text.
  destruct (version a) eqn:V.
  - unfold v4_string_from_ip_int.
    destruct (Z.ltb_spec (ip a) 0); [lia|].
    destruct (Z.gtb_spec (ip a) (ALL_ONES V4)); [lia|]. simpl.
    destruct (scope_id a); reflexivity.
  - unfold v6_string_from_ip_int.
    destruct (Z.gtb_spec (ip a) (ALL_ONES V6)); [lia|]. simpl.
    destruct (scope_id a) as [sc|]; [destruct (Str.truthy sc)|]; reflexivity.
Qed.

Lemma wf_network_address_bounds n :
  wf_network n ->
  0 <= ip (network_address n) <= ALL_ONES (version (network_address n)).
Proof.
  intros H. pose proof (wf_network_arith n H) as (_ & _ & _ & H0 & H1 & _).
  cbv zeta in *. unfold net_version in *.
  destruct H as (Hp & _).
  destruct (ones_bounds (max_prefixlen (net_version n) - prefixlen n)); [lia|].
  unfold net_version in *. lia.
Qed.

Lemma validate_cidr_spec s :
  validate_cidr s
  = Ok (match ip_network (Str.strip s) false with Ok _ => true | Raise _ => false end).
Proof.
  unfold validate_cidr.
  destruct (ip_network (Str.strip s) false) as [n|e] eqn:E; simpl; [reflexivity|].
  now rewrite (ip_network_raises _ _ e E).
Qed.

Lemma cidr_to_ip_range_spec self s :
  cidr_to_ip_range self s
  = ([], Ok (match ip_network (Str.strip s) false with
             | Ok n => Some (range_of_network (Str.strip s) n)
             | Raise _ => None
             end)).
Proof.
  unfold cidr_to_ip_range. rewrite validate_cidr_spec.
  destruct (ip_network (Str.strip s) false) as [n|e] eqn:E; [|reflexivity].
  simpl. pose proof (ip_network_wf _ _ _ E) as W.
  pose proof (wf_network_arith n W) as (_ & Hb & Hn & H0 & H1 & _).
  cbv zeta in *.
  rewrite (str_ok _ (wf_network_address_bounds n W)). simpl.
  rewrite Hb. simpl.
  rewrite str_ok.
  2:{ simpl. destruct W as (Hp & _).
      destruct (ones_bounds (max_prefixlen (net_version n) - prefixlen n)); [lia|]. lia. }
  simpl. rewrite Hn. simpl. unfold range_of_network, address_text. simpl.
  destruct (net_version n); reflexivity.
Qed.

(* ================================================================= *)
(** ** Version dispatch in [ip_network] *)

(** ** Text lemmas *)

Lemma split_not_nil sep s : Str.split sep s <> [].
Proof.
  destruct s as [|c s]; simpl; [discriminate|].
  destruct (Str.eqb_ascii c sep); [discriminate|].
  destruct (Str.split sep s); discriminate.
Qed.

Lemma split_without_sep sep s : Str.contains sep s = false -> Str.split sep s = [s].
Proof.
  induction s as [|c s IH]; simpl; [reflexivity|].
  intros H. apply orb_false_iff in H as [H1 H2].
  rewrite H1, (IH H2). reflexivity.
Qed.

Lemma contains_in_split c sep s :
  Str.eqb_ascii c sep = false -> Str.contains c s = true ->
  exists part, In part (Str.split sep s) /\ Str.contains c part = true.
Proof.
  intros Hc. induction s as [|x s IH]; simpl; [discriminate|].
  intros H. destruct (Str.eqb_ascii x sep) eqn:Ex.
  - assert (Str.eqb_ascii x c = false) as Exc.
    { unfold Str.eqb_ascii in *. apply Ascii.eqb_eq in Ex. subst x.
      destruct (Ascii.eqb sep c) eqn:E; [|reflexivity].
      apply Ascii.eqb_eq in E. subst. now rewrite Ascii.eqb_refl in Hc. }
    rewrite Exc in H. simpl in H.
    destruct (IH H) as (part & Hin & Hp). exists part. split; [now right | exact Hp].
  - destruct (Str.split sep s) as [|h t] eqn:Es; [now apply split_not_nil in Es|].
    destruct (Str.eqb_ascii x c) eqn:Exc.
    + exists (String x h). split; [now left|]. simpl. now rewrite Exc.
    + simpl in H. destruct (IH H) as (part & [<- | Hin] & Hp).
      * exists (String x h). split; [now left|]. simpl. now rewrite Hp, orb_true_r.
      * exists part. split; [now right | exact Hp].
Qed.

Lemma partition_before_contains c sep s b f a :
  Str.partition sep s = (b, f, a) -> Str.contains c b = true -> Str.contains c s = true.
Proof.
  revert b f a. induction s as [|x s IH]; simpl; intros b f a H Hb.
  - inversion H. subst. discriminate.
  - destruct (Str.eqb_ascii x sep).
    + inversion H. subst. discriminate.
    + destruct (Str.partition sep s) as [[b' f'] a'] eqn:E. inversion H. subst.
      simpl in Hb. apply orb_true_iff in Hb as [Hb | Hb].
      * now rewrite Hb.
      * rewrite (IH _ _ _ eq_refl Hb). apply orb_true_r.
Qed.

Lemma mapM_Ok_in {A B} (f : A -> result B) l bs x :
  mapM f l = Ok bs -> In x l -> exists y, f x = Ok y.
Proof.
  revert bs. induction l as [|a l IH]; simpl; intros bs H Hin; [contradiction|].
  apply bind_Ok_inv in H as (b & Hb & H).
  apply bind_Ok_inv in H as (bs' & Hbs & _).
  destruct Hin as [<- | Hin]; [eauto | eapply IH; eauto].
Qed.

Lemma digits_have_no_colon s :
  Str.forallb Str.is_decimal_digit s = true -> Str.contains ":" s = false.
Proof.
  induction s as [|c s IH]; simpl; [reflexivity|].
  intros H. apply andb_true_iff in H as [H1 H2]. rewrite (IH H2), orb_false_r.
  unfold Str.eqb_ascii. destruct (Ascii.eqb_spec c ":"); [subst; discriminate | reflexivity].
Qed.

Lemma parse_octet_no_colon s n : parse_octet s = Ok n -> Str.contains ":" s = false.
Proof.
  unfold parse_octet. destruct (Str.is_empty s); [discriminate|].
  destruct (Str.isascii_isdigit s) eqn:E; simpl; [|discriminate].
  intros _. unfold Str.isascii_isdigit in E. apply andb_true_iff in E as [_ E].
  now apply digits_have_no_colon.
Qed.

(** A text with a colon in it is no version 4 address. *)
Lemma IPv4Address_of_str_colon s :
  Str.contains ":" s = true -> IPv4Address_of_str s = Raise AddressValueError.
Proof.
  intros Hc. unfold IPv4Address_of_str.
  destruct (Str.contains "/" s); [reflexivity|].
  unfold v4_ip_int_from_string.
  destruct (Str.is_empty s); [reflexivity|].
  destruct (negb _); [reflexivity|].
  destruct (mapM parse_octet (Str.split "." s)) as [bs|e] eqn:E; simpl.
  - exfalso.
    destruct (contains_in_split ":" "." s eq_refl Hc) as (part & Hin & Hp).
    destruct (mapM_Ok_in _ _ _ _ E Hin) as (y & Hy).
    apply parse_octet_no_colon in Hy. congruence.
  - assert (is_ValueError e = true) as ->; [|reflexivity].
    eapply raises_only_mapM; [|exact E]. intros a. apply parse_octet_raises.
Qed.

Lemma v6_ip_int_from_string_colon s n :
  v6_ip_int_from_string s = Ok n -> Str.contains ":" s = true.
Proof.
  unfold v6_ip_int_from_string. destruct (Str.is_empty s); [discriminate|].
  destruct (Str.contains ":" s) eqn:E; [reflexivity|].
  rewrite (split_without_sep _ _ E). simpl. discriminate.
Qed.

Lemma IPv6_text_is_not_IPv4 s a :
  IPv6Address_of_str s = Ok a -> IPv4Address_of_str s = Raise AddressValueError.
Proof.
  unfold IPv6Address_of_str. destruct (Str.contains "/" s) eqn:Es; [discriminate|].
  intros H. apply bind_Ok_inv in H as ([s' sc] & Hs & H).
  apply bind_Ok_inv in H as (n & Hn & _).
  apply v6_ip_int_from_string_colon in Hn.
  apply IPv4Address_of_str_colon.
  unfold split_scope_id in Hs.
  destruct (Str.partition "%" s) as [[b f] r] eqn:Ep.
  assert (b = s') as ->.
  { destruct (negb f); [now inversion Hs|].
    destruct (_ || _); [discriminate | now inversion Hs]. }
  eapply partition_before_contains; eassumption.
Qed.

(** The version 4 constructor fails on the text of a version 6 network. *)
Lemma IPv4Network_on_IPv6_text s strict addr mask a :
  split_addr_prefix s = Ok (addr, mask) ->
  address_of_str V6 addr = Ok a ->
  Network_init V4 s strict = Raise AddressValueError.
Proof.
  intros H1 H2. unfold Network_init. rewrite H1. simpl.
  simpl in H2. now rewrite (IPv6_text_is_not_IPv4 _ _ H2).
Qed.

Lemma ip_network_of_parts v s strict addr mask a :
  split_addr_prefix s = Ok (addr, mask) ->
  address_of_str v addr = Ok a ->
  (exists n, Network_init v s strict = Ok n) \/ Network_init v s strict = Raise ValueError ->
  ip_network s strict = Network_init v s strict.
Proof.
  intros H1 H2 H. unfold ip_network, IPv4Network, IPv6Network. destruct v.
  - destruct H as [[n ->] | ->]; reflexivity.
  - rewrite (IPv4Network_on_IPv6_text _ _ _ _ _ H1 H2). simpl.
    destruct H as [[n ->] | ->]; reflexivity.
Qed.

(* ================================================================= *)
(** ** Range arithmetic and non-strict parsing *)

(** C3.  A range record built from a valid CIDR text has
    [total_ips = end - start + 1] and [total_ips = 2 ^ (bits - prefixlen)],
    the addresses being read as integers; at the maximal prefix length the
    two ends coincide and [total_ips = 1] (the two texts coincide as well
    unless the address was written with a scope, which only the start
    keeps). *)
Theorem cidr_range_arithmetic (self : Converter.t) (cidr : string)
    (tr : list event) (r : Range.t) :
  cidr_to_ip_range self cidr = (tr, Ok (Some r)) ->
  exists network broadcast,
    ip_network (Str.strip cidr) false = Ok network
    /\ broadcast_address network = Ok broadcast
    /\ Range.start_ip r = address_text (network_address network)
    /\ Range.end_ip r = address_text broadcast
    /\ Range.total_ips r = int_of broadcast - int_of (network_address network) + 1
    /\ Range.total_ips r
       = 2 ^ (max_prefixlen (net_version network) - prefixlen network)
    /\ 0 <= prefixlen network <= max_prefixlen (net_version network)
    /\ (prefixlen network = max_prefixlen (net_version network) ->
        int_of broadcast = int_of (network_address network)
        /\ Range.total_ips r = 1
        /\ (scope_id (network_address network) = None ->
            Range.start_ip r = Range.end_ip r)).
Proof.
  rewrite cidr_to_ip_range_spec. intros H.
  destruct (ip_network (Str.strip cidr) false) as [n|e] eqn:E; [|discriminate].
  inversion H. subst tr r. clear H.
  pose proof (ip_network_wf _ _ _ E) as W.
  pose proof (wf_network_arith n W) as (_ & Hb & _ & H0 & H1 & _). cbv zeta in *.
  destruct W as (Hp & _ & _).
  eexists n, _. split; [reflexivity|]. split; [exact Hb|].
  unfold range_of_network, int_of. simpl.
  destruct (ones_bounds (max_prefixlen (net_version n) - prefixlen n)) as [_ Ho]; [lia|].
  split; [reflexivity|].
  split; [unfold address_text; simpl; destruct (net_version n); reflexivity|].
  split; [lia|]. split; [reflexivity|]. split; [exact Hp|].
  intros H. rewrite H, Z.sub_diag in *. simpl in Ho.
  split; [lia|]. split; [reflexivity|].
  intros Hs. rewrite Ho, Z.add_0_r.
  unfold address_text, net_version. rewrite Hs.
  destruct (version (network_address n)); reflexivity.
Qed.

(** C6.  A CIDR text whose address has bits set outside the netmask is
    refused by the strict constructor only: [validate_cidr] accepts it and
    the range starts at the address with those bits cleared. *)
Theorem host_bits_are_cleared (self : Converter.t) (v : ip_version)
    (text addr : string) (mask : option string) (a nm : address) (p : Z) :
  split_addr_prefix (Str.strip text) = Ok (addr, mask) ->
  address_of_str v addr = Ok a ->
  make_netmask v mask = Ok (nm, p) ->
  Z.land (ip a) (ip nm) <> ip a ->
  let base := Z.land (ip a) (ip_int_from_prefix v p) in
  let hostbits := Z.ones (max_prefixlen v - p) in
  validate_cidr text = Ok true
  /\ ip_network (Str.strip text) true = Raise ValueError
  /\ (exists network,
        ip_network (Str.strip text) false = Ok network
        /\ network_address network = mk_address v base None
        /\ prefixlen network = p)
  /\ (exists r,
        cidr_to_ip_range self text = ([], Ok (Some r))
        /\ Range.cidr r = Str.strip text
        /\ Range.start_ip r = text_of v base
        /\ Range.end_ip r = text_of v (base + hostbits)
        /\ Range.total_ips r = 2 ^ (max_prefixlen v - p))
  /\ Z.land base hostbits = 0.
Proof.
  intros H1 H2 H3 Hbits. cbv zeta.
  pose proof (Network_init_nonstrict v _ _ _ _ _ _ H1 H2 H3) as HN.
  pose proof (make_netmask_inv _ _ _ _ H3) as [Hp Hnm].
  assert (Hm : masked v a nm = mk_address v (Z.land (ip a) (ip_int_from_prefix v p)) None).
  { unfold masked. destruct (Z.eqb_spec (Z.land (ip a) (ip nm)) (ip a)); [contradiction|].
    now rewrite Hnm. }
  rewrite Hm in HN.
  assert (HS : Network_init v (Str.strip text) true = Raise ValueError).
  { unfold Network_init. rewrite H1. simpl. rewrite H2. simpl. rewrite H3. simpl.
    unfold int_of. destruct (Z.eqb_spec (Z.land (ip a) (ip nm)) (ip a)); [contradiction|].
    reflexivity. }
  assert (EN : ip_network (Str.strip text) false
               = Ok (mk_network (mk_address v (Z.land (ip a) (ip_int_from_prefix v p)) None)
                       nm p)).
  { rewrite (ip_network_of_parts v _ false addr mask a H1 H2); [exact HN | left; eauto]. }
  assert (ES : ip_network (Str.strip text) true = Raise ValueError).
  { rewrite (ip_network_of_parts v _ true addr mask a H1 H2); [exact HS | now right]. }
  pose proof (ip_network_wf _ _ _ EN) as W.
  pose proof (wf_network_arith _ W) as (_ & _ & _ & _ & _ & Hd).
  cbv zeta in Hd. unfold net_version in Hd. simpl in Hd.
  split; [rewrite validate_cidr_spec, EN; reflexivity|].
  split; [exact ES|].
  split; [eexists; split; [exact EN|]; split; reflexivity|].
  split; [|exact Hd].
  eexists. rewrite cidr_to_ip_range_spec, EN. split; [reflexivity|].
  unfold range_of_network, net_version, address_text. simpl.
  repeat split.
Qed.

Lemma cidr_range_arithmetic_witness :
  let self := Examples.converter "zones" ["txt"%string] PyFloat.one None in
  let r := Examples.range_of "10.0.0.1/32" in
  cidr_to_ip_range self "10.0.0.1/32" = ([], Ok (Some r))
  /\ Range.total_ips r = 1
  /\ Range.start_ip r = Range.end_ip r.
Proof.
  cbv zeta. split; [vm_compute; reflexivity|].
  destruct (cidr_range_arithmetic
              (Examples.converter "zones" ["txt"%string] PyFloat.one None)
              "10.0.0.1/32" [] (Examples.range_of "10.0.0.1/32"))
    as (n & b & En & _ & _ & _ & _ & _ & _ & H); [vm_compute; reflexivity|].
  assert (n = mk_network (mk_address V4 167772161 None)
                (mk_address V4 4294967295 None) 32) as ->.
  { vm_compute in En. now inversion En. }
  destruct (H eq_refl) as (_ & H1 & H2).
  split; [exact H1 | exact (H2 eq_refl)].
Defined.

Lemma host_bits_are_cleared_witness :
  let self := Examples.converter "zones" ["txt"%string] PyFloat.one None in
  Z.land 3232235853 4294967040 <> 3232235853
  /\ validate_cidr " 192.168.1.77/24 " = Ok true
  /\ exists r,
       cidr_to_ip_range self " 192.168.1.77/24 " = ([], Ok (Some r))
       /\ Range.start_ip r = "192.168.1.0"%string.
Proof.
  cbv zeta.
  assert (H : Z.land 3232235853 4294967040 <> 3232235853) by (vm_compute; discriminate).
  split; [exact H|].
  destruct (host_bits_are_cleared
              (Examples.converter "zones" ["txt"%string] PyFloat.one None)
              V4 " 192.168.1.77/24 " "192.168.1.77" (Some "24"%string)
              (mk_address V4 3232235853 None) (mk_address V4 4294967040 None) 24)
    as (Hv & _ & _ & (r & Hr & _ & Hs & _) & _);
    [vm_compute; reflexivity | vm_compute; reflexivity | vm_compute; reflexivity
     | exact H |].
  split; [exact Hv|]. exists r. split; [exact Hr|].
  rewrite Hs. vm_compute. reflexivity.
Defined.

(* ================================================================= *)
(** ** Zone files and malformed lines *)

(** ** The loop over the lines of a zone file *)

Lemma process_lines_spec self name lines : forall k acc,
  exists tr,
    process_lines self name k lines acc = (tr, acc ++ flat_map kept lines, None)
    /\ Forall (fun e => exists k' line, e = Log DEBUG (SkippingInvalidLine k' name line)) tr.
Proof.
  induction lines as [|line rest IH]; intros k acc; simpl.
  - exists []. rewrite app_nil_r. split; [reflexivity | constructor].
  - unfold kept at 1. cbv zeta.
    destruct (Str.is_empty (Str.strip line) || Str.startswith "#" (Str.strip line)).
    + destruct (IH (k + 1) acc) as (tr & E & F). exists tr. now split.
    + rewrite cidr_to_ip_range_spec.
      destruct (ip_network (Str.strip (Str.strip line)) false) as [n|e].
      * destruct (IH (k + 1) (acc ++ [range_of_network (Str.strip (Str.strip line)) n]))
          as (tr & E & F).
        rewrite E. exists tr. split; [|exact F].
        simpl. now rewrite <- app_assoc.
      * destruct (IH (k + 1) acc) as (tr & E & F). rewrite E.
        eexists. split; [reflexivity|]. simpl. constructor; [eauto | exact F].
Qed.

Lemma ranges_of_lines_spec self lines : ranges_of_lines self lines = flat_map kept lines.
Proof.
  unfold ranges_of_lines.
  destruct (process_lines_spec self EmptyString lines 1 []) as (tr & E & _).
  now rewrite E.
Qed.

Lemma process_zone_file_spec w self p lines :
  read_lines w p = ReadAll lines ->
  exists tr,
    process_zone_file w self p = (tr, flat_map kept lines)
    /\ Forall (fun e => exists k line,
                 e = Log DEBUG (SkippingInvalidLine k (path_name p) line)) tr.
Proof.
  intros H. unfold process_zone_file. rewrite H.
  destruct (process_lines_spec self (path_name p) lines 1 []) as (tr & E & F).
  rewrite E. exists tr. now split.
Qed.

Lemma kept_refused self line :
  snd (cidr_to_ip_range self (Str.strip line)) = Ok None -> kept line = [].
Proof.
  rewrite cidr_to_ip_range_spec. simpl. unfold kept. cbv zeta.
  destruct (_ || _); [reflexivity|].
  destruct (ip_network (Str.strip (Str.strip line)) false); [discriminate | reflexivity].
Qed.

(** C5.  The parser never raises: on every text [cidr_to_ip_range]
    returns normally, with [None] exactly when [ip_network] refuses the
    text, as for ["invalid"] and the empty text; and a refused line in a
    zone file is skipped, the ranges of the lines before and after it being
    collected as if it were not there, without any error record. *)
Theorem malformed_lines_are_skipped (w : world) (self : Converter.t) (p : path)
    (before after : list string) (bad : string) :
  read_lines w p = ReadAll (before ++ bad :: after) ->
  snd (cidr_to_ip_range self (Str.strip bad)) = Ok None ->
  (forall parser line,
     exists o,
       cidr_to_ip_range parser line = ([], Ok o)
       /\ (o = None <-> exists e, ip_network (Str.strip line) false = Raise e))
  /\ (forall line, exists b, validate_cidr line = Ok b)
  /\ cidr_to_ip_range self "invalid" = ([], Ok None)
  /\ cidr_to_ip_range self "" = ([], Ok None)
  /\ snd (process_zone_file w self p)
     = ranges_of_lines self before ++ ranges_of_lines self after
  /\ (forall m, ~ In (Log ERROR m) (fst (process_zone_file w self p))).
Proof.
  intros Hr Hbad.
  split.
  { intros parser line. rewrite cidr_to_ip_range_spec.
    eexists. split; [reflexivity|].
    destruct (ip_network (Str.strip line) false) as [n|e]; split;
      try discriminate; eauto.
    intros (e & E). discriminate. }
  split.
  { intros line. rewrite validate_cidr_spec. eauto. }
  split; [rewrite cidr_to_ip_range_spec; reflexivity|].
  split; [rewrite cidr_to_ip_range_spec; reflexivity|].
  destruct (process_zone_file_spec w self p _ Hr) as (tr & E & F).
  rewrite E. simpl. split.
  - rewrite !ranges_of_lines_spec, flat_map_app. simpl.
    now rewrite (kept_refused self bad Hbad).
  - intros m Hin. rewrite Forall_forall in F.
    destruct (F _ Hin) as (k & line & Ek). discriminate.
Qed.

(** ** Floats *)

Lemma ltb_leb a b : PyFloat.ltb a b = true -> PyFloat.leb a b = true.
Proof.
  unfold PyFloat.ltb, PyFloat.leb, SFltb, SFleb.
  destruct (SFcompare a b) as [[]|]; congruence.
Qed.

Lemma clamp_bounds rate :
  let r := PyFloat.max PyFloat.zero (PyFloat.min PyFloat.one rate) in
  PyFloat.leb PyFloat.zero r = true /\ PyFloat.leb r PyFloat.one = true.
Proof.
  cbv zeta. unfold PyFloat.max, PyFloat.min.
  destruct (PyFloat.ltb rate PyFloat.one) eqn:E1.
  - destruct (PyFloat.ltb PyFloat.zero rate) eqn:E2.
    + split; now apply ltb_leb.
    + split; reflexivity.
  - split; reflexivity.
Qed.

Lemma nonpositive_rate rate :
  PyFloat.leb rate PyFloat.zero = true ->
  PyFloat.leb PyFloat.one rate = false /\ PyFloat.ltb PyFloat.zero rate = false.
Proof.
  unfold PyFloat.leb, PyFloat.ltb, SFleb, SFltb, PyFloat.zero, PyFloat.one.
  destruct rate as [s|s| |s m e]; simpl; try discriminate; try (now split).
  - destruct s; simpl; [now split | discriminate].
  - destruct s; simpl; [now split | discriminate].
Qed.

(* ================================================================= *)
(** ** Dense emission and the converter's configuration *)

(** ** [range] *)

Lemma py_range_length a b : List.length (py_range a b) = Z.to_nat (b - a).
Proof. unfold py_range. now rewrite length_map, length_seq. Qed.

Lemma py_range_In a b x : In x (py_range a b) <-> a <= x < b.
Proof.
  unfold py_range. rewrite in_map_iff. split.
  - intros (i & <- & Hi). apply in_seq in Hi. lia.
  - intros H. exists (Z.to_nat (x - a)). split; [lia|]. apply in_seq. lia.
Qed.

Lemma py_range_nth a b i d :
  (i < Z.to_nat (b - a))%nat -> nth i (py_range a b) d = a + Z.of_nat i.
Proof.
  intros H. unfold py_range.
  rewrite nth_indep with (d' := a + Z.of_nat 0)
    by (now rewrite length_map, length_seq).
  change (a + Z.of_nat 0) with ((fun i => a + Z.of_nat i) 0%nat).
  rewrite map_nth, seq_nth by exact H. reflexivity.
Qed.

(** ** Loops that write *)

Lemma write_each_all {A} (f : A -> result string) (g : A -> string) xs :
  (forall x, In x xs -> f x = Ok (g x)) -> write_each f xs = (map g xs, None).
Proof.
  induction xs as [|x xs IH]; simpl; intros H; [reflexivity|].
  rewrite (H x) by now left. rewrite IH by (intros; apply H; now right). reflexivity.
Qed.

Lemma address_line_ok v x :
  0 <= x <= ALL_ONES v -> address_line (mk_address v x None) = Ok (line_of v x).
Proof.
  intros H. unfold address_line. rewrite str_ok by exact H.
  unfold address_text, line_of. simpl. destruct v; reflexivity.
Qed.

Lemma write_network_spec n :
  wf_network n ->
  let v := net_version n in
  let first := ip (network_address n) in
  let last := first + Z.ones (max_prefixlen v - prefixlen n) in
  write_network n = (map (line_of v) (py_range first (last + 1)), None).
Proof.
  intros W. cbv zeta.
  pose proof (wf_network_arith n W) as (_ & Hb & _ & H0 & H1 & _). cbv zeta in *.
  unfold write_network. rewrite Hb. unfold int_of. simpl ip.
  apply write_each_all. intros x Hx. apply py_range_In in Hx.
  unfold address_class. rewrite check_int_address_ok by lia. simpl.
  apply address_line_ok. lia.
Qed.

(** C4.  At a rate of at least [1.0] the lines written for a range are
    those of all its addresses, from the first to the last in steps of one;
    at a rate of at most [0.0] nothing is written for it. *)
Theorem dense_and_empty_sampling (rng : sampler) (self parser : Converter.t)
    (text base_name : string) (call : nat) (tr : list event) (r : Range.t) :
  cidr_to_ip_range parser text = (tr, Ok (Some r)) ->
  (PyFloat.leb PyFloat.one (Converter.sample_rate self) = true ->
   exists network broadcast,
     ip_network (Range.cidr r) false = Ok network
     /\ broadcast_address network = Ok broadcast
     /\ let first := int_of (network_address network) in
        let last := int_of broadcast in
        let addresses := py_range first (last + 1) in
        write_range rng self base_name call r
        = (map (line_of (net_version network)) addresses, None)
        /\ Z.of_nat (List.length addresses) = Range.total_ips r
        /\ (forall i, (i < List.length addresses)%nat ->
                      nth i addresses 0 = first + Z.of_nat i))
  /\ (PyFloat.leb (Converter.sample_rate self) PyFloat.zero = true ->
      write_range rng self base_name call r = ([], None)).
Proof.
  rewrite cidr_to_ip_range_spec. intros H.
  destruct (ip_network (Str.strip text) false) as [n|e] eqn:E; [|discriminate].
  inversion H. subst tr r. clear H.
  pose proof (ip_network_wf _ _ _ E) as W.
  pose proof (wf_network_arith n W) as (_ & Hb & _ & H0 & H1 & _). cbv zeta in *.
  destruct (ones_bounds (max_prefixlen (net_version n) - prefixlen n)) as [Ho1 Ho2];
    [destruct W; lia|].
  split.
  - intros Hrate. exists n. eexists. split; [exact E|]. split; [exact Hb|].
    cbv zeta. unfold int_of. simpl ip.
    split; [|split].
    + unfold write_range. simpl Range.cidr. rewrite E, Hrate.
      now apply write_network_spec.
    + rewrite py_range_length. simpl. lia.
    + intros i Hi. rewrite py_range_length in Hi. now apply py_range_nth.
  - intros Hrate. unfold write_range. simpl Range.cidr. rewrite E.
    destruct (nonpositive_rate _ Hrate) as [-> ->]. reflexivity.
Qed.

(** ** The converter's configuration is never reassigned *)

Lemma aggregate_keeps_configuration self zf o :
  let self' := fst (aggregate self zf o) in
  Converter.sample_rate self' = Converter.sample_rate self
  /\ Converter.max_workers self' = Converter.max_workers self.
Proof.
  unfold aggregate. destruct o as [[st|]|e]; simpl; auto.
Qed.

Lemma drain_keeps_configuration w rng zone_files futures : forall self,
  let self' := fst (drain w rng zone_files futures self) in
  Converter.sample_rate self' = Converter.sample_rate self
  /\ Converter.max_workers self' = Converter.max_workers self.
Proof.
  induction futures as [|i rest IH]; intros self; simpl; [auto|].
  destruct (nth_error zone_files i) as [zf|]; [|apply IH].
  destruct (convert_file w rng self zf) as [tr o].
  pose proof (aggregate_keeps_configuration self zf o) as [A1 A2].
  destruct (aggregate self zf o) as [self1 tr1]. simpl in A1, A2.
  specialize (IH self1). cbv zeta in IH.
  destruct (drain w rng zone_files rest self1) as [self2 tr2]. simpl in *.
  destruct IH. split; congruence.
Qed.

Lemma convert_all_keeps_configuration w rng sched self :
  let self' := snd (fst (convert_all w rng sched self)) in
  Converter.sample_rate self' = Converter.sample_rate self
  /\ Converter.max_workers self' = Converter.max_workers self.
Proof.
  cbv zeta. unfold convert_all.
  destruct (ensure_directory w (Converter.output_dir self)); [|simpl; auto].
  destruct (discover w self) as [[[|zf zfs] found]|]; simpl; auto.
  pose proof (drain_keeps_configuration w rng (zf :: zfs) (delivered self sched)
                (reset_statistics self)) as H. cbv zeta in H.
  destruct (drain w rng (zf :: zfs) (delivered self sched) (reset_statistics self))
    as [self1 tr1]. simpl in *. exact H.
Qed.

(** C9.  The constructor stores [max(0.0, min(1.0, sample_rate))], which
    lies between [0.0] and [1.0] whatever the argument (an infinity and a
    NaN included), and [max(1, max_workers)]; no step of a run assigns
    either attribute again. *)
Theorem sample_rate_is_clamped (input_path output_dir : string)
    (output_formats : option (list string)) (sample_rate : PyFloat.float)
    (max_workers : Z) (timeout : option Z) (output_file_name : option string) :
  let self := init input_path output_dir output_formats sample_rate max_workers
                timeout output_file_name in
  Converter.sample_rate self
  = PyFloat.max PyFloat.zero (PyFloat.min PyFloat.one sample_rate)
  /\ PyFloat.leb PyFloat.zero (Converter.sample_rate self) = true
  /\ PyFloat.leb (Converter.sample_rate self) PyFloat.one = true
  /\ Converter.max_workers self = Z.max 1 max_workers
  /\ (forall s zf outcome,
        Converter.sample_rate (fst (aggregate s zf outcome)) = Converter.sample_rate s
        /\ Converter.max_workers (fst (aggregate s zf outcome)) = Converter.max_workers s)
  /\ (forall s,
        Converter.sample_rate (reset_statistics s) = Converter.sample_rate s
        /\ Converter.max_workers (reset_statistics s) = Converter.max_workers s)
  /\ (forall w rng sched,
        let self' := snd (fst (convert_all w rng sched self)) in
        Converter.sample_rate self' = Converter.sample_rate self
        /\ Converter.max_workers self' = Converter.max_workers self
        /\ PyFloat.leb PyFloat.zero (Converter.sample_rate self') = true
        /\ PyFloat.leb (Converter.sample_rate self') PyFloat.one = true).
Proof.
  cbv zeta. simpl Converter.sample_rate at 1. simpl Converter.max_workers at 1.
  destruct (clamp_bounds sample_rate) as [B0 B1]. cbv zeta in *.
  split; [reflexivity|]. split; [exact B0|]. split; [exact B1|].
  split; [reflexivity|].
  split; [intros; apply aggregate_keeps_configuration|].
  split; [intros; split; reflexivity|].
  intros w rng sched.
  pose proof (convert_all_keeps_configuration w rng sched
                (init input_path output_dir output_formats sample_rate max_workers
                   timeout output_file_name)) as [E1 E2].
  cbv zeta in *. rewrite E1. repeat split; assumption.
Qed.

(* ================================================================= *)
(** ** Sampling *)

(** ** [sorted] *)

Lemma sorted_permutation l : Permutation l (sorted l).
Proof. apply ZSort.Permuted_sort. Qed.

Lemma sorted_ascending l : StronglySorted Z.le (sorted l).
Proof.
  assert (S : StronglySorted (fun x y => is_true (x <=? y)) (sorted l)).
  { apply ZSort.StronglySorted_sort. intros x y z Hxy Hyz.
    unfold is_true in *. apply Z.leb_le in Hxy, Hyz. apply Z.leb_le. lia. }
  induction S as [|a l' S IH F]; constructor; [exact IH|].
  eapply Forall_impl; [|exact F]. intros b Hb. now apply Z.leb_le.
Qed.

Lemma strictly_ascending_of_NoDup l :
  StronglySorted Z.le l -> NoDup l -> StronglySorted Z.lt l.
Proof.
  induction 1 as [|a l S IH F]; intros N; constructor.
  - apply IH. now inversion N.
  - inversion N as [|? ? Hnotin _]. subst.
    rewrite Forall_forall in *. intros b Hb.
    assert (a <> b) by (intros ->; contradiction).
    specialize (F b Hb). lia.
Qed.

Lemma sorted_sample n k chosen :
  is_sample n k chosen ->
  Z.of_nat (List.length (sorted chosen)) = k
  /\ StronglySorted Z.lt (sorted chosen)
  /\ Forall (fun x => 0 <= x < n) (sorted chosen).
Proof.
  intros (Hl & Hn & Hf). pose proof (sorted_permutation chosen) as P.
  split; [now rewrite <- (Permutation_length P)|]. split.
  - apply strictly_ascending_of_NoDup; [apply sorted_ascending|].
    eapply Permutation_NoDup; eassumption.
  - eapply Permutation_Forall; eassumption.
Qed.

(** ** The loop over the sampled offsets *)

Lemma write_index_step network_int idx :
  0 <= network_int + idx ->
  (ip <- IPv4Address_of_int (network_int + idx) ;; address_line ip)
  = if fits network_int idx then Ok (line_of V4 (network_int + idx))
    else Raise AddressValueError.
Proof.
  intros H. unfold fits, IPv4Address_of_int, address_of_int, check_int_address.
  destruct (Z.ltb_spec (network_int + idx) 0); [lia|].
  destruct (Z.leb_spec (network_int + idx) (ALL_ONES V4)).
  - destruct (Z.gtb_spec (network_int + idx) (ALL_ONES V4)); [lia|]. simpl.
    apply address_line_ok. lia.
  - destruct (Z.gtb_spec (network_int + idx) (ALL_ONES V4)); [|lia]. reflexivity.
Qed.

Lemma fits_downward network_int x y :
  x <= y -> fits network_int y = true -> fits network_int x = true.
Proof. unfold fits. intros H Hy. apply Z.leb_le in Hy. apply Z.leb_le. lia. Qed.

Lemma write_indices_spec network_int indices :
  0 <= network_int ->
  Forall (fun idx => 0 <= idx) indices ->
  StronglySorted Z.le indices ->
  write_indices network_int indices
  = (map (fun idx => line_of V4 (network_int + idx)) (filter (fits network_int) indices),
     if forallb (fits network_int) indices then None else Some AddressValueError).
Proof.
  intros H0 Hpos S. unfold write_indices.
  induction S as [|x xs S IH F]; [reflexivity|].
  inversion Hpos as [|? ? Hx Hxs]. subst.
  cbn [write_each filter forallb map].
  rewrite write_index_step by lia.
  destruct (fits network_int x) eqn:Ex.
  - rewrite (IH Hxs). reflexivity.
  - assert (filter (fits network_int) xs = []) as ->; [|reflexivity].
    rewrite Forall_forall in F. clear IH S Hxs Hpos.
    induction xs as [|y ys IHys]; [reflexivity|].
    cbn [filter]. destruct (fits network_int y) eqn:Ey.
    + rewrite (fits_downward network_int x y) in Ex;
        [discriminate | apply F; now left | exact Ey].
    + apply IHys. intros z Hz. apply F. now right.
Qed.

(** The sampling branch of [write_range]. *)
Lemma write_range_sampling rng self base_name call r n k :
  PyFloat.leb PyFloat.one (Converter.sample_rate self) = false ->
  PyFloat.ltb PyFloat.zero (Converter.sample_rate self) = true ->
  ip_network (Range.cidr r) false = Ok n ->
  sample_size (2 ^ (max_prefixlen (net_version n) - prefixlen n))
    (Converter.sample_rate self) = Ok k ->
  k < 2 ^ (max_prefixlen (net_version n) - prefixlen n) ->
  write_range rng self base_name call r
  = write_indices (ip (network_address n))
      (sorted (rng base_name call (2 ^ (max_prefixlen (net_version n) - prefixlen n)) k)).
Proof.
  intros R1 R0 E Hk Hlt. unfold write_range. rewrite E, R1, R0.
  pose proof (ip_network_wf _ _ _ E) as W.
  pose proof (wf_network_arith n W) as (_ & _ & Hn & _). cbv zeta in Hn.
  rewrite Hn. simpl bind. rewrite Hk. simpl.
  destruct (Z.geb_spec k (2 ^ (max_prefixlen (net_version n) - prefixlen n))); [lia|].
  unfold random_sample.
  assert (1 <= k).
  { unfold sample_size in Hk.
    apply bind_Ok_inv in Hk as (x & _ & Hk). apply bind_Ok_inv in Hk as (y & _ & Hk).
    inversion Hk. lia. }
  destruct (Z.ltb_spec k 0); [lia|].
  destruct (Z.ltb_spec (2 ^ (max_prefixlen (net_version n) - prefixlen n)) k); [lia|].
  reflexivity.
Qed.

Lemma malformed_lines_are_skipped_witness :
  let w := Examples.world_of Examples.zones in
  let self := Examples.converter "zones" ["txt"%string] PyFloat.one None in
  read_lines w (Path "zones/cn.zone")
  = ReadAll (["10.0.0.5/30"%string; "# comment"%string]
             ++ "bogus"%string :: ["192.168.1.0/31"%string])
  /\ snd (cidr_to_ip_range self (Str.strip "bogus")) = Ok None
  /\ snd (process_zone_file w self (Path "zones/cn.zone"))
     = [Examples.range_of "10.0.0.5/30"; Examples.range_of "192.168.1.0/31"].
Proof.
  cbv zeta.
  assert (H1 : read_lines (Examples.world_of Examples.zones) (Path "zones/cn.zone")
               = ReadAll (["10.0.0.5/30"%string; "# comment"%string]
             ++ "bogus"%string :: ["192.168.1.0/31"%string]))
    by (vm_compute; reflexivity).
  assert (H2 : snd (cidr_to_ip_range
                      (Examples.converter "zones" ["txt"%string] PyFloat.one None)
                      (Str.strip "bogus")) = Ok None)
    by (vm_compute; reflexivity).
  split; [exact H1|]. split; [exact H2|].
  destruct (malformed_lines_are_skipped _ _ _ _ _ _ H1 H2) as (_ & _ & _ & _ & E & _).
  rewrite E. vm_compute. reflexivity.
Defined.

Lemma dense_and_empty_sampling_witness :
  let parser := Examples.converter "zones" ["txt"%string] PyFloat.one None in
  let dense := Examples.converter "zones" ["txt"%string] PyFloat.one None in
  let silent := Examples.converter "zones" ["txt"%string] PyFloat.zero None in
  let r := Examples.range_of "10.0.0.5/30" in
  cidr_to_ip_range parser "10.0.0.5/30" = ([], Ok (Some r))
  /\ fst (write_range Examples.lowest dense "cn" 0 r)
     = [line_of V4 167772164; line_of V4 167772165;
        line_of V4 167772166; line_of V4 167772167]
  /\ write_range Examples.lowest silent "cn" 0 r = ([], None).
Proof.
  cbv zeta.
  assert (H : cidr_to_ip_range
                (Examples.converter "zones" ["txt"%string] PyFloat.one None) "10.0.0.5/30"
              = ([], Ok (Some (Examples.range_of "10.0.0.5/30"))))
    by (vm_compute; reflexivity).
  split; [exact H|].
  split.
  - destruct (dense_and_empty_sampling Examples.lowest
                (Examples.converter "zones" ["txt"%string] PyFloat.one None)
                _ _ "cn" 0%nat _ _ H) as [D _].
    destruct (D eq_refl) as (n & b & En & Eb & Ew & _).
    assert (n = mk_network (mk_address V4 167772164 None)
                  (mk_address V4 4294967292 None) 30) as ->
      by (vm_compute in En; now inversion En).
    assert (b = mk_address V4 167772167 None) as ->
      by (vm_compute in Eb; now inversion Eb).
    rewrite Ew. reflexivity.
  - destruct (dense_and_empty_sampling Examples.lowest
                (Examples.converter "zones" ["txt"%string] PyFloat.zero None)
                _ _ "cn" 0%nat _ _ H) as [_ Z0].
    exact (Z0 eq_refl).
Defined.

(* ================================================================= *)
(** ** Fair samplers and the sampling branch *)

(** ** Fair samplers *)

Lemma py_range_strictly_ascending a b : StronglySorted Z.lt (py_range a b).
Proof.
  unfold py_range. generalize (Z.to_nat (b - a)) as n. intros n.
  generalize 0%nat as s. induction n as [|n IH]; intros s; simpl; constructor.
  - apply IH.
  - apply Forall_forall. intros x Hx. apply in_map_iff in Hx as (i & <- & Hi).
    apply in_seq in Hi. lia.
Qed.

Lemma NoDup_of_strictly_ascending l : StronglySorted Z.lt l -> NoDup l.
Proof.
  induction 1 as [|a l S IH F]; constructor; [|exact IH].
  intros Hin. rewrite Forall_forall in F. specialize (F a Hin). lia.
Qed.

Lemma lowest_is_sample n k : 0 <= k <= n -> is_sample n k (py_range 0 k).
Proof.
  intros H. split; [|split].
  - rewrite py_range_length. lia.
  - apply NoDup_of_strictly_ascending, py_range_strictly_ascending.
  - apply Forall_forall. intros x Hx. apply py_range_In in Hx. lia.
Qed.

Lemma lowest_fair : fair Examples.lowest.
Proof. intros base call n k H. now apply lowest_is_sample. Qed.

Lemma highest_fair : fair Examples.highest.
Proof.
  intros base call n k H. unfold Examples.highest. split; [|split].
  - rewrite length_rev, py_range_length. lia.
  - apply NoDup_rev, NoDup_of_strictly_ascending, py_range_strictly_ascending.
  - apply Forall_forall. intros x Hx. apply in_rev in Hx. apply py_range_In in Hx. lia.
Qed.



Lemma filter_all {A} (f : A -> bool) l :
  (forall x, In x l -> f x = true) -> filter f l = l /\ forallb f l = true.
Proof.
  induction l as [|x xs IH]; intros H; simpl; [now split|].
  rewrite (H x) by now left.
  destruct IH as [-> ->]; [intros; apply H; now right|]. now split.
Qed.

(** ** The sampling branch on a parsed range *)

Lemma sampling_branch rng self parser text base_name call tr r k :
  fair rng ->
  PyFloat.ltb PyFloat.zero (Converter.sample_rate self) = true ->
  PyFloat.leb PyFloat.one (Converter.sample_rate self) = false ->
  cidr_to_ip_range parser text = (tr, Ok (Some r)) ->
  sample_size (Range.total_ips r) (Converter.sample_rate self) = Ok k ->
  k < Range.total_ips r ->
  exists network,
    ip_network (Range.cidr r) false = Ok network
    /\ wf_network network
    /\ Range.total_ips r = 2 ^ (max_prefixlen (net_version network) - prefixlen network)
    /\ is_sample (Range.total_ips r) k (rng base_name call (Range.total_ips r) k)
    /\ write_range rng self base_name call r
       = write_indices (int_of (network_address network))
           (sorted (rng base_name call (Range.total_ips r) k)).
Proof.
  intros Hfair R0 R1. rewrite cidr_to_ip_range_spec. intros H Hk Hlt.
  destruct (ip_network (Str.strip text) false) as [n|e] eqn:E; [|discriminate].
  inversion H. subst tr r. clear H. simpl in *.
  exists n. pose proof (ip_network_wf _ _ _ E) as W.
  split; [exact E|]. split; [exact W|]. split; [reflexivity|].
  split.
  - apply Hfair. unfold sample_size in Hk.
    apply bind_Ok_inv in Hk as (x & _ & Hk). apply bind_Ok_inv in Hk as (y & _ & Hk).
    inversion Hk. lia.
  - now apply write_range_sampling.
Qed.




(** C2, at the range [2001:db8::/126] and the rate [0.5]: [k] is [2], below
    the [4] addresses of the range, and the sampling branch writes no
    address at all, whatever the sample: [IPv4Address] refuses the first
    one.  The dense branch writes the four addresses of the same range. *)
Theorem sampling_refuses_an_ipv6_range :
  let w := Examples.world_of Examples.zones in
  let self := Examples.converter "zones" ["txt"%string] Examples.half None in
  let dense := Examples.converter "zones" ["txt"%string] PyFloat.one None in
  let r := Examples.range_of "2001:db8::/126" in
  PyFloat.ltb PyFloat.zero (Converter.sample_rate self) = true
  /\ PyFloat.ltb (Converter.sample_rate self) PyFloat.one = true
  /\ Range.total_ips r = 4
  /\ sample_size (Range.total_ips r) (Converter.sample_rate self) = Ok 2
  /\ write_range Examples.lowest self "v6" 0 r = ([], Some AddressValueError)
  /\ write_range Examples.highest self "v6" 0 r = ([], Some AddressValueError)
  /\ save_ranges_txt w Examples.lowest self "v6" [r]
     = [Log WARNING (CouldNotExpandCIDR "2001:db8::/126" "v6");
        Wrote (Path "out/v6_ranges.txt") (Text []);
        Log DEBUG (SavedTXT "v6_ranges.txt")]
  /\ List.length (fst (write_range Examples.lowest dense "v6" 0 r)) = 4%nat.
Proof.
  cbv zeta. repeat split; vm_compute; reflexivity.
Qed.

(** On a version 4 range the sampling branch writes [k] distinct addresses
    of the range in strictly ascending order. *)
Lemma sampling_of_ipv4_ranges (rng : sampler) (self parser : Converter.t)
    (text base_name : string) (call : nat) (tr : list event) (r : Range.t) (k : Z) :
  fair rng ->
  PyFloat.ltb PyFloat.zero (Converter.sample_rate self) = true ->
  PyFloat.leb PyFloat.one (Converter.sample_rate self) = false ->
  cidr_to_ip_range parser text = (tr, Ok (Some r)) ->
  sample_size (Range.total_ips r) (Converter.sample_rate self) = Ok k ->
  k < Range.total_ips r ->
  exists network broadcast,
    ip_network (Range.cidr r) false = Ok network
    /\ broadcast_address network = Ok broadcast
    /\ (net_version network = V4 ->
        exists addresses,
          write_range rng self base_name call r = (map (line_of V4) addresses, None)
          /\ Z.of_nat (List.length addresses) = k
          /\ StronglySorted Z.lt addresses
          /\ NoDup addresses
          /\ Forall (fun x => int_of (network_address network) <= x <= int_of broadcast)
               addresses).
Proof.
  intros Hfair R0 R1 Hr Hk Hlt.
  destruct (sampling_branch _ _ _ _ base_name call _ _ _ Hfair R0 R1 Hr Hk Hlt)
    as (n & En & W & Ht & Hs & Ew).
  pose proof (wf_network_arith n W) as (_ & Hb & _ & H0 & H1 & _). cbv zeta in *.
  exists n. eexists. split; [exact En|]. split; [exact Hb|].
  intros V. rewrite V in *.
  destruct (sorted_sample _ _ _ Hs) as (Hlen & Hsorted & Hrange).
  destruct (ones_bounds (max_prefixlen V4 - prefixlen n)) as [_ Ho];
    [destruct W as (Hp & _); rewrite V in Hp; lia|].
  set (indices := sorted (rng base_name call (Range.total_ips r) k)) in *.
  assert (Hfit : forall idx, In idx indices -> fits (int_of (network_address n)) idx = true).
  { intros idx Hin. rewrite Forall_forall in Hrange. specialize (Hrange idx Hin).
    unfold fits, int_of. apply Z.leb_le. lia. }
  destruct (filter_all _ _ Hfit) as [Ef Ea].
  exists (map (fun idx => int_of (network_address n) + idx) indices).
  split; [|split; [|split; [|split]]].
  - rewrite Ew, write_indices_spec.
    + rewrite Ef, Ea, map_map. reflexivity.
    + exact H0.
    + eapply Forall_impl; [|exact Hrange]. simpl. intros; lia.
    + apply sorted_ascending.
  - now rewrite length_map.
  - clear -Hsorted. induction Hsorted as [|a l S IH F]; simpl; constructor; [exact IH|].
    rewrite Forall_forall in *. intros y Hy. apply in_map_iff in Hy as (x & <- & Hx).
    specialize (F x Hx). lia.
  - apply NoDup_of_strictly_ascending.
    clear -Hsorted. induction Hsorted as [|a l S IH F]; simpl; constructor; [exact IH|].
    rewrite Forall_forall in *. intros y Hy. apply in_map_iff in Hy as (x & <- & Hx).
    specialize (F x Hx). lia.
  - rewrite Forall_forall in *. intros y Hy. apply in_map_iff in Hy as (x & <- & Hx).
    specialize (Hrange x Hx). unfold int_of. cbn [ip]. lia.
Qed.

(** Two runs on the same range at the same rate may write different
    addresses. *)
Lemma two_runs_may_differ :
  let self := Examples.converter "zones" ["txt"%string] Examples.half None in
  let r := Examples.range_of "10.0.0.0/29" in
  write_range Examples.lowest self "cn" 0 r
  = (map (line_of V4) [167772160; 167772161; 167772162; 167772163], None)
  /\ write_range Examples.highest self "cn" 0 r
     = (map (line_of V4) [167772164; 167772165; 167772166; 167772167], None).
Proof. cbv zeta. split; vm_compute; reflexivity. Qed.

(* ================================================================= *)
(** ** Discovery of the input files *)

(** C8 (amended).  When the output directory can be made: an input path
    that is a file is the only file processed; an input path that is a
    directory yields its entries whose name ends in [.zone], each as a
    child of the directory, whatever their kind; a path that is neither
    makes the call log an error and return the dictionary with zero files
    and no ["failed_files"] key, the converter unchanged and nothing
    written, which is also what a directory without such entries
    returns. *)
Theorem input_discovery (w : world) (rng : sampler) (sched : schedule)
    (self : Converter.t) :
  mkdir_fails w (Converter.output_dir self) = false ->
  let input_path := Converter.input_path self in
  let outcome := convert_all w rng sched self in
  (is_file w input_path = true ->
   exists found,
     discover w self = Some ([input_path], found)
     /\ exists stats, snd outcome = Ok stats /\ Stats.total_files stats = 1)
  /\ (is_file w input_path = false -> is_dir w input_path = true ->
      exists names found,
        stat w input_path = Some (Directory names)
        /\ discover w self
           = Some (map (make_child_relpath input_path)
                     (filter (Str.endswith ".zone") names), found)
        /\ (forall q,
              In q (glob_zone w input_path)
              <-> exists name,
                    In name names /\ Str.endswith ".zone" name = true
                    /\ q = make_child_relpath input_path name)
        /\ exists stats,
             snd outcome = Ok stats
             /\ Stats.total_files stats
                = Z.of_nat (List.length (filter (Str.endswith ".zone") names))
        /\ (filter (Str.endswith ".zone") names = [] -> snd outcome = Ok no_files))
  /\ (is_file w input_path = false -> is_dir w input_path = false ->
      discover w self = None
      /\ snd outcome = Ok no_files
      /\ snd (fst outcome) = self
      /\ written_paths (fst (fst outcome)) = []
      /\ In (Log ERROR (InputPathNotFound input_path)) (fst (fst outcome))).
Proof.
  intros Hmk. cbv zeta. unfold convert_all, ensure_directory. rewrite Hmk.
  split; [|split].
  - intros Hf. unfold discover. rewrite Hf. eexists. split; [reflexivity|].
    destruct (drain w rng [Converter.input_path self] (delivered self sched)
                (reset_statistics self)) as [self1 tr1].
    simpl. eexists. split; reflexivity.
  - intros Hf Hd. unfold discover. rewrite Hf, Hd.
    unfold is_dir in Hd. unfold glob_zone.
    destruct (stat w (Converter.input_path self)) as [[c|names]|] eqn:Es;
      try discriminate.
    exists names. eexists. split; [reflexivity|]. split; [reflexivity|]. split.
    { intros q. rewrite in_map_iff. split.
      - intros (name & <- & Hin). apply filter_In in Hin as [Hin Hz]. eauto.
      - intros (name & Hin & Hz & ->). exists name. split; [reflexivity|].
        apply filter_In. now split. }
    destruct (map (make_child_relpath (Converter.input_path self))
                (filter (Str.endswith ".zone") names)) as [|zf zfs] eqn:Em.
    + simpl. eexists. split; [reflexivity|].
      apply map_eq_nil in Em. rewrite Em. split; reflexivity.
    + assert (Hlen : List.length (zf :: zfs)
                     = List.length (filter (Str.endswith ".zone") names))
        by (rewrite <- Em; apply length_map).
      destruct (drain w rng (zf :: zfs) (delivered self sched) (reset_statistics self))
        as [self1 tr1]. simpl snd. eexists. split; [reflexivity|]. split.
      * cbn [Stats.total_files]. rewrite <- Hlen. reflexivity.
      * intros En. rewrite En in Em. discriminate.
  - intros Hf Hd. unfold discover. rewrite Hf, Hd. simpl.
    split; [reflexivity|]. split; [reflexivity|]. split; [reflexivity|].
    destruct (PyFloat.ltb (Converter.sample_rate self) PyFloat.one); simpl.
    + split; [reflexivity|]. right. right. now left.
    + split; [reflexivity|]. right. now left.
Qed.

Lemma input_discovery_witness :
  let w := Examples.world_of Examples.zones in
  let self := Examples.converter "zones" ["txt"%string] PyFloat.one None in
  mkdir_fails w (Converter.output_dir self) = false
  /\ glob_zone w (Converter.input_path self)
     = [Path "zones/empty.zone"; Path "zones/cn.zone"; Path "zones/old.zone"]
  /\ exists stats,
       snd (convert_all w Examples.lowest (Examples.in_order 3) self) = Ok stats
       /\ Stats.total_files stats = 3.
Proof.
  cbv zeta. split; [reflexivity|]. split; [vm_compute; reflexivity|].
  destruct (input_discovery (Examples.world_of Examples.zones) Examples.lowest
              (Examples.in_order 3)
              (Examples.converter "zones" ["txt"%string] PyFloat.one None) eq_refl)
    as (_ & D & _).
  destruct D as (names & found & Es & _ & _ & stats & E & Et & _);
    [vm_compute; reflexivity | vm_compute; reflexivity |].
  exists stats. split; [exact E|]. rewrite Et.
  vm_compute in Es. inversion Es. subst names. vm_compute. reflexivity.
Defined.

(** C8 as stated fails at a path that does not exist: the call returns what
    it returns for an existing directory without zone files, so that its
    caller is told of no error. *)
Lemma a_missing_input_path_is_not_signalled :
  ~ (forall (w : world) (rng : sampler) (sched : schedule) (self : Converter.t),
        is_file w (Converter.input_path self) = false ->
        is_dir w (Converter.input_path self) = false ->
        (exists e, snd (convert_all w rng sched self) = Raise e)
        \/ (forall w' rng' sched' self',
              is_dir w' (Converter.input_path self') = true ->
              snd (convert_all w' rng' sched' self')
              <> snd (convert_all w rng sched self))).
Proof.
  intros H.
  destruct (H (Examples.world_of Examples.zones) Examples.lowest (Examples.in_order 0)
              (Examples.converter "missing" ["txt"%string] PyFloat.one None)
              eq_refl eq_refl) as [(e & E) | D].
  - vm_compute in E. discriminate E.
  - apply (D (Examples.world_of Examples.zones) Examples.lowest (Examples.in_order 0)
             (Examples.converter "nothing" ["txt"%string] PyFloat.one None)).
    + vm_compute. reflexivity.
    + vm_compute. reflexivity.
Qed.

(* ================================================================= *)
(** ** The explicit output file name *)

(** ** Where the files of a conversion are written *)

Lemma written_paths_app a b : written_paths (a ++ b) = written_paths a ++ written_paths b.
Proof. unfold written_paths. apply flat_map_app. Qed.

Lemma written_paths_logs tr :
  Forall (fun e => is_write e = false) tr -> written_paths tr = [].
Proof.
  induction 1 as [|e tr He _ IH]; [reflexivity|].
  destruct e; [|discriminate]. exact IH.
Qed.

Lemma process_lines_logs self name lines : forall k acc,
  Forall (fun e => is_write e = false) (fst (fst (process_lines self name k lines acc))).
Proof.
  intros k acc. destruct (process_lines_spec self name lines k acc) as (tr & E & F).
  rewrite E. simpl. eapply Forall_impl; [|exact F].
  intros e (k' & line & ->). reflexivity.
Qed.

Lemma process_zone_file_writes_nothing w self p :
  written_paths (fst (process_zone_file w self p)) = [].
Proof.
  apply written_paths_logs. unfold process_zone_file.
  destruct (read_lines w p) as [lines|lines];
    pose proof (process_lines_logs self (path_name p) lines 1 []) as F;
    destruct (process_lines self (path_name p) 1 lines []) as [[tr rs] e]; simpl in *.
  - destruct e; simpl; [|exact F].
    apply Forall_app. split; [exact F | repeat constructor].
  - apply Forall_app. split; [exact F | repeat constructor].
Qed.

Lemma write_ranges_logs rng self base_name ip_ranges : forall call,
  Forall (fun e => is_write e = false)
    (snd (fst (write_ranges rng self base_name call ip_ranges))).
Proof.
  induction ip_ranges as [|r rest IH]; intros call; simpl; [constructor|].
  specialize (IH (S call)).
  destruct (write_range rng self base_name call r) as [ls [ex|]].
  - destruct (is_ValueError ex); [|constructor].
    destruct (write_ranges rng self base_name (S call) rest) as [[ls' tr] e].
    simpl in *. constructor; [reflexivity | exact IH].
  - destruct (write_ranges rng self base_name (S call) rest) as [[ls' tr] e].
    exact IH.
Qed.

Lemma save_ranges_json_paths w self base_name ip_ranges :
  Forall (fun p => p = output_file_for self base_name "json")
    (written_paths (save_ranges_json w self base_name ip_ranges)).
Proof.
  unfold save_ranges_json. destruct (open_for_writing_fails w _); simpl; repeat constructor.
Qed.

Lemma save_ranges_csv_paths w self base_name ip_ranges :
  Forall (fun p => p = output_file_for self base_name "csv")
    (written_paths (save_ranges_csv w self base_name ip_ranges)).
Proof.
  unfold save_ranges_csv. destruct (open_for_writing_fails w _); simpl; repeat constructor.
Qed.

Lemma save_ranges_txt_paths w rng self base_name ip_ranges :
  Forall (fun p => p = output_file_for self base_name "txt")
    (written_paths (save_ranges_txt w rng self base_name ip_ranges)).
Proof.
  unfold save_ranges_txt. destruct (open_for_writing_fails w _); [constructor|].
  pose proof (write_ranges_logs rng self base_name ip_ranges 0) as F.
  destruct (write_ranges rng self base_name 0 ip_ranges) as [[ls tr] e]. simpl in F.
  rewrite !written_paths_app, (written_paths_logs _ F). simpl.
  destruct e; simpl; repeat constructor.
Qed.

Lemma convert_file_paths w rng self zone_file :
  Forall (fun p => exists ext,
            In ext ["json"; "csv"; "txt"]%string
            /\ p = output_file_for self (stem zone_file) ext)
    (written_paths (fst (convert_file w rng self zone_file))).
Proof.
  unfold convert_file.
  pose proof (process_zone_file_writes_nothing w self zone_file) as P.
  destruct (process_zone_file w self zone_file) as [tr [|r rs]]; cbn [fst] in *.
  - change (Log INFO (Processing (Str.upper (stem zone_file))) :: tr)
      with ([Log INFO (Processing (Str.upper (stem zone_file)))] ++ tr).
    rewrite !written_paths_app, P. constructor.
  - change (Log INFO (Processing (Str.upper (stem zone_file))) :: tr)
      with ([Log INFO (Processing (Str.upper (stem zone_file)))] ++ tr).
    rewrite !written_paths_app, P.
    change (written_paths [Log INFO (Processing (Str.upper (stem zone_file)))])
      with (@nil path).
    cbn [app].
    apply Forall_app; split; [|apply Forall_app; split; [|apply Forall_app; split]].
    + destruct (str_in "json" _); [|constructor].
      eapply Forall_impl; [|apply save_ranges_json_paths].
      intros p ->. exists "json"%string. split; [now left | reflexivity].
    + destruct (str_in "csv" _); [|constructor].
      eapply Forall_impl; [|apply save_ranges_csv_paths].
      intros p ->. exists "csv"%string. split; [right; now left | reflexivity].
    + destruct (str_in "txt" _); [|constructor].
      eapply Forall_impl; [|apply save_ranges_txt_paths].
      intros p ->. exists "txt"%string. split; [right; right; now left | reflexivity].
    + constructor.
Qed.

(** C7 (amended).  With an explicit output file name set: when exactly one
    format is listed every save function writes to that name in the output
    directory; otherwise each writes to [<base_name>_ranges.<ext>].  The
    command refuses the name up front only together with an input
    directory; in every other case, several formats included, the
    conversion is run. *)
Theorem explicit_output_name_rule (w : world) (rng : sampler) (self : Converter.t)
    (zone_file : path) (name : string) :
  Converter.output_file_name self = Some name ->
  Str.truthy name = true ->
  let formats := Z.of_nat (List.length (Converter.output_formats self)) in
  let base_name := stem zone_file in
  let written := written_paths (fst (convert_file w rng self zone_file)) in
  (formats = 1 ->
   (forall ext, output_file_for self base_name ext
                = path_join (Converter.output_dir self) name)
   /\ Forall (fun p => p = path_join (Converter.output_dir self) name) written)
  /\ (formats <> 1 ->
      (forall ext, output_file_for self base_name ext
                   = default_output_file self base_name ext)
      /\ Forall (fun p => In p [default_output_file self base_name "json";
                                default_output_file self base_name "csv";
                                default_output_file self base_name "txt"]) written)
  /\ (forall sched config args,
        arg_output_file args = Some name ->
        let input_is_dir :=
          opt_truthy (arg_input args)
          && is_dir w (Path (get (arg_input args) EmptyString)) in
        (input_is_dir = true ->
         main_convert w rng sched config args
         = (banner ++ [Log ERROR OutputFileNeedsSingleFile], 1))
        /\ (input_is_dir = false ->
            exists rest,
              fst (main_convert w rng sched config args)
              = banner
                  ++ fst (fst (convert_cidr_ranges w rng sched (arg_input args)
                                 (arg_output args) (arg_format args)
                                 (arg_sample_rate args) (arg_threads args)
                                 (arg_timeout args) (arg_output_file args)
                                 (Some config)))
                  ++ rest)).
Proof.
  intros Hname Htruthy. cbv zeta.
  assert (Hone : Z.of_nat (List.length (Converter.output_formats self)) = 1 ->
                 forall ext, output_file_for self (stem zone_file) ext
                             = path_join (Converter.output_dir self) name).
  { intros H ext. unfold output_file_for. rewrite Hname. simpl opt_truthy.
    rewrite Htruthy, H. reflexivity. }
  assert (Hmany : Z.of_nat (List.length (Converter.output_formats self)) <> 1 ->
                  forall ext, output_file_for self (stem zone_file) ext
                              = default_output_file self (stem zone_file) ext).
  { intros H ext. unfold output_file_for.
    destruct (Z.eqb_spec (Z.of_nat (List.length (Converter.output_formats self))) 1);
      [contradiction|].
    rewrite andb_false_r. reflexivity. }
  pose proof (convert_file_paths w rng self zone_file) as P.
  split; [|split].
  - intros H. split; [now apply Hone|].
    eapply Forall_impl; [|exact P]. intros p (ext & _ & ->). now apply Hone.
  - intros H. split; [now apply Hmany|].
    eapply Forall_impl; [|exact P]. intros p (ext & Hin & ->).
    rewrite (Hmany H). simpl in Hin. simpl.
    destruct Hin as [<- | [<- | [<- | []]]]; auto.
  - intros sched config args Hargs. cbv zeta. unfold main_convert. fold banner.
    rewrite Hargs. simpl opt_truthy. rewrite Htruthy. simpl andb. split.
    + intros ->. reflexivity.
    + intros ->.
      destruct (convert_cidr_ranges w rng sched (arg_input args) (arg_output args)
                  (arg_format args) (arg_sample_rate args) (arg_threads args)
                  (arg_timeout args) (Some name) (Some config)) as [[tr c] [stats|e]].
      * destruct (Stats.processed_files stats =? 0); cbn [fst snd].
        -- eexists. reflexivity.
        -- exists []. now rewrite app_nil_r.
      * cbn [is_Exception fst snd]. eexists. reflexivity.
Qed.

Lemma explicit_output_name_rule_witness :
  let w := Examples.world_of Examples.zones in
  let self := Examples.converter "zones/cn.zone" ["json"%string] PyFloat.one
                (Some "res.json"%string) in
  Converter.output_file_name self = Some "res.json"%string
  /\ Str.truthy "res.json" = true
  /\ Z.of_nat (List.length (Converter.output_formats self)) = 1
  /\ Forall (fun p => p = Path "out/res.json")
       (written_paths (fst (convert_file w Examples.lowest self (Path "zones/cn.zone")))).
Proof.
  cbv zeta. split; [reflexivity|]. split; [reflexivity|]. split; [reflexivity|].
  destruct (explicit_output_name_rule (Examples.world_of Examples.zones) Examples.lowest
              (Examples.converter "zones/cn.zone" ["json"%string] PyFloat.one
                 (Some "res.json"%string))
              (Path "zones/cn.zone") "res.json" eq_refl eq_refl) as [H _].
  destruct (H eq_refl) as [_ F]. exact F.
Defined.

(** C7 as stated fails at an explicit file name given with two formats and
    a single input file: nothing is refused, the run ends with status 0 and
    has written one file per format under its default name. *)
Lemma two_formats_with_an_output_name_are_not_refused :
  ~ (forall (w : world) (rng : sampler) (sched : schedule) (config : converter_config)
            (args : convert_args) (name : string) (formats : list string),
        arg_output_file args = Some name ->
        Str.truthy name = true ->
        arg_format args = Some formats ->
        str_in "all" formats = false ->
        1 < Z.of_nat (List.length formats) ->
        snd (main_convert w rng sched config args) = 1
        /\ written_paths (fst (main_convert w rng sched config args)) = []).
Proof.
  intros H.
  destruct (H (Examples.world_of Examples.zones) Examples.lowest (Examples.in_order 1)
              get_default_config
              (mk_args (Some "zones/cn.zone"%string) (Some "out"%string)
                 (Some "res.json"%string) (Some ["json"; "csv"]%string) None 1 None)
              "res.json"%string ["json"; "csv"]%string
              eq_refl eq_refl eq_refl eq_refl) as [E _].
  - reflexivity.
  - vm_compute in E. discriminate E.
Qed.

Lemma two_formats_with_an_output_name_run :
  let outcome :=
    main_convert (Examples.world_of Examples.zones) Examples.lowest (Examples.in_order 1)
      get_default_config
      (mk_args (Some "zones/cn.zone"%string) (Some "out"%string)
         (Some "res.json"%string) (Some ["json"; "csv"]%string) None 1 None) in
  snd outcome = 0
  /\ written_paths (fst outcome) = [Path "out/cn_ranges.json"; Path "out/cn_ranges.csv"].
Proof. cbv zeta. split; vm_compute; reflexivity. Qed.

(* ================================================================= *)
(** ** Files without a valid range *)

(** ** Counting over the completed futures *)

Lemma process_zone_file_ranges w self p :
  snd (process_zone_file w self p)
  = flat_map kept (match read_lines w p with ReadAll l | ReadFails l => l end).
Proof.
  unfold process_zone_file.
  destruct (read_lines w p) as [lines|lines];
    destruct (process_lines_spec self (path_name p) lines 1 []) as (tr & E & _);
    rewrite E; reflexivity.
Qed.

Lemma yields_no_range_any_converter w self self' zf :
  yields_no_range w self zf = yields_no_range w self' zf.
Proof. unfold yields_no_range. now rewrite !process_zone_file_ranges. Qed.

Lemma convert_file_outcome w rng self zf :
  snd (convert_file w rng self zf)
  = Ok (match snd (process_zone_file w self zf) with
        | [] => None
        | r :: rs =>
            Some (FileStats.mk (Z.of_nat (List.length (r :: rs))) (sum_total_ips (r :: rs)))
        end).
Proof.
  unfold convert_file.
  destruct (process_zone_file w self zf) as [tr [|r rs]]; reflexivity.
Qed.

Lemma convert_file_on_no_range w rng self zf :
  yields_no_range w self zf = true ->
  snd (convert_file w rng self zf) = Ok None
  /\ In (Log WARNING (NoValidRangesFound (Str.upper (stem zf))))
       (fst (convert_file w rng self zf)).
Proof.
  unfold yields_no_range, convert_file.
  destruct (process_zone_file w self zf) as [tr [|r rs]]; [|discriminate].
  intros _. cbn [fst snd]. split; [reflexivity|].
  apply in_or_app. right. now left.
Qed.

Lemma count_cons {A} (f : A -> bool) a l :
  count f (a :: l) = (if f a then 1 else 0) + count f l.
Proof. unfold count. cbn [filter]. destruct (f a); cbn [List.length]; lia. Qed.

Lemma count_app {A} (f : A -> bool) l l' : count f (l ++ l') = count f l + count f l'.
Proof. unfold count. rewrite filter_app, length_app. lia. Qed.

Lemma count_permutation {A} (f : A -> bool) l l' :
  Permutation l l' -> count f l = count f l'.
Proof.
  induction 1 as [|x l l' _ IH|x y l|l l' l'' _ IH1 _ IH2].
  - reflexivity.
  - rewrite !count_cons. lia.
  - rewrite !count_cons. lia.
  - congruence.
Qed.

Lemma count_complement {A} (f : A -> bool) l :
  count (fun x => negb (f x)) l = Z.of_nat (List.length l) - count f l.
Proof.
  induction l as [|a l IH]; [reflexivity|].
  rewrite !count_cons, IH. cbn [List.length]. destruct (f a); simpl negb; lia.
Qed.

Lemma count_one {A} (f : A -> bool) a : count f [a] = if f a then 1 else 0.
Proof. rewrite count_cons. unfold count. cbn. lia. Qed.

Lemma drain_counters w rng zone_files reference futures : forall self,
  let self' := fst (drain w rng zone_files futures self) in
  Converter.failed_files self'
  = Converter.failed_files self
    + count (yields_no_range w reference) (files_of zone_files futures)
  /\ Converter.processed_files self'
     = Converter.processed_files self
       + count (fun zf => negb (yields_no_range w reference zf))
           (files_of zone_files futures).
Proof.
  induction futures as [|i rest IH]; intros self; cbv zeta.
  - unfold count. cbn. lia.
  - cbn [drain files_of flat_map]. fold (files_of zone_files rest).
    destruct (nth_error zone_files i) as [zf|]; [|apply IH].
    rewrite !count_app, !count_one.
    set (c1 := count (yields_no_range w reference) (files_of zone_files rest)) in *.
    set (c2 := count (fun zf => negb (yields_no_range w reference zf))
                 (files_of zone_files rest)) in *.
    rewrite (yields_no_range_any_converter w reference self zf).
    pose proof (convert_file_outcome w rng self zf) as O.
    destruct (convert_file w rng self zf) as [tr o]. cbn [snd] in O. subst o.
    unfold yields_no_range.
    destruct (snd (process_zone_file w self zf)) as [|r rs]; cbn [aggregate negb].
    + specialize (IH (add_failed self)). cbv zeta in IH.
      destruct (drain w rng zone_files rest (add_failed self)) as [self2 tr2].
      cbn [fst] in *. destruct IH as [-> ->].
      cbn [add_failed Converter.failed_files Converter.processed_files]. lia.
    + specialize (IH (add_processed self
                        (FileStats.mk (Z.of_nat (List.length (r :: rs)))
                           (sum_total_ips (r :: rs))))).
      cbv zeta in IH.
      destruct (drain w rng zone_files rest _) as [self2 tr2].
      cbn [fst] in *. destruct IH as [-> ->].
      cbn [add_processed Converter.failed_files Converter.processed_files]. lia.
Qed.

Lemma files_of_all zone_files :
  files_of zone_files (seq 0 (List.length zone_files)) = zone_files.
Proof.
  unfold files_of. induction zone_files as [|zf zfs IH]; [reflexivity|].
  cbn [List.length seq flat_map nth_error app]. f_equal.
  rewrite <- seq_shift, flat_map_concat_map, map_map, <- flat_map_concat_map.
  exact IH.
Qed.

Lemma files_of_permutation zone_files futures :
  Permutation futures (seq 0 (List.length zone_files)) ->
  Permutation (files_of zone_files futures) zone_files.
Proof.
  intros P. rewrite <- (files_of_all zone_files) at 2.
  unfold files_of. now apply Permutation_flat_map.
Qed.

(** C1 (amended).  A file in which no valid range is found makes
    [convert_file] log a warning and return [None], and the aggregation
    counts [None] as a failure: [failed_files] grows by one and
    [processed_files] stays.  After a run in which every future was
    delivered, [failed_files] is the number of such files among those
    discovered and [processed_files] the number of the others. *)
Theorem empty_files_count_as_failed (w : world) (rng : sampler) (sched : schedule)
    (self : Converter.t) (zone_files : list path) (found : event) (stats : Stats.t) :
  discover w self = Some (zone_files, found) ->
  zone_files <> [] ->
  Permutation (completion_order sched) (seq 0 (List.length zone_files)) ->
  timed_out self sched = false ->
  snd (convert_all w rng sched self) = Ok stats ->
  (forall zf,
     yields_no_range w self zf = true ->
     snd (convert_file w rng self zf) = Ok None
     /\ In (Log WARNING (NoValidRangesFound (Str.upper (stem zf))))
          (fst (convert_file w rng self zf))
     /\ forall s,
          aggregate s zf (Ok None) = (add_failed s, [])
          /\ Converter.failed_files (add_failed s) = Converter.failed_files s + 1
          /\ Converter.processed_files (add_failed s) = Converter.processed_files s)
  /\ Stats.failed_files stats = Some (count (yields_no_range w self) zone_files)
  /\ Stats.processed_files stats
     = Z.of_nat (List.length zone_files) - count (yields_no_range w self) zone_files
  /\ Stats.total_files stats = Z.of_nat (List.length zone_files).
Proof.
  intros Hd Hne Hperm Hto Hrun. split.
  { intros zf Hzf. destruct (convert_file_on_no_range w rng self zf Hzf) as [E I].
    split; [exact E|]. split; [exact I|]. intros s. repeat split. }
  unfold convert_all in Hrun.
  destruct (ensure_directory w (Converter.output_dir self)); [|discriminate].
  rewrite Hd in Hrun.
  destruct zone_files as [|zf zfs]; [contradiction|].
  assert (Hdel : delivered self sched = completion_order sched).
  { unfold delivered. unfold timed_out in Hto.
    destruct (Converter.timeout self), (timed_out_after sched);
      try reflexivity; discriminate. }
  rewrite Hdel in Hrun.
  pose proof (drain_counters w rng (zf :: zfs) self (completion_order sched)
                (reset_statistics self)) as C. cbv zeta in C.
  destruct (drain w rng (zf :: zfs) (completion_order sched) (reset_statistics self))
    as [self1 tr1]. cbn [fst snd] in *.
  destruct C as [Cf Cp].
  pose proof (files_of_permutation (zf :: zfs) _ Hperm) as P.
  rewrite (count_permutation _ _ _ P) in Cf.
  rewrite (count_permutation _ _ _ P), count_complement in Cp.
  cbn [reset_statistics Converter.failed_files Converter.processed_files] in Cf, Cp.
  inversion Hrun. subst stats. cbn [Stats.failed_files Stats.processed_files Stats.total_files].
  rewrite Cf, Cp. repeat split; f_equal; lia.
Qed.

Lemma empty_files_count_as_failed_witness :
  let w := Examples.world_of Examples.zones in
  let self := Examples.converter "zones" ["txt"%string] PyFloat.one None in
  let outcome := convert_all w Examples.lowest (Examples.in_order 3) self in
  yields_no_range w self (Path "zones/empty.zone") = true
  /\ exists stats,
       snd outcome = Ok stats
       /\ Stats.failed_files stats = Some 2
       /\ Stats.processed_files stats = 1.
Proof.
  cbv zeta. split; [vm_compute; reflexivity|].
  eexists. split; [vm_compute; reflexivity|].
  destruct (empty_files_count_as_failed (Examples.world_of Examples.zones)
              Examples.lowest (Examples.in_order 3)
              (Examples.converter "zones" ["txt"%string] PyFloat.one None)
              [Path "zones/empty.zone"; Path "zones/cn.zone"; Path "zones/old.zone"]
              (Log INFO (FoundZoneFiles 3 (Path "zones")))
              (Stats.mk 3 1 (Some 2) 2 6))
    as (_ & Ef & Ep & _).
  - vm_compute. reflexivity.
  - discriminate.
  - apply Permutation_refl.
  - reflexivity.
  - vm_compute. reflexivity.
  - split; [exact (eq_trans Ef ltac:(vm_compute; reflexivity))
           | exact (eq_trans Ep ltac:(vm_compute; reflexivity))].
Defined.

(** C1 as stated fails at a run over the single file [zones/empty.zone],
    which holds a comment, a blank line and a malformed line: no range is
    found in it, and the run returns [failed_files = 1]. *)
Lemma an_empty_file_is_a_failed_file :
  ~ (forall (w : world) (rng : sampler) (sched : schedule) (self : Converter.t)
            (zf : path) (found : event) (stats : Stats.t),
        discover w self = Some ([zf], found) ->
        yields_no_range w self zf = true ->
        completion_order sched = [0%nat] ->
        snd (convert_all w rng sched self) = Ok stats ->
        Stats.processed_files stats = 0 /\ Stats.failed_files stats = Some 0).
Proof.
  intros H.
  destruct (H (Examples.world_of Examples.zones) Examples.lowest (Examples.in_order 1)
              (Examples.converter "zones/empty.zone" ["txt"%string] PyFloat.one None)
              (Path "zones/empty.zone")
              (Log INFO (ProcessingSingleFile "empty.zone"))
              (Stats.mk 1 0 (Some 1) 0 0)) as [_ E].
  - vm_compute. reflexivity.
  - vm_compute. reflexivity.
  - reflexivity.
  - vm_compute. reflexivity.
  - discriminate E.
Qed.

(* ================================================================= *)
(** ** The records of a zone file and its log *)

Lemma process_lines_trace self name lines : forall k acc,
  process_lines self name k lines acc
  = (skipped_records name k lines, acc ++ flat_map kept lines, None).
Proof.
  induction lines as [|line rest IH]; intros k acc.
  - cbn. now rewrite app_nil_r.
  - cbn [process_lines skipped_records flat_map]. unfold kept at 1, refused. cbv zeta.
    destruct (Str.is_empty (Str.strip line) || Str.startswith "#" (Str.strip line)).
    + rewrite IH. reflexivity.
    + rewrite cidr_to_ip_range_spec.
      destruct (ip_network (Str.strip (Str.strip line)) false) as [n|e].
      * rewrite IH. cbn. now rewrite <- app_assoc.
      * rewrite IH. reflexivity.
Qed.

Lemma skipped_records_In name lines : forall first k text,
  In (Log DEBUG (SkippingInvalidLine k name text)) (skipped_records name first lines)
  <-> exists line,
        first <= k
        /\ nth_error lines (Z.to_nat (k - first)) = Some line
        /\ refused line = true
        /\ text = Str.strip line.
Proof.
  induction lines as [|line rest IH]; intros first k text.
  - cbn. split; [tauto|]. intros (l & _ & H & _).
    destruct (Z.to_nat (k - first)); discriminate.
  - cbn [skipped_records]. rewrite in_app_iff, IH. split.
    + intros [H | (l & Hk & Hn & Hr & Ht)].
      * destruct (refused line) eqn:R; [|contradiction].
        destruct H as [H | []]. inversion H. subst k text.
        exists line. rewrite Z.sub_diag. cbn. repeat split; [lia | exact R].
      * exists l. split; [lia|]. split; [|now split].
        replace (Z.to_nat (k - first)) with (S (Z.to_nat (k - (first + 1)))) by lia.
        exact Hn.
    + intros (l & Hk & Hn & Hr & Ht).
      destruct (Z.eq_dec k first) as [->|Hne].
      * rewrite Z.sub_diag in Hn. cbn in Hn. inversion Hn. subst l.
        left. rewrite Hr. left. now subst text.
      * right. exists l. split; [lia|]. split; [|now split].
        replace (Z.to_nat (k - first)) with (S (Z.to_nat (k - (first + 1)))) in Hn by lia.
        exact Hn.
Qed.

Lemma skipped_records_length name lines : forall first,
  Z.of_nat (List.length (skipped_records name first lines)) = count refused lines.
Proof.
  induction lines as [|line rest IH]; intros first; [reflexivity|].
  cbn [skipped_records]. rewrite length_app, count_cons, Nat2Z.inj_add, IH.
  destruct (refused line); reflexivity.
Qed.

(** X1.  On a zone file read to its end, the log of [process_zone_file]
    holds exactly one DEBUG record for each line that is neither blank nor
    a comment and that the parser refuses, and nothing else: the record
    carries the stripped text and the number of the line in the file,
    counted from one over all the lines, blank lines and comments
    included. *)
Theorem skipped_lines_are_logged_with_their_number (w : world) (self : Converter.t)
    (p : path) (lines : list string) :
  read_lines w p = ReadAll lines ->
  let log := fst (process_zone_file w self p) in
  log = skipped_records (path_name p) 1 lines
  /\ (forall k text,
        In (Log DEBUG (SkippingInvalidLine k (path_name p) text)) log
        <-> exists line,
              1 <= k
              /\ nth_error lines (Z.to_nat (k - 1)) = Some line
              /\ refused line = true
              /\ text = Str.strip line)
  /\ Z.of_nat (List.length log) = count refused lines.
Proof.
  intros H. cbv zeta. unfold process_zone_file. rewrite H, process_lines_trace.
  cbn [fst]. split; [reflexivity|]. split.
  - intros k text. apply skipped_records_In.
  - apply skipped_records_length.
Qed.

Lemma skipped_lines_are_logged_with_their_number_witness :
  let w := Examples.world_of Examples.zones in
  let self := Examples.converter "zones" ["json"]%string PyFloat.one None in
  fst (process_zone_file w self (Path "zones/cn.zone"))
  = [Log DEBUG (SkippingInvalidLine 3 "cn.zone" "bogus")].
Proof.
  cbv zeta.
  destruct (skipped_lines_are_logged_with_their_number
              (Examples.world_of Examples.zones)
              (Examples.converter "zones" ["json"]%string PyFloat.one None)
              (Path "zones/cn.zone")
              ["10.0.0.5/30"; "# comment"; "bogus"; "192.168.1.0/31"]%string
              eq_refl) as (E & _).
  rewrite E. vm_compute. reflexivity.
Defined.



(** X3.  The records of a zone file follow the order of its lines, one
    record at most for a line and one for each occurrence of a repeated
    line: the records of two runs of lines put one after the other are
    those of the first run followed by those of the second, and there are
    as many records as there are lines that are neither blank, nor a
    comment, nor refused. *)
Theorem records_follow_the_lines (self : Converter.t) (first second : list string) :
  ranges_of_lines self (first ++ second)
  = ranges_of_lines self first ++ ranges_of_lines self second
  /\ Z.of_nat (List.length (ranges_of_lines self first))
     = count (fun line =>
                let text := Str.strip line in
                negb (Str.is_empty text || Str.startswith "#" text)
                && negb (refused line)) first.
Proof.
  rewrite !ranges_of_lines_spec. split; [apply flat_map_app|].
  induction first as [|line rest IH]; [reflexivity|].
  cbn [flat_map]. rewrite length_app, Nat2Z.inj_add, IH, count_cons.
  f_equal. unfold kept, refused. cbv zeta.
  destruct (Str.is_empty (Str.strip line) || Str.startswith "#" (Str.strip line));
    [reflexivity|].
  destruct (ip_network (Str.strip (Str.strip line)) false); reflexivity.
Qed.

(* ================================================================= *)
(** ** Stripping twice *)

Lemma rstrip_idempotent s : Str.rstrip (Str.rstrip s) = Str.rstrip s.
Proof.
  induction s as [|c s IH]; [reflexivity|].
  cbn [Str.rstrip]. cbv zeta.
  destruct (Str.isspace c && Str.is_empty (Str.rstrip s)) eqn:E; [reflexivity|].
  cbn [Str.rstrip]. cbv zeta. rewrite IH, E. reflexivity.
Qed.

Lemma lstrip_fixed s :
  match s with String c _ => Str.isspace c = false | EmptyString => True end ->
  Str.lstrip s = s.
Proof. destruct s as [|c s]; [reflexivity|]. cbn. now intros ->. Qed.

Lemma lstrip_head s :
  match Str.lstrip s with String c _ => Str.isspace c = false | EmptyString => True end.
Proof.
  induction s as [|c s IH]; [exact I|].
  cbn [Str.lstrip]. destruct (Str.isspace c) eqn:E; [exact IH | exact E].
Qed.

Lemma rstrip_head s :
  match s with String c _ => Str.isspace c = false | EmptyString => True end ->
  match Str.rstrip s with String c _ => Str.isspace c = false | EmptyString => True end.
Proof.
  destruct s as [|c s]; [trivial|]. intros H. cbn [Str.rstrip]. cbv zeta.
  rewrite H. exact H.
Qed.

Lemma strip_idempotent s : Str.strip (Str.strip s) = Str.strip s.
Proof.
  unfold Str.strip.
  rewrite (lstrip_fixed (Str.rstrip (Str.lstrip s))).
  - apply rstrip_idempotent.
  - apply rstrip_head, lstrip_head.
Qed.

(** X4.  The [cidr] field of a record is a text the parser accepts again,
    and parsing it gives the record back: [validate_cidr] holds of it and
    [cidr_to_ip_range], of whatever converter, returns the same record. *)
Theorem a_record_parses_to_itself (self parser : Converter.t) (text : string)
    (tr : list event) (r : Range.t) :
  cidr_to_ip_range parser text = (tr, Ok (Some r)) ->
  validate_cidr (Range.cidr r) = Ok true
  /\ cidr_to_ip_range self (Range.cidr r) = ([], Ok (Some r))
  /\ Str.strip (Range.cidr r) = Range.cidr r.
Proof.
  rewrite cidr_to_ip_range_spec. intros H.
  destruct (ip_network (Str.strip text) false) as [n|e] eqn:E; [|discriminate].
  inversion H. subst tr r. clear H. cbn [Range.cidr range_of_network].
  rewrite validate_cidr_spec, cidr_to_ip_range_spec, strip_idempotent, E.
  repeat split.
Qed.

Lemma a_record_parses_to_itself_witness :
  let self := Examples.converter "zones" ["csv"]%string Examples.half None in
  cidr_to_ip_range self "10.0.0.5/30"
  = ([], Ok (Some (Range.mk "10.0.0.5/30" "10.0.0.4" "10.0.0.7" 4))).
Proof.
  cbv zeta.
  assert (E : cidr_to_ip_range
                (Examples.converter "zones" ["txt"]%string PyFloat.one None)
                "  10.0.0.5/30  "
              = ([], Ok (Some (Range.mk "10.0.0.5/30" "10.0.0.4" "10.0.0.7" 4))))
    by (vm_compute; reflexivity).
  exact (proj1 (proj2 (a_record_parses_to_itself
                         (Examples.converter "zones" ["csv"]%string Examples.half None)
                         _ _ _ _ E))).
Defined.

(* ================================================================= *)
(** ** The parsers stay within the bounds of their class *)




















(* ================================================================= *)
(** ** Ranges as aligned blocks *)

Lemma blocks_nest_or_are_disjoint a1 a2 m1 m2 :
  0 <= m1 <= m2 -> a1 mod 2 ^ m1 = 0 -> a2 mod 2 ^ m2 = 0 ->
  a1 + 2 ^ m1 - 1 < a2 \/ a2 + 2 ^ m2 - 1 < a1
  \/ (a2 <= a1 /\ a1 + 2 ^ m1 - 1 <= a2 + 2 ^ m2 - 1).
Proof.
  intros Hm H1 H2.
  assert (P1 : 0 < 2 ^ m1) by (apply Z.pow_pos_nonneg; lia).
  assert (E : 2 ^ m2 = 2 ^ (m2 - m1) * 2 ^ m1)
    by (rewrite <- Z.pow_add_r by lia; f_equal; lia).
  assert (Pc : 0 < 2 ^ (m2 - m1)) by (apply Z.pow_pos_nonneg; lia).
  set (P := 2 ^ m1) in *. set (c := 2 ^ (m2 - m1)) in *.
  apply Z.mod_divide in H1; [|lia]. destruct H1 as [q1 ->].
  rewrite E in *. clear E.
  apply Z.mod_divide in H2; [|nia]. destruct H2 as [q2 ->].
  destruct (Z_lt_le_dec q1 (q2 * c)) as [L|L]; [left; nia|].
  destruct (Z_lt_le_dec q1 ((q2 + 1) * c)) as [L'|L']; [|right; left; nia].
  right. right. split; nia.
Qed.

Lemma network_block s strict n :
  ip_network s strict = Ok n ->
  let m := max_prefixlen (net_version n) - prefixlen n in
  0 <= m
  /\ ip (network_address n) mod 2 ^ m = 0
  /\ broadcast_address n
     = Ok (mk_address (net_version n) (ip (network_address n) + 2 ^ m - 1) None).
Proof.
  intros H. cbv zeta. pose proof (ip_network_wf _ _ _ H) as W.
  pose proof (wf_network_arith n W) as (_ & Hb & _ & _ & _ & Hl). cbv zeta in *.
  destruct W as (Hp & _).
  destruct (ones_bounds (max_prefixlen (net_version n) - prefixlen n)) as [_ O]; [lia|].
  split; [lia|]. split.
  - rewrite Z.land_ones in Hl by lia. exact Hl.
  - rewrite Hb. do 2 f_equal. lia.
Qed.

(** X6.  The range of a network is a block aligned to its size: its
    first address, read as an integer, is a multiple of the number of its
    addresses.  Hence two ranges never overlap in part: either they have no
    address in common, or one lies within the other. *)
Theorem ranges_nest_or_are_disjoint (text1 text2 : string) (strict1 strict2 : bool)
    (n1 n2 : network) (last1 last2 : address) :
  ip_network text1 strict1 = Ok n1 ->
  ip_network text2 strict2 = Ok n2 ->
  broadcast_address n1 = Ok last1 ->
  broadcast_address n2 = Ok last2 ->
  let first1 := int_of (network_address n1) in
  let first2 := int_of (network_address n2) in
  first1 mod (int_of last1 - first1 + 1) = 0
  /\ (int_of last1 < first2 \/ int_of last2 < first1
      \/ (first2 <= first1 /\ int_of last1 <= int_of last2)
      \/ (first1 <= first2 /\ int_of last2 <= int_of last1)).
Proof.
  intros H1 H2 B1 B2. cbv zeta. unfold int_of.
  destruct (network_block _ _ _ H1) as (M1 & A1 & E1).
  destruct (network_block _ _ _ H2) as (M2 & A2 & E2).
  rewrite E1 in B1. rewrite E2 in B2. inversion B1. inversion B2. subst. cbn [ip].
  set (m1 := max_prefixlen (net_version n1) - prefixlen n1) in *.
  set (m2 := max_prefixlen (net_version n2) - prefixlen n2) in *.
  set (a1 := ip (network_address n1)) in *. set (a2 := ip (network_address n2)) in *.
  split.
  - replace (a1 + 2 ^ m1 - 1 - a1 + 1) with (2 ^ m1) by lia. exact A1.
  - destruct (Z_le_gt_dec m1 m2) as [L|L].
    + destruct (blocks_nest_or_are_disjoint a1 a2 m1 m2) as [D|[D|D]]; try tauto; lia.
    + destruct (blocks_nest_or_are_disjoint a2 a1 m2 m1) as [D|[D|D]]; try tauto; lia.
Qed.

Lemma ranges_nest_or_are_disjoint_witness :
  167772160 mod (167772415 - 167772160 + 1) = 0
  /\ (167772415 < 167772164 \/ 167772167 < 167772160
      \/ (167772164 <= 167772160 /\ 167772415 <= 167772167)
      \/ (167772160 <= 167772164 /\ 167772167 <= 167772415)).
Proof.
  exact (ranges_nest_or_are_disjoint "10.0.0.0/24" "10.0.0.5/30" true false
           (mk_network (mk_address V4 167772160 None)
              (mk_address V4 4294967040 None) 24)
           (mk_network (mk_address V4 167772164 None)
              (mk_address V4 4294967292 None) 30)
           (mk_address V4 167772415 None) (mk_address V4 167772167 None)
           eq_refl eq_refl eq_refl eq_refl).
Defined.

(* ================================================================= *)
(** ** The dotted notation read back *)

Lemma octets_read_back b : 0 <= b < 256 -> octet_reads_back b = true.
Proof.
  intros H.
  assert (A : List.forallb octet_reads_back (py_range 0 256) = true)
    by (vm_compute; reflexivity).
  rewrite forallb_forall in A. apply A. apply py_range_In. lia.
Qed.

Lemma octet_facts b :
  0 <= b < 256 ->
  parse_octet (Str.of_int b) = Ok b
  /\ Str.is_empty (Str.of_int b) = false
  /\ Str.contains "." (Str.of_int b) = false
  /\ Str.contains "/" (Str.of_int b) = false
  /\ Str.forallb (fun c => negb (Str.isspace c)) (Str.of_int b) = true.
Proof.
  intros H. pose proof (octets_read_back b H) as R. unfold octet_reads_back in R.
  repeat (apply andb_true_iff in R as [R ?]).
  repeat split; try (now apply negb_true_iff); try assumption.
  destruct (parse_octet (Str.of_int b)) as [n|e]; [|discriminate].
  apply Z.eqb_eq in R. now subst.
Qed.

Lemma to_bytes4_big_spec n :
  0 <= n <= ALL_ONES V4 ->
  exists b3 b2 b1 b0,
    to_bytes4_big n = [b3; b2; b1; b0]
    /\ 0 <= b3 < 256 /\ 0 <= b2 < 256 /\ 0 <= b1 < 256 /\ 0 <= b0 < 256
    /\ from_bytes_big [b3; b2; b1; b0] = n.
Proof.
  change (ALL_ONES V4) with 4294967295. intros H.
  unfold to_bytes4_big. do 4 eexists. split; [reflexivity|].
  rewrite !Z.shiftr_div_pow2 by lia.
  change (2 ^ 24) with 16777216. change (2 ^ 16) with 65536. change (2 ^ 8) with 256.
  unfold from_bytes_big. cbn [fold_left].
  repeat split; try (apply Z.mod_pos_bound; lia).
  pose proof (Z.div_mod n 256 ltac:(lia)) as D0.
  pose proof (Z.div_mod (n / 256) 256 ltac:(lia)) as D1.
  pose proof (Z.div_mod (n / 256 / 256) 256 ltac:(lia)) as D2.
  rewrite Z.div_div in D1, D2 by lia. rewrite Z.div_div in D2 by lia.
  change (256 * 256) with 65536 in *. change (65536 * 256) with 16777216 in *.
  assert (S3 : (n / 16777216) mod 256 = n / 16777216).
  { apply Z.mod_small. split; [apply Z.div_pos; lia|].
    apply Z.div_lt_upper_bound; lia. }
  rewrite S3. lia.
Qed.

Lemma contains_app c a b :
  Str.contains c (a ++ b) = Str.contains c a || Str.contains c b.
Proof.
  induction a as [|x a IH]; [reflexivity|].
  cbn [append Str.contains]. now rewrite IH, orb_assoc.
Qed.

Lemma forallb_app p a b :
  Str.forallb p (a ++ b) = Str.forallb p a && Str.forallb p b.
Proof.
  induction a as [|x a IH]; [reflexivity|].
  cbn [append Str.forallb]. now rewrite IH, andb_assoc.
Qed.

Lemma split_app sep a b :
  Str.contains sep a = false ->
  Str.split sep (a ++ String sep b) = a :: Str.split sep b.
Proof.
  induction a as [|x a IH]; intros H.
  - cbn [append Str.split]. unfold Str.eqb_ascii. now rewrite Ascii.eqb_refl.
  - cbn [Str.contains] in H. apply orb_false_iff in H as [Hx Ha].
    cbn [append Str.split]. rewrite Hx, (IH Ha). reflexivity.
Qed.

Lemma rstrip_without_space s :
  Str.forallb (fun c => negb (Str.isspace c)) s = true -> Str.rstrip s = s.
Proof.
  induction s as [|c s IH]; [reflexivity|].
  cbn [Str.forallb Str.rstrip]. intros H. apply andb_true_iff in H as [Hc Hs].
  apply negb_true_iff in Hc. rewrite (IH Hs), Hc. reflexivity.
Qed.

Lemma strip_without_space s :
  Str.forallb (fun c => negb (Str.isspace c)) s = true -> Str.strip s = s.
Proof.
  intros H. unfold Str.strip. rewrite lstrip_fixed.
  - now apply rstrip_without_space.
  - destruct s as [|c s]; [exact I|].
    cbn [Str.forallb] in H. apply andb_true_iff in H as [Hc _].
    now apply negb_true_iff.
Qed.

(** The dotted notation of a 32-bit integer is read back by the parser of
    addresses, and nothing is stripped from it. *)
Lemma v4_text_reads_back n :
  0 <= n <= ALL_ONES V4 ->
  IPv4Address_of_str (v4_text n) = Ok (mk_address V4 n None)
  /\ Str.strip (v4_text n) = v4_text n.
Proof.
  intros H.
  destruct (to_bytes4_big_spec n H) as (b3 & b2 & b1 & b0 & E & H3 & H2 & H1 & H0 & F).
  destruct (octet_facts b3 H3) as (P3 & N3 & D3 & S3 & W3).
  destruct (octet_facts b2 H2) as (P2 & N2 & D2 & S2 & W2).
  destruct (octet_facts b1 H1) as (P1 & N1 & D1 & S1 & W1).
  destruct (octet_facts b0 H0) as (P0 & N0 & D0 & S0 & W0).
  unfold v4_text. rewrite E. cbn [map Str.join].
  set (t3 := Str.of_int b3) in *. set (t2 := Str.of_int b2) in *.
  set (t1 := Str.of_int b1) in *. set (t0 := Str.of_int b0) in *.
  split.
  - unfold IPv4Address_of_str.
    rewrite !contains_app, S3, S2, S1, S0. cbn [Str.contains orb Str.eqb_ascii Ascii.eqb
      Bool.eqb andb].
    unfold v4_ip_int_from_string.
    assert (Ne : Str.is_empty (t3 ++ "." ++ t2 ++ "." ++ t1 ++ "." ++ t0) = false)
      by (destruct t3; [discriminate N3 | reflexivity]).
    rewrite Ne.
    change ("." ++ t2 ++ "." ++ t1 ++ "." ++ t0)%string
      with (String "." (t2 ++ String "." (t1 ++ String "." t0))).
    rewrite !split_app by assumption.
    rewrite (split_without_sep _ _ D0).
    cbn [List.length Nat.eqb negb mapM].
    rewrite P3, P2, P1, P0. cbn [bind try_except]. now rewrite F.
  - apply strip_without_space.
    rewrite !forallb_app, W3, W2, W1, W0. reflexivity.
Qed.





Lemma line_of_v4_injective x y :
  0 <= x <= ALL_ONES V4 -> 0 <= y <= ALL_ONES V4 ->
  line_of V4 x = line_of V4 y -> x = y.
Proof.
  intros Hx Hy E. unfold line_of, text_of in E.
  destruct (v4_text_reads_back x Hx) as [Rx _].
  destruct (v4_text_reads_back y Hy) as [Ry _].
  assert (T : v4_text x = v4_text y).
  { revert E. generalize (v4_text x) (v4_text y). intros a.
    induction a as [|c a IH]; intros b E; destruct b as [|d b]; cbn in E.
    - reflexivity.
    - inversion E. destruct b; discriminate.
    - inversion E. destruct a; discriminate.
    - inversion E. f_equal. now apply IH. }
  rewrite T, Ry in Rx. now inversion Rx.
Qed.

Lemma NoDup_map_on {A B} (f : A -> B) l :
  (forall x y, In x l -> In y l -> f x = f y -> x = y) ->
  NoDup l -> NoDup (map f l).
Proof.
  intros Hf N. induction N as [|a l Ha N IH]; [constructor|].
  cbn [map]. constructor.
  - intros Hin. apply in_map_iff in Hin as (y & Ey & Hy).
    apply Ha. rewrite (Hf a y); [exact Hy|now left|now right|now symmetry].
  - apply IH. intros x y Hx Hy. apply Hf; now right.
Qed.



(** X9.  At a rate of at least [1.0] the lines written for a version 4
    range are pairwise different: no address of the range is written
    twice. *)
Theorem the_lines_of_an_ipv4_range_are_distinct (rng : sampler)
    (self parser : Converter.t) (text base_name : string) (call : nat)
    (tr : list event) (r : Range.t) (n : network) :
  cidr_to_ip_range parser text = (tr, Ok (Some r)) ->
  ip_network (Range.cidr r) false = Ok n ->
  net_version n = V4 ->
  PyFloat.leb PyFloat.one (Converter.sample_rate self) = true ->
  NoDup (fst (write_range rng self base_name call r))
  /\ Z.of_nat (List.length (fst (write_range rng self base_name call r)))
     = Range.total_ips r.
Proof.
  rewrite cidr_to_ip_range_spec. intros H.
  destruct (ip_network (Str.strip text) false) as [n'|e] eqn:E; [|discriminate].
  inversion H. subst tr r. clear H. cbn [Range.cidr range_of_network Range.total_ips].
  intros E'. rewrite E in E'. inversion E'. subst n'. clear E'.
  intros V Hrate.
  pose proof (ip_network_wf _ _ _ E) as W.
  pose proof (wf_network_arith n W) as (_ & _ & _ & H0 & H1 & _). cbv zeta in *.
  destruct (ones_bounds (max_prefixlen (net_version n) - prefixlen n)) as [Ho1 Ho2];
    [destruct W; lia|].
  unfold write_range. simpl Range.cidr. rewrite E, Hrate.
  rewrite (write_network_spec n W). cbn [fst]. rewrite V in *. split.
  - apply NoDup_map_on.
    + intros x y Hx Hy. apply py_range_In in Hx, Hy.
      apply line_of_v4_injective; lia.
    + apply NoDup_of_strictly_ascending, py_range_strictly_ascending.
  - rewrite length_map, py_range_length. lia.
Qed.

Lemma the_lines_of_an_ipv4_range_are_distinct_witness :
  NoDup (fst (write_range Examples.lowest
                (Examples.converter "zones" ["txt"]%string PyFloat.one None)
                "cn" 0 (Range.mk "10.0.0.5/30" "10.0.0.4" "10.0.0.7" 4))).
Proof.
  exact (proj1 (the_lines_of_an_ipv4_range_are_distinct Examples.lowest
           (Examples.converter "zones" ["txt"]%string PyFloat.one None)
           (Examples.converter "zones" ["txt"]%string PyFloat.one None)
           "10.0.0.5/30" "cn" 0 []
           (Range.mk "10.0.0.5/30" "10.0.0.4" "10.0.0.7" 4)
           (mk_network (mk_address V4 167772164 None)
              (mk_address V4 4294967292 None) 30)
           eq_refl eq_refl eq_refl eq_refl)).
Defined.

(* ================================================================= *)
(** ** The files written for a zone file *)

Lemma kept_parsed line : Forall parsed (kept line).
Proof.
  unfold kept. cbv zeta. destruct (_ || _); [constructor|].
  destruct (ip_network (Str.strip (Str.strip line)) false) as [n|e] eqn:E;
    constructor; [|constructor].
  exists n. split; [exact E | reflexivity].
Qed.

Lemma process_zone_file_parsed w self p : Forall parsed (snd (process_zone_file w self p)).
Proof.
  rewrite process_zone_file_ranges.
  induction (match read_lines w p with ReadAll l | ReadFails l => l end)
    as [|line rest IH]; [constructor|].
  cbn [flat_map]. apply Forall_app. split; [apply kept_parsed | exact IH].
Qed.

Lemma sum_total_ips_from (rs : list Range.t) : forall acc,
  fold_left (fun acc r => acc + Range.total_ips r) rs acc
  = acc + sum_total_ips rs.
Proof.
  unfold sum_total_ips.
  induction rs as [|r rs IH]; intros acc; cbn [fold_left]; [lia|].
  rewrite (IH (acc + Range.total_ips r)), (IH (0 + Range.total_ips r)). lia.
Qed.

Lemma sum_total_ips_cons r rs :
  sum_total_ips (r :: rs) = Range.total_ips r + sum_total_ips rs.
Proof.
  unfold sum_total_ips at 1. cbn [fold_left]. rewrite sum_total_ips_from. lia.
Qed.

Lemma write_range_dense rng self base_name call r :
  parsed r ->
  PyFloat.leb PyFloat.one (Converter.sample_rate self) = true ->
  exists ls,
    write_range rng self base_name call r = (ls, None)
    /\ Z.of_nat (List.length ls) = Range.total_ips r.
Proof.
  intros (n & E & R) Hrate.
  pose proof (ip_network_wf _ _ _ E) as W.
  pose proof (wf_network_arith n W) as (_ & _ & _ & H0 & H1 & _). cbv zeta in *.
  destruct (ones_bounds (max_prefixlen (net_version n) - prefixlen n)) as [Ho1 Ho2];
    [destruct W; lia|].
  unfold write_range. rewrite E, Hrate, (write_network_spec n W).
  eexists. split; [reflexivity|].
  rewrite length_map, py_range_length, R. cbn [Range.total_ips range_of_network]. lia.
Qed.

Lemma write_range_at_zero rng self base_name call r :
  parsed r ->
  PyFloat.leb (Converter.sample_rate self) PyFloat.zero = true ->
  write_range rng self base_name call r = ([], None).
Proof.
  intros (n & E & R) Hrate. unfold write_range. rewrite E.
  destruct (nonpositive_rate _ Hrate) as [-> ->]. reflexivity.
Qed.

Lemma write_ranges_dense rng self base_name rs : forall call,
  Forall parsed rs ->
  PyFloat.leb PyFloat.one (Converter.sample_rate self) = true ->
  exists ls,
    write_ranges rng self base_name call rs = (ls, [], None)
    /\ Z.of_nat (List.length ls) = sum_total_ips rs.
Proof.
  induction rs as [|r rs IH]; intros call F Hrate.
  - exists []. split; reflexivity.
  - inversion F as [|? ? Pr Frs]; subst.
    destruct (write_range_dense rng self base_name call r Pr Hrate) as (ls & E & L).
    destruct (IH (S call) Frs Hrate) as (ls' & E' & L').
    exists (ls ++ ls'). cbn [write_ranges]. rewrite E, E'. split; [reflexivity|].
    rewrite length_app, Nat2Z.inj_add, sum_total_ips_cons. lia.
Qed.

Lemma write_ranges_at_zero rng self base_name rs : forall call,
  Forall parsed rs ->
  PyFloat.leb (Converter.sample_rate self) PyFloat.zero = true ->
  write_ranges rng self base_name call rs = ([], [], None).
Proof.
  induction rs as [|r rs IH]; intros call F Hrate; [reflexivity|].
  inversion F as [|? ? Pr Frs]; subst.
  cbn [write_ranges].
  rewrite (write_range_at_zero rng self base_name call r Pr Hrate), (IH (S call) Frs Hrate).
  reflexivity.
Qed.

(** X10.  The TXT file of a zone file.  At a rate of at least [1.0] it
    holds one line for each address of each range, as many lines as the
    [ips] statistic of the file counts addresses, and no warning is
    logged; at a rate of at most [0.0] it is still created, without a
    line. *)
Theorem the_txt_file_holds_every_address (w : world) (rng : sampler)
    (self parser : Converter.t) (zone_file : path) (base_name : string) :
  let ip_ranges := snd (process_zone_file w parser zone_file) in
  let output_file := output_file_for self base_name "txt" in
  open_for_writing_fails w output_file = false ->
  (PyFloat.leb PyFloat.one (Converter.sample_rate self) = true ->
   exists lines,
     save_ranges_txt w rng self base_name ip_ranges
     = [Wrote output_file (Text lines);
        Log DEBUG (SavedTXT (path_name output_file))]
     /\ Z.of_nat (List.length lines) = sum_total_ips ip_ranges)
  /\ (PyFloat.leb (Converter.sample_rate self) PyFloat.zero = true ->
      save_ranges_txt w rng self base_name ip_ranges
      = [Wrote output_file (Text []);
         Log DEBUG (SavedTXT (path_name output_file))]).
Proof.
  cbv zeta. intros Hopen.
  pose proof (process_zone_file_parsed w parser zone_file) as F.
  unfold save_ranges_txt. rewrite Hopen. split; intros Hrate.
  - destruct (write_ranges_dense rng self base_name _ 0%nat F Hrate) as (ls & E & L).
    exists ls. rewrite E. split; [reflexivity | exact L].
  - rewrite (write_ranges_at_zero rng self base_name _ 0%nat F Hrate). reflexivity.
Qed.

Lemma the_txt_file_holds_every_address_witness :
  let w := Examples.world_of Examples.zones in
  let self := Examples.converter "zones" ["txt"]%string PyFloat.one None in
  exists lines,
    save_ranges_txt w Examples.lowest self "cn"
      (snd (process_zone_file w self (Path "zones/cn.zone")))
    = [Wrote (Path "out/cn_ranges.txt") (Text lines);
       Log DEBUG (SavedTXT "cn_ranges.txt")]
    /\ Z.of_nat (List.length lines) = 6.
Proof.
  cbv zeta.
  destruct (the_txt_file_holds_every_address
              (Examples.world_of Examples.zones) Examples.lowest
              (Examples.converter "zones" ["txt"]%string PyFloat.one None)
              (Examples.converter "zones" ["txt"]%string PyFloat.one None)
              (Path "zones/cn.zone") "cn" eq_refl) as [D _].
  destruct (D eq_refl) as (lines & E & L).
  exists lines. split; [exact E|].
  rewrite L. vm_compute. reflexivity.
Defined.

(* ================================================================= *)
(** ** What the outcome of a file depends on *)

Lemma save_nothing_when_open_fails w rng self base_name ip_ranges :
  (forall p, open_for_writing_fails w p = true) ->
  written_paths (save_ranges_json w self base_name ip_ranges) = []
  /\ written_paths (save_ranges_csv w self base_name ip_ranges) = []
  /\ written_paths (save_ranges_txt w rng self base_name ip_ranges) = [].
Proof.
  intros H. unfold save_ranges_json, save_ranges_csv, save_ranges_txt.
  rewrite !H. repeat split.
Qed.

Lemma written_paths_cons_log lvl msg tr :
  written_paths (Log lvl msg :: tr) = written_paths tr.
Proof. reflexivity. Qed.

Lemma convert_file_written_paths w rng self zf :
  written_paths (fst (convert_file w rng self zf))
  = match snd (process_zone_file w self zf) with
    | [] => []
    | r :: rs =>
        written_paths
          (if str_in "json" (Converter.output_formats self)
           then save_ranges_json w self (stem zf) (r :: rs) else [])
        ++ written_paths
             (if str_in "csv" (Converter.output_formats self)
              then save_ranges_csv w self (stem zf) (r :: rs) else [])
        ++ written_paths
             (if str_in "txt" (Converter.output_formats self)
              then save_ranges_txt w rng self (stem zf) (r :: rs) else [])
    end.
Proof.
  unfold convert_file.
  pose proof (process_zone_file_writes_nothing w self zf) as P.
  destruct (process_zone_file w self zf) as [tr [|r rs]]; cbn [fst snd] in *.
  - rewrite written_paths_app, written_paths_cons_log, P. reflexivity.
  - rewrite !written_paths_app, written_paths_cons_log, P.
    cbn [app]. now rewrite app_nil_r.
Qed.

(** X11.  What [convert_file] returns depends on the content of the zone
    file alone: neither the converter's formats and rate, nor the sampler,
    nor the failure of a write changes it.  In particular, when no output
    file can be opened nothing is written, and the file still counts as
    processed with the same statistics. *)
Theorem the_outcome_of_a_file_ignores_its_outputs (w w' : world)
    (rng rng' : sampler) (self self' : Converter.t) (zone_file : path) :
  stat w zone_file = stat w' zone_file ->
  snd (convert_file w rng self zone_file) = snd (convert_file w' rng' self' zone_file)
  /\ ((forall p, open_for_writing_fails w p = true) ->
      written_paths (fst (convert_file w rng self zone_file)) = []).
Proof.
  intros S. split.
  - rewrite !convert_file_outcome, !process_zone_file_ranges.
    unfold read_lines. rewrite S. reflexivity.
  - intros H. rewrite convert_file_written_paths.
    destruct (snd (process_zone_file w self zone_file)) as [|r rs]; [reflexivity|].
    destruct (save_nothing_when_open_fails w rng self (stem zone_file) (r :: rs) H)
      as (J & C & T).
    destruct (str_in "json" _), (str_in "csv" _), (str_in "txt" _);
      rewrite ?J, ?C, ?T; reflexivity.
Qed.

Lemma the_outcome_of_a_file_ignores_its_outputs_witness :
  let w := Examples.world_of Examples.zones in
  let w' := mk_world (stat w) (fun _ => false) (fun _ => true) in
  let self := Examples.converter "zones" ["json"; "csv"; "txt"]%string PyFloat.one None in
  snd (convert_file w' Examples.lowest self (Path "zones/cn.zone"))
  = Ok (Some (FileStats.mk 2 6))
  /\ written_paths (fst (convert_file w' Examples.lowest self (Path "zones/cn.zone")))
     = [].
Proof.
  cbv zeta.
  destruct (the_outcome_of_a_file_ignores_its_outputs
              (mk_world (stat (Examples.world_of Examples.zones))
                 (fun _ => false) (fun _ => true))
              (Examples.world_of Examples.zones)
              Examples.lowest Examples.highest
              (Examples.converter "zones" ["json"; "csv"; "txt"]%string PyFloat.one None)
              (Examples.converter "zones" ["txt"]%string Examples.half None)
              (Path "zones/cn.zone") eq_refl) as [E N].
  split.
  - rewrite E. vm_compute. reflexivity.
  - apply N. reflexivity.
Defined.

Lemma str_in_known f formats :
  known_format f = true ->
  Forall (fun g => known_format g = false) formats ->
  str_in f formats = false.
Proof.
  intros K F. unfold str_in.
  induction F as [|g formats Hg _ IH]; [reflexivity|].
  cbn [existsb]. rewrite IH, orb_false_r.
  destruct (String.eqb_spec f g) as [->|]; [congruence | reflexivity].
Qed.

(** X12.  The names of the formats are taken as they are given.  [all]
    anywhere in the list stands for the three formats and the other names
    given with it are dropped; without it the list is kept, and a name
    that is none of [json], [csv] and [txt] is accepted and then ignored:
    for a list of such names nothing is written, and a zone file with a
    valid range still counts as processed. *)
Theorem format_names_are_taken_as_given (w : world) (rng : sampler)
    (input_path output_dir : string) (formats : list string)
    (sample_rate : PyFloat.float) (max_workers : Z) (timeout : option Z)
    (output_file_name : option string) (zone_file : path) :
  let self := init input_path output_dir (Some formats) sample_rate max_workers
                timeout output_file_name in
  (In "all"%string formats ->
   Converter.output_formats self = ["json"; "csv"; "txt"]%string)
  /\ (~ In "all"%string formats -> Converter.output_formats self = formats)
  /\ (Forall (fun f => known_format f = false) formats ->
      ~ In "all"%string formats ->
      written_paths (fst (convert_file w rng self zone_file)) = []
      /\ (yields_no_range w self zone_file = false ->
          exists stats, snd (convert_file w rng self zone_file) = Ok (Some stats))).
Proof.
  cbv zeta.
  assert (A : forall l, str_in "all" l = true <-> In "all"%string l).
  { intros l. unfold str_in. rewrite existsb_exists. split.
    - intros (x & Hx & E). apply String.eqb_eq in E. now subst.
    - intros H. exists "all"%string. split; [exact H | reflexivity]. }
  assert (Y : forall l, ~ In "all"%string l -> str_in "all" l = false).
  { intros l H. destruct (str_in "all" l) eqn:E; [|reflexivity].
    apply A in E. contradiction. }
  split; [|split].
  - intros H. unfold init. cbn [Converter.output_formats].
    apply A in H. now rewrite H.
  - intros H. unfold init. cbn [Converter.output_formats]. now rewrite (Y _ H).
  - intros F H. split.
    + rewrite convert_file_written_paths.
      destruct (snd (process_zone_file w _ zone_file)) as [|r rs]; [reflexivity|].
      unfold init. cbn [Converter.output_formats]. rewrite (Y _ H).
      rewrite (str_in_known "json" _ eq_refl F), (str_in_known "csv" _ eq_refl F),
        (str_in_known "txt" _ eq_refl F). reflexivity.
    + intros N. rewrite convert_file_outcome. unfold yields_no_range in N.
      destruct (snd (process_zone_file w _ zone_file)) as [|r rs]; [discriminate|].
      eexists. reflexivity.
Qed.

Lemma format_names_are_taken_as_given_witness :
  let w := Examples.world_of Examples.zones in
  let self := init "zones" "out" (Some ["JSON"; "xml"]%string) PyFloat.one 4 None None in
  written_paths (fst (convert_file w Examples.lowest self (Path "zones/cn.zone"))) = []
  /\ exists stats,
       snd (convert_file w Examples.lowest self (Path "zones/cn.zone"))
       = Ok (Some stats).
Proof.
  cbv zeta.
  destruct (format_names_are_taken_as_given (Examples.world_of Examples.zones)
              Examples.lowest "zones" "out" ["JSON"; "xml"]%string PyFloat.one 4
              None None (Path "zones/cn.zone")) as (_ & _ & H).
  destruct H as [N P].
  - repeat constructor.
  - intros [H | [H | []]]; discriminate H.
  - split; [exact N|]. apply P. vm_compute. reflexivity.
Defined.

(* ================================================================= *)
(** ** The totals of a run *)

Lemma zsum_app l l' : zsum (l ++ l') = zsum l + zsum l'.
Proof. unfold zsum. induction l as [|a l IH]; cbn [app fold_right] in *; lia. Qed.

Lemma zsum_permutation l l' : Permutation l l' -> zsum l = zsum l'.
Proof.
  unfold zsum.
  induction 1 as [|x l l' _ IH|x y l|l l' l'' _ IH1 _ IH2];
    cbn [fold_right] in *; lia.
Qed.

Lemma ranges_in_any_converter w self self' zf : ranges_in w self zf = ranges_in w self' zf.
Proof. unfold ranges_in. now rewrite !process_zone_file_ranges. Qed.

Lemma addresses_in_any_converter w self self' zf :
  addresses_in w self zf = addresses_in w self' zf.
Proof. unfold addresses_in. now rewrite !process_zone_file_ranges. Qed.

Lemma drain_totals w rng zone_files reference futures : forall self,
  let self' := fst (drain w rng zone_files futures self) in
  Converter.total_ranges self'
  = Converter.total_ranges self
    + zsum (map (ranges_in w reference) (files_of zone_files futures))
  /\ Converter.total_ips self'
     = Converter.total_ips self
       + zsum (map (addresses_in w reference) (files_of zone_files futures)).
Proof.
  induction futures as [|i rest IH]; intros self; cbv zeta.
  - cbn. lia.
  - cbn [drain files_of flat_map]. fold (files_of zone_files rest).
    destruct (nth_error zone_files i) as [zf|]; [|apply IH].
    rewrite !map_app, !zsum_app. cbn [map zsum fold_right].
    set (c1 := zsum (map (ranges_in w reference) (files_of zone_files rest))) in *.
    set (c2 := zsum (map (addresses_in w reference) (files_of zone_files rest))) in *.
    rewrite (ranges_in_any_converter w reference self zf).
    rewrite (addresses_in_any_converter w reference self zf).
    unfold ranges_in, addresses_in.
    pose proof (convert_file_outcome w rng self zf) as O.
    destruct (convert_file w rng self zf) as [tr o]. cbn [snd] in O. subst o.
    destruct (snd (process_zone_file w self zf)) as [|r rs]; cbn [aggregate].
    + specialize (IH (add_failed self)). cbv zeta in IH.
      destruct (drain w rng zone_files rest (add_failed self)) as [self2 tr2].
      cbn [fst] in *. destruct IH as [-> ->].
      cbn [add_failed Converter.total_ranges Converter.total_ips List.length].
      unfold sum_total_ips. cbn [fold_left]. lia.
    + specialize (IH (add_processed self
                        (FileStats.mk (Z.of_nat (List.length (r :: rs)))
                           (sum_total_ips (r :: rs))))).
      cbv zeta in IH.
      destruct (drain w rng zone_files rest _) as [self2 tr2].
      cbn [fst] in *. destruct IH as [-> ->].
      cbn [add_processed Converter.total_ranges Converter.total_ips
           FileStats.ranges FileStats.ips]. lia.
Qed.

Lemma delivered_when_complete self sched zone_files :
  complete self sched zone_files -> delivered self sched = completion_order sched.
Proof.
  intros [_ Hto]. unfold delivered. unfold timed_out in Hto.
  destruct (Converter.timeout self), (timed_out_after sched);
    try reflexivity; discriminate.
Qed.

(** The statistics of a run in which every future is delivered. *)
Lemma complete_run w rng sched self zf zfs found :
  mkdir_fails w (Converter.output_dir self) = false ->
  discover w self = Some (zf :: zfs, found) ->
  complete self sched (zf :: zfs) ->
  snd (convert_all w rng sched self)
  = Ok (Stats.mk (Z.of_nat (List.length (zf :: zfs)))
          (count (fun f => negb (yields_no_range w self f)) (zf :: zfs))
          (Some (count (yields_no_range w self) (zf :: zfs)))
          (zsum (map (ranges_in w self) (zf :: zfs)))
          (zsum (map (addresses_in w self) (zf :: zfs)))).
Proof.
  intros Hm Hd Hc. unfold convert_all, ensure_directory. rewrite Hm, Hd.
  rewrite (delivered_when_complete _ _ _ Hc). destruct Hc as [Hperm Hto].
  pose proof (drain_counters w rng (zf :: zfs) self (completion_order sched)
                (reset_statistics self)) as C.
  pose proof (drain_totals w rng (zf :: zfs) self (completion_order sched)
                (reset_statistics self)) as T.
  cbv zeta in C, T.
  destruct (drain w rng (zf :: zfs) (completion_order sched) (reset_statistics self))
    as [self1 tr1]. cbn [fst snd] in *.
  destruct C as [Cf Cp]. destruct T as [Tr Ti].
  pose proof (files_of_permutation (zf :: zfs) _ Hperm) as P.
  rewrite (count_permutation _ _ _ P) in Cf.
  rewrite (count_permutation _ _ _ P) in Cp.
  rewrite (zsum_permutation _ _ (Permutation_map _ P)) in Tr.
  rewrite (zsum_permutation _ _ (Permutation_map _ P)) in Ti.
  cbn [reset_statistics Converter.failed_files Converter.processed_files
       Converter.total_ranges Converter.total_ips] in Cf, Cp, Tr, Ti.
  rewrite Cf, Cp, Tr, Ti. reflexivity.
Qed.

(** X13.  When every future is delivered, the totals of a run are sums
    over the files found: [total_ranges] is the number of ranges of all
    the files and [total_ips] the number of their addresses, a file
    without a valid range adding nothing.  The returned statistics are
    therefore the same in whatever order the files complete, and whatever
    the sampler picks. *)
Theorem the_totals_do_not_depend_on_the_order (w : world) (rng rng' : sampler)
    (sched sched' : schedule) (self : Converter.t) (zone_files : list path)
    (found : event) :
  mkdir_fails w (Converter.output_dir self) = false ->
  discover w self = Some (zone_files, found) ->
  zone_files <> [] ->
  complete self sched zone_files ->
  complete self sched' zone_files ->
  (exists stats,
     snd (convert_all w rng sched self) = Ok stats
     /\ Stats.total_ranges stats = zsum (map (ranges_in w self) zone_files)
     /\ Stats.total_ips stats = zsum (map (addresses_in w self) zone_files))
  /\ snd (convert_all w rng sched self) = snd (convert_all w rng' sched' self).
Proof.
  intros Hm Hd Hne Hc Hc'. destruct zone_files as [|zf zfs]; [contradiction|].
  rewrite (complete_run w rng sched self zf zfs found Hm Hd Hc).
  rewrite (complete_run w rng' sched' self zf zfs found Hm Hd Hc').
  split; [|reflexivity]. eexists. split; [reflexivity|]. split; reflexivity.
Qed.

Lemma the_totals_do_not_depend_on_the_order_witness :
  let w := Examples.world_of Examples.zones in
  let self := Examples.converter "zones" ["txt"]%string PyFloat.one None in
  snd (convert_all w Examples.lowest (Examples.in_order 3) self)
  = snd (convert_all w Examples.highest
           (mk_schedule [2; 0; 1]%nat None (fun _ => true)) self).
Proof.
  cbv zeta.
  refine (proj2 (the_totals_do_not_depend_on_the_order
                   (Examples.world_of Examples.zones) Examples.lowest Examples.highest
                   (Examples.in_order 3)
                   (mk_schedule [2; 0; 1]%nat None (fun _ => true))
                   (Examples.converter "zones" ["txt"]%string PyFloat.one None)
                   [Path "zones/empty.zone"; Path "zones/cn.zone"; Path "zones/old.zone"]
                   (Log INFO (FoundZoneFiles 3 (Path "zones")))
                   eq_refl _ _ _ _)).
  - vm_compute. reflexivity.
  - discriminate.
  - split; [apply Permutation_refl | reflexivity].
  - split; [|reflexivity]. cbn [completion_order List.length seq].
    apply Permutation_sym.
    apply (perm_trans (perm_skip 0%nat (perm_swap 2%nat 1%nat []))).
    apply (perm_swap 2%nat 0%nat [1%nat]).
Defined.

(* ================================================================= *)
(** ** A run cut short by the timeout *)

Lemma files_of_length zone_files futures :
  Forall (fun i => (i < List.length zone_files)%nat) futures ->
  List.length (files_of zone_files futures) = List.length futures.
Proof.
  unfold files_of. induction 1 as [|i rest Hi _ IH]; [reflexivity|].
  cbn [flat_map]. rewrite length_app, IH.
  destruct (nth_error zone_files i) eqn:E; [reflexivity|].
  apply nth_error_None in E. lia.
Qed.

Lemma distinct_tasks_are_at_most_the_files (n : nat) (l : list nat) :
  NoDup l -> Forall (fun i => (i < n)%nat) l -> (List.length l <= n)%nat.
Proof.
  intros N F. rewrite <- (length_seq n 0). apply NoDup_incl_length; [exact N|].
  intros i Hi. rewrite Forall_forall in F. apply in_seq. specialize (F i Hi). lia.
Qed.

(** X14.  When [as_completed] times out, the run still returns its
    statistics: the futures delivered until then, and only those, are
    counted, each either as processed or as failed, so that
    [processed_files + failed_files] is the number of futures delivered,
    which is at most [total_files]; the time-out is logged as an error. *)
Theorem a_timed_out_run_counts_what_was_delivered (w : world) (rng : sampler)
    (sched : schedule) (self : Converter.t) (zone_files : list path) (found : event)
    (seconds : Z) (n : nat) :
  mkdir_fails w (Converter.output_dir self) = false ->
  discover w self = Some (zone_files, found) ->
  zone_files <> [] ->
  Converter.timeout self = Some seconds ->
  timed_out_after sched = Some n ->
  NoDup (completion_order sched) ->
  Forall (fun i => (i < List.length zone_files)%nat) (completion_order sched) ->
  exists stats failed,
    snd (convert_all w rng sched self) = Ok stats
    /\ Stats.total_files stats = Z.of_nat (List.length zone_files)
    /\ Stats.failed_files stats = Some failed
    /\ Stats.processed_files stats + failed
       = Z.of_nat (List.length (firstn n (completion_order sched)))
    /\ Stats.processed_files stats + failed <= Stats.total_files stats
    /\ 0 <= Stats.processed_files stats /\ 0 <= failed
    /\ In (Log ERROR OperationTimedOut) (fst (fst (convert_all w rng sched self))).
Proof.
  intros Hm Hd Hne Ht Hn N F. destruct zone_files as [|zf zfs]; [contradiction|].
  unfold convert_all, ensure_directory. rewrite Hm, Hd.
  unfold delivered, timed_out. rewrite Ht, Hn.
  set (futures := firstn n (completion_order sched)).
  assert (Ff : Forall (fun i => (i < List.length (zf :: zfs))%nat) futures).
  { unfold futures. rewrite Forall_forall in *. intros i Hi.
    apply F. rewrite <- (firstn_skipn n (completion_order sched)).
    apply in_or_app. now left. }
  assert (Nf : NoDup futures).
  { unfold futures. rewrite <- (firstn_skipn n (completion_order sched)) in N.
    now apply NoDup_app_remove_r in N. }
  pose proof (drain_counters w rng (zf :: zfs) self futures (reset_statistics self)) as C.
  cbv zeta in C.
  destruct (drain w rng (zf :: zfs) futures (reset_statistics self)) as [self1 tr1].
  cbn [fst snd] in *. destruct C as [Cf Cp].
  rewrite count_complement in Cp.
  cbn [reset_statistics Converter.failed_files Converter.processed_files] in Cf, Cp.
  rewrite (files_of_length _ _ Ff) in Cp.
  pose proof (distinct_tasks_are_at_most_the_files _ _ Nf Ff) as B.
  assert (0 <= count (yields_no_range w self) (files_of (zf :: zfs) futures)
          <= Z.of_nat (List.length futures)).
  { unfold count. rewrite <- (files_of_length _ _ Ff).
    pose proof (filter_length_le (yields_no_range w self) (files_of (zf :: zfs) futures)).
    lia. }
  eexists. exists (Converter.failed_files self1).
  split; [reflexivity|]. cbn [Stats.total_files Stats.failed_files Stats.processed_files].
  split; [reflexivity|]. split; [reflexivity|].
  split; [lia|]. split; [lia|]. split; [lia|]. split; [lia|].
  apply in_or_app. right. apply in_or_app. right. apply in_or_app. right.
  apply in_or_app. left. now left.
Qed.

Lemma a_timed_out_run_counts_what_was_delivered_witness :
  let w := Examples.world_of Examples.zones in
  let self := init "zones" "out" (Some ["json"]%string) PyFloat.one 2 (Some 30) None in
  let sched := mk_schedule [1; 0; 2]%nat (Some 1%nat) (fun _ => true) in
  exists stats failed,
    snd (convert_all w Examples.lowest sched self) = Ok stats
    /\ Stats.total_files stats = 3
    /\ Stats.failed_files stats = Some failed
    /\ Stats.processed_files stats + failed = 1.
Proof.
  cbv zeta.
  destruct (a_timed_out_run_counts_what_was_delivered
              (Examples.world_of Examples.zones) Examples.lowest
              (mk_schedule [1; 0; 2]%nat (Some 1%nat) (fun _ => true))
              (init "zones" "out" (Some ["json"]%string) PyFloat.one 2 (Some 30) None)
              [Path "zones/empty.zone"; Path "zones/cn.zone"; Path "zones/old.zone"]
              (Log INFO (FoundZoneFiles 3 (Path "zones"))) 30 1%nat)
    as (stats & failed & E & T & Fl & S & _).
  - reflexivity.
  - vm_compute. reflexivity.
  - discriminate.
  - reflexivity.
  - reflexivity.
  - repeat constructor; cbn; intuition discriminate.
  - repeat constructor.
  - exists stats, failed. repeat split; assumption.
Defined.

(* ================================================================= *)
(** ** Running twice *)

Lemma aggregate_keeps_the_configuration self zf o :
  reset_statistics (fst (aggregate self zf o)) = reset_statistics self.
Proof.
  unfold aggregate. destruct o as [[st|]|e]; [reflexivity | reflexivity|].
  destruct (is_Exception e); reflexivity.
Qed.

Lemma drain_keeps_the_configuration w rng zone_files futures : forall self,
  reset_statistics (fst (drain w rng zone_files futures self)) = reset_statistics self.
Proof.
  induction futures as [|i rest IH]; intros self; [reflexivity|].
  cbn [drain]. destruct (nth_error zone_files i) as [zf|]; [|apply IH].
  destruct (convert_file w rng self zf) as [tr o].
  pose proof (aggregate_keeps_the_configuration self zf o) as A.
  destruct (aggregate self zf o) as [self1 tr1]. cbn [fst] in A.
  specialize (IH self1).
  destruct (drain w rng zone_files rest self1) as [self2 tr2]. cbn [fst] in *.
  congruence.
Qed.

Lemma convert_all_keeps_the_configuration w rng sched self :
  reset_statistics (snd (fst (convert_all w rng sched self))) = reset_statistics self.
Proof.
  unfold convert_all.
  destruct (ensure_directory w (Converter.output_dir self)); [|reflexivity].
  destruct (discover w self) as [[[|zf zfs] found]|]; try reflexivity.
  pose proof (drain_keeps_the_configuration w rng (zf :: zfs) (delivered self sched)
                (reset_statistics self)) as H.
  destruct (drain w rng (zf :: zfs) (delivered self sched) (reset_statistics self))
    as [self1 tr1]. cbn [fst snd] in *. exact H.
Qed.

(** What a run logs and returns is that of the converter with its
    statistics reset. *)
Lemma convert_all_from_any_statistics w rng sched self :
  fst (fst (convert_all w rng sched self))
  = fst (fst (convert_all w rng sched (reset_statistics self)))
  /\ snd (convert_all w rng sched self)
     = snd (convert_all w rng sched (reset_statistics self)).
Proof.
  unfold convert_all, discover, delivered, timed_out, undelivered_but_run.
  destruct self as [ip od sr mw to ofn fmts tr ti pf ff].
  cbn [reset_statistics Converter.input_path Converter.output_dir Converter.sample_rate
       Converter.max_workers Converter.timeout Converter.output_file_name
       Converter.output_formats].
  destruct (ensure_directory w od); [|split; reflexivity].
  destruct (is_file w ip).
  - destruct (drain w rng [ip] _ _) as [self1 tr1]. split; reflexivity.
  - destruct (is_dir w ip); [|split; reflexivity].
    destruct (glob_zone w ip) as [|zf zfs]; [split; reflexivity|].
    destruct (drain w rng (zf :: zfs) _ _) as [self1 tr1]. split; reflexivity.
Qed.

(** X15.  The statistics do not accumulate from one run to the next:
    what [convert_all] logs and returns does not depend on the counters
    the converter holds when it is called, and a second run of the same
    converter, on the same files completing in the same way, logs and
    returns what the first one did.  When no file is found, the counters
    of the converter are left as they were. *)
Theorem a_second_run_starts_from_zero (w : world) (rng : sampler) (sched : schedule)
    (self : Converter.t) :
  let first := convert_all w rng sched self in
  let second := convert_all w rng sched (snd (fst first)) in
  fst (fst second) = fst (fst first)
  /\ snd second = snd first
  /\ (snd first = Ok no_files -> snd (fst first) = self).
Proof.
  cbv zeta.
  destruct (convert_all_from_any_statistics w rng sched self) as [T1 S1].
  destruct (convert_all_from_any_statistics w rng sched
              (snd (fst (convert_all w rng sched self)))) as [T2 S2].
  rewrite convert_all_keeps_the_configuration in T2, S2.
  split; [congruence|]. split; [congruence|].
  unfold convert_all.
  destruct (ensure_directory w (Converter.output_dir self)); [|reflexivity].
  destruct (discover w self) as [[[|zf zfs] found]|]; try reflexivity.
  destruct (drain w rng (zf :: zfs) (delivered self sched) (reset_statistics self))
    as [self1 tr1]. cbn [fst snd]. discriminate.
Qed.

(* ================================================================= *)
(** ** The exit status of the [convert] command *)

Lemma convert_cidr_ranges_of w rng sched config args :
  convert_cidr_ranges w rng sched (arg_input args) (arg_output args)
    (arg_format args) (arg_sample_rate args) (arg_threads args)
    (arg_timeout args) (arg_output_file args) (Some config)
  = convert_all w rng sched (converter_of config args).
Proof. reflexivity. Qed.

Lemma count_positive {A} (f : A -> bool) l :
  count f l <> 0 <-> exists x, In x l /\ f x = true.
Proof.
  induction l as [|a l IH].
  - cbn. split; [intros H; now contradiction H | intros (x & [] & _)].
  - rewrite count_cons. destruct (f a) eqn:E.
    + split; [intros _; exists a; split; [now left | exact E]|].
      intros _. unfold count. lia.
    + rewrite Z.add_0_l, IH. split.
      * intros (x & Hx & Fx). exists x. split; [now right | exact Fx].
      * intros (x & [-> | Hx] & Fx); [congruence|]. exists x. now split.
Qed.

(** X16.  The exit status of the [convert] command.  It is [1] when the
    command is refused, when the output directory cannot be made and when
    the input path is neither a file nor a directory.  After a run in
    which every future is delivered it is [0] exactly when at least one of
    the files found holds a valid range: files that failed beside it do
    not turn the status into an error, and a directory without any zone
    file gives [1]. *)
Theorem the_exit_status_of_convert (w : world) (rng : sampler) (sched : schedule)
    (config : converter_config) (args : convert_args) :
  let self := converter_of config args in
  let status := snd (main_convert w rng sched config args) in
  (rejected w args = true -> status = 1)
  /\ (mkdir_fails w (Converter.output_dir self) = true -> status = 1)
  /\ (discover w self = None -> status = 1)
  /\ (forall zone_files found,
        rejected w args = false ->
        mkdir_fails w (Converter.output_dir self) = false ->
        discover w self = Some (zone_files, found) ->
        complete self sched zone_files ->
        (status = 0
         <-> exists zone_file,
               In zone_file zone_files /\ yields_no_range w self zone_file = false)).
Proof.
  cbv zeta. unfold main_convert. fold (rejected w args).
  rewrite convert_cidr_ranges_of.
  set (self := converter_of config args).
  split; [intros ->; reflexivity|].
  split; [|split].
  - intros Hm. destruct (rejected w args); [reflexivity|].
    unfold convert_all, ensure_directory. rewrite Hm. reflexivity.
  - intros Hd. destruct (rejected w args); [reflexivity|].
    unfold convert_all. rewrite Hd.
    destruct (ensure_directory w (Converter.output_dir self)); reflexivity.
  - intros zone_files found Hr Hm Hd Hc. rewrite Hr.
    destruct zone_files as [|zf zfs].
    + unfold convert_all, ensure_directory. rewrite Hm, Hd. cbn [snd].
      split; [discriminate | intros (x & [] & _)].
    + pose proof (complete_run w rng sched self zf zfs found Hm Hd Hc) as R.
      destruct (convert_all w rng sched self) as [[tr self1] outcome].
      cbn [snd] in R. subst outcome. cbn [Stats.processed_files].
      pose proof (count_positive (fun f => negb (yields_no_range w self f)) (zf :: zfs))
        as P.
      destruct (Z.eqb_spec
                  (count (fun f => negb (yields_no_range w self f)) (zf :: zfs)) 0)
        as [E|E]; cbn [snd].
      * split; [discriminate|]. intros (x & Hx & Fx). exfalso.
        assert (Q : exists x, In x (zf :: zfs) /\ negb (yields_no_range w self x) = true)
          by (exists x; split; [exact Hx | now rewrite Fx]).
        apply P in Q. contradiction.
      * split; [|reflexivity]. intros _. apply P in E as (x & Hx & Fx).
        exists x. split; [exact Hx | now apply negb_true_iff].
Qed.

Lemma the_exit_status_of_convert_witness :
  let w := Examples.world_of Examples.zones in
  let args := mk_args (Some "zones"%string) (Some "out"%string) None
                (Some ["csv"]%string) None 2 None in
  snd (main_convert w Examples.lowest (Examples.in_order 3) get_default_config args) = 0.
Proof.
  cbv zeta.
  destruct (the_exit_status_of_convert (Examples.world_of Examples.zones)
              Examples.lowest (Examples.in_order 3) get_default_config
              (mk_args (Some "zones"%string) (Some "out"%string) None
                 (Some ["csv"]%string) None 2 None)) as (_ & _ & _ & H).
  apply (H [Path "zones/empty.zone"; Path "zones/cn.zone"; Path "zones/old.zone"]
           (Log INFO (FoundZoneFiles 3 (Path "zones")))).
  - reflexivity.
  - reflexivity.
  - vm_compute. reflexivity.
  - split; [apply Permutation_refl | reflexivity].
  - exists (Path "zones/cn.zone"). split; [right; now left | vm_compute; reflexivity].
Defined.

(* ================================================================= *)
(** ** Integers that convert to a float *)

Lemma digits2_pos_size p : digits2_pos p = Pos.size p.
Proof. induction p as [p IH|p IH|]; cbn; now rewrite ?IH. Qed.

Lemma digits2_pos_shifted p k :
  digits2_pos (Pos.iter xO p k) = (digits2_pos p + k)%positive.
Proof.
  induction k as [|k IH] using Pos.peano_ind.
  - cbn. now rewrite Pos.add_1_r.
  - rewrite Pos.iter_succ. cbn [digits2_pos]. rewrite IH. lia.
Qed.

Lemma digits2_pos_bound p k : 0 <= k -> Zpos p < 2 ^ k -> Zpos (digits2_pos p) <= k.
Proof.
  intros Hk H. rewrite digits2_pos_size.
  pose proof (Pos.size_le p) as L.
  assert (L' : 2 ^ Zpos (Pos.size p) <= 2 * Zpos p).
  { rewrite <- Pos2Z.inj_pow. change (2 * Zpos p) with (Zpos p~0). lia. }
  assert (Zpos (Pos.size p) < k + 1); [|lia].
  apply (Z.pow_lt_mono_r_iff 2); [lia | lia|].
  rewrite Z.pow_add_r by lia. lia.
Qed.

Lemma binary_round_aux_canonical s m e :
  fexp PyFloat.prec PyFloat.emax (Zpos (digits2_pos m) + e) = e ->
  e <= PyFloat.emax - PyFloat.prec ->
  binary_round_aux PyFloat.prec PyFloat.emax s (Zpos m) e loc_Exact
  = S754_finite s m e.
Proof.
  intros C B. unfold binary_round_aux, shr_fexp, Zdigits2.
  rewrite C, Z.sub_diag.
  cbn [shr shr_record_of_loc shr_m loc_of_shr_record round_nearest_even shr_r shr_s].
  rewrite C, Z.sub_diag. cbn [shr shr_record_of_loc shr_m].
  apply Z.leb_le in B. now rewrite B.
Qed.

(** An integer of at most 53 bits converts to a float. *)
Lemma of_int_returns n : 0 <= n < 2 ^ 53 -> exists x, PyFloat.of_int n = Ok x.
Proof.
  intros [H0 H1]. unfold PyFloat.of_int.
  destruct n as [|p|p]; [eexists; reflexivity| |lia].
  cbn [binary_normalize]. unfold binary_round.
  pose proof (digits2_pos_bound p 53 ltac:(lia) H1) as D.
  assert (F : fexp PyFloat.prec PyFloat.emax (Zpos (digits2_pos p) + 0)
              = Zpos (digits2_pos p) - 53).
  { unfold fexp, emin, PyFloat.prec, PyFloat.emax. lia. }
  rewrite F. unfold shl_align.
  destruct (Zpos (digits2_pos p) - 53 - 0) as [|k|k] eqn:E; [|lia|].
  - rewrite binary_round_aux_canonical; [eexists; reflexivity|rewrite F; lia|].
    unfold PyFloat.prec, PyFloat.emax. lia.
  - rewrite binary_round_aux_canonical; [eexists; reflexivity| |].
    + rewrite digits2_pos_shifted.
      unfold fexp, emin, PyFloat.prec, PyFloat.emax. lia.
    + unfold PyFloat.prec, PyFloat.emax. lia.
Qed.

(** A power of two below [2 ^ 1024] converts to a float. *)
Lemma of_int_power_of_two k : 0 <= k < 1024 -> exists x, PyFloat.of_int (2 ^ k) = Ok x.
Proof.
  intros H.
  assert (A : List.forallb
                (fun k => match PyFloat.of_int (2 ^ k) with
                          | Ok _ => true
                          | Raise _ => false
                          end) (py_range 0 1024) = true)
    by (vm_compute; reflexivity).
  rewrite forallb_forall in A. specialize (A k). rewrite py_range_In in A.
  specialize (A H). destruct (PyFloat.of_int (2 ^ k)) as [x|e]; [eauto | discriminate].
Qed.

(* ================================================================= *)
(** ** Sizes as [format_bytes] shows them *)

Lemma format_bytes_from_a_float units : forall x,
  exists text, format_bytes_from units (Float x) = Ok text.
Proof.
  induction units as [|unit rest IH]; intros x; cbn [format_bytes_from].
  - eexists. reflexivity.
  - destruct (below_1024 (Float x)); [eexists; reflexivity|]. apply IH.
Qed.

Lemma format_bytes_from_cons unit rest size :
  format_bytes_from (unit :: rest) size
  = if below_1024 size then
      text <- format_size size ;; Ok (text ++ " " ++ unit)%string
    else
      size' <- divide_by_1024 size ;;
      format_bytes_from rest size'.
Proof. reflexivity. Qed.

Lemma format_bytes_returns n :
  0 <= n < 2 ^ 53 -> exists text, format_bytes n = Ok text.
Proof.
  intros H. destruct (of_int_returns n H) as (x & E).
  unfold format_bytes. rewrite format_bytes_from_cons.
  unfold below_1024, format_size, divide_by_1024. rewrite E. cbn [bind].
  destruct (n <? 1024); [eexists; reflexivity|]. apply format_bytes_from_a_float.
Qed.

(** X17.  [format_bytes] returns on every size below [2 ** 53], and a size
    below [1024] is shown in bytes, as its decimal followed by [.0 B]:
    [0] gives ["0.0 B"] and [500] gives ["500.0 B"]. *)
Theorem sizes_below_1024_are_shown_in_bytes (n : Z) :
  0 <= n < 2 ^ 53 ->
  (exists text, format_bytes n = Ok text)
  /\ (n < 1024 -> format_bytes n = Ok (Str.of_int n ++ ".0 B")%string).
Proof.
  intros H. split; [now apply format_bytes_returns|]. intros L.
  assert (A : List.forallb shown_in_bytes (py_range 0 1024) = true)
    by (vm_compute; reflexivity).
  rewrite forallb_forall in A. specialize (A n). rewrite py_range_In in A.
  specialize (A ltac:(lia)). unfold shown_in_bytes in A.
  destruct (format_bytes n) as [text|e]; [|discriminate].
  apply String.eqb_eq in A. now subst.
Qed.

Lemma sizes_below_1024_are_shown_in_bytes_witness :
  format_bytes 500 = Ok "500.0 B"%string.
Proof.
  exact (proj2 (sizes_below_1024_are_shown_in_bytes 500
                  ltac:(split; [discriminate | reflexivity]))
           eq_refl).
Defined.

(** X18.  [format_bytes] picks the unit before it rounds: the sizes from
    [1048525] to [1048575], just below [1024 ** 2], are shown as
    ["1024.0 KB"], not in megabytes. *)
Theorem sizes_just_below_a_unit_are_shown_as_1024 (n : Z) :
  1048525 <= n < 1048576 -> format_bytes n = Ok "1024.0 KB"%string.
Proof.
  intros H.
  assert (A : List.forallb shown_as_1024_KB (py_range 1048525 1048576) = true)
    by (vm_compute; reflexivity).
  rewrite forallb_forall in A. specialize (A n). rewrite py_range_In in A.
  specialize (A H). unfold shown_as_1024_KB in A.
  destruct (format_bytes n) as [text|e]; [|discriminate].
  apply String.eqb_eq in A. now subst.
Qed.

Lemma sizes_just_below_a_unit_are_shown_as_1024_witness :
  format_bytes 1048575 = Ok "1024.0 KB"%string.
Proof.
  exact (sizes_just_below_a_unit_are_shown_as_1024 1048575
           ltac:(split; [discriminate | reflexivity])).
Defined.

(* ================================================================= *)
(** ** The attempts of a download *)

Lemma py_range_cons a b : a < b -> py_range a b = a :: py_range (a + 1) b.
Proof.
  intros H. unfold py_range.
  replace (Z.to_nat (b - a)) with (S (Z.to_nat (b - (a + 1)))) by lia.
  cbn [seq map]. f_equal; [lia|].
  rewrite <- seq_shift, map_map. apply map_ext. intros i. lia.
Qed.

Lemma py_range_nil a b : b <= a -> py_range a b = [].
Proof. intros H. unfold py_range. now replace (Z.to_nat (b - a)) with 0%nat by lia. Qed.

Lemma requests_of_app a b : requests_of (a ++ b) = requests_of a ++ requests_of b.
Proof. apply flat_map_app. Qed.

Lemma files_written_app a b : files_written (a ++ b) = files_written a ++ files_written b.
Proof. apply flat_map_app. Qed.

Lemma slept_app a b : slept (a ++ b) = slept a ++ slept b.
Proof. apply flat_map_app. Qed.

Lemma download_attempts_cons w net self country_code url filepath attempt rest request :
  download_attempts w net self country_code url filepath (attempt :: rest) request
  = let country_upper := Str.upper country_code in
    let tr :=
      [Scrape.Log INFO
         (Scrape.Downloading country_upper attempt (Scraper.max_retries self));
       Scrape.Requested url] in
    match respond net request url (Scraper.timeout self) with
    | Content body =>
        if open_for_writing_fails w filepath
        then (tr, self, S request, Raise OSError)
        else
          let tr := tr ++ [Scrape.Wrote filepath body] in
          let file_size := Z.of_nat (String.length body) in
          match format_bytes file_size with
          | Raise e => (tr, self, S request, Raise e)
          | Ok size =>
              (tr ++ [Scrape.Log INFO (Scrape.Downloaded country_upper size)],
               add_successful self, S request, Ok true)
          end
    | RequestException =>
        let tr :=
          tr ++ [Scrape.Log WARNING (Scrape.AttemptFailed attempt country_upper)] in
        if attempt <? Scraper.max_retries self then
          match float_times_int (Scraper.delay_seconds self) (2 ^ (attempt - 1)) with
          | Raise e => (tr, self, S request, Raise e)
          | Ok wait_time =>
              match sleep_raises net wait_time with
              | Some e => (tr, self, S request, Raise e)
              | None =>
                  let '(tr', self', request', outcome) :=
                    download_attempts w net self country_code url filepath rest
                      (S request) in
                  (tr ++ Scrape.Slept wait_time :: tr', self', request', outcome)
              end
          end
        else
          (tr ++ [Scrape.Log ERROR
                    (Scrape.FailedToDownload country_upper (Scraper.max_retries self))],
           add_failed_download self, S request, Ok false)
    | OtherException e => (tr, self, S request, Raise e)
    end.
Proof. reflexivity. Qed.

Lemma backoff_exists self attempt :
  1 <= attempt < 1025 -> exists seconds, backoff self attempt seconds.
Proof.
  intros H. unfold backoff, float_times_int.
  destruct (of_int_power_of_two (attempt - 1)) as (x & E); [lia|].
  rewrite E. eexists. reflexivity.
Qed.

(** Attempts that fail before the last one: each is followed by its wait
    and by the next attempt. *)
Lemma failed_attempts_are_retried w net self country_code url filepath :
  only_requests_fail w net ->
  Scraper.max_retries self <= 1025 ->
  forall (failures : nat) (first : Z) (request : nat),
    1 <= first ->
    first + Z.of_nat failures <= Scraper.max_retries self ->
    (forall i, (i < failures)%nat ->
               respond net (request + i) url (Scraper.timeout self) = RequestException) ->
    exists tr,
      requests_of tr = repeat url failures
      /\ files_written tr = []
      /\ Forall2 (backoff self) (py_range first (first + Z.of_nat failures)) (slept tr)
      /\ forall tr' self' request' outcome,
           download_attempts w net self country_code url filepath
             (py_range (first + Z.of_nat failures) (Scraper.max_retries self + 1))
             (request + failures)
           = (tr', self', request', outcome) ->
           download_attempts w net self country_code url filepath
             (py_range first (Scraper.max_retries self + 1)) request
           = (tr ++ tr', self', request', outcome).
Proof.
  intros (_ & _ & Hsleep) Hmax.
  induction failures as [|failures IH]; intros first request H1 Hle Hfail.
  - exists []. rewrite Z.add_0_r, Nat.add_0_r, py_range_nil by lia.
    repeat split; try constructor. intros tr' self' request' outcome E. exact E.
  - destruct (backoff_exists self first) as (seconds & B); [lia|].
    destruct (IH (first + 1) (S request)) as (tr & R & F & Sl & K); [lia|lia| |].
    { intros i Hi. replace (S request + i)%nat with (request + S i)%nat by lia.
      apply Hfail. lia. }
    exists ([Scrape.Log INFO
               (Scrape.Downloading (Str.upper country_code) first
                  (Scraper.max_retries self));
             Scrape.Requested url;
             Scrape.Log WARNING (Scrape.AttemptFailed first (Str.upper country_code));
             Scrape.Slept seconds] ++ tr).
    split; [|split; [|split]].
    + rewrite requests_of_app, R. reflexivity.
    + rewrite files_written_app, F. reflexivity.
    + rewrite slept_app. cbn [slept flat_map app].
      rewrite (py_range_cons first) by lia. constructor; [exact B|].
      replace (first + Z.of_nat (S failures)) with (first + 1 + Z.of_nat failures) by lia.
      exact Sl.
    + intros tr' self' request' outcome E.
      rewrite py_range_cons by lia. rewrite download_attempts_cons. cbv zeta.
      specialize (Hfail 0%nat ltac:(lia)). rewrite Nat.add_0_r in Hfail. rewrite Hfail.
      assert (L : (first <? Scraper.max_retries self) = true) by (apply Z.ltb_lt; lia).
      rewrite L. unfold backoff in B. rewrite B, Hsleep.
      replace (first + Z.of_nat (S failures)) with (first + 1 + Z.of_nat failures) in E
        by lia.
      replace (request + S failures)%nat with (S request + failures)%nat in E by lia.
      rewrite (K _ _ _ _ E). rewrite <- app_assoc. reflexivity.
Qed.

Lemma repeat_snoc {A} (x : A) n : repeat x n ++ [x] = repeat x (S n).
Proof. induction n as [|n IH]; cbn; [reflexivity | now rewrite IH]. Qed.

(** X19.  A download is retried after a [RequestException] until an
    attempt succeeds.  When the first attempts fail and the next one, among
    the [max_retries] allowed, gets a content, [download_zone_file]
    returns [True] after exactly that many requests to the URL, the file
    [<country_code>.zone] of the output directory is written once with this
    content, [successful_downloads] grows by one, and between two
    attempts the scraper sleeps [delay_seconds * 2 ** (attempt - 1)]. *)
Theorem a_download_is_retried_until_it_succeeds (w : world) (net : web)
    (self : Scraper.t) (country_code url body : string) (request failures : nat) :
  only_requests_fail w net ->
  Z.of_nat failures < Scraper.max_retries self <= 1025 ->
  (forall i, (i < failures)%nat ->
             respond net (request + i) url (Scraper.timeout self) = RequestException) ->
  respond net (request + failures) url (Scraper.timeout self) = Content body ->
  exists tr,
    download_zone_file w net self country_code url request
    = (tr, add_successful self, S (request + failures), Ok true)
    /\ requests_of tr = repeat url (S failures)
    /\ files_written tr = [(zone_file_of self country_code, body)]
    /\ Forall2 (backoff self) (py_range 1 (1 + Z.of_nat failures)) (slept tr).
Proof.
  intros Henv [Hlt Hmax] Hfail Hok.
  destruct (failed_attempts_are_retried w net self country_code url
              (zone_file_of self country_code) Henv Hmax failures 1 request
              ltac:(lia) ltac:(lia) Hfail) as (tr & R & F & Sl & K).
  destruct Henv as (Hreply & Hopen & _).
  specialize (Hreply (request + failures)%nat url (Scraper.timeout self)).
  rewrite Hok in Hreply.
  destruct (format_bytes_returns (Z.of_nat (String.length body)) ltac:(lia))
    as (size & Esize).
  eexists. split; [|split; [|split]].
  - unfold download_zone_file. fold (zone_file_of self country_code).
    apply K. rewrite py_range_cons by lia. rewrite download_attempts_cons. cbv zeta.
    rewrite Hok, Hopen, Esize. reflexivity.
  - rewrite !requests_of_app, R. cbn [requests_of flat_map app].
    apply repeat_snoc.
  - rewrite !files_written_app, F. reflexivity.
  - rewrite !slept_app. cbn [slept flat_map app]. rewrite app_nil_r. exact Sl.
Qed.

Lemma a_download_is_retried_until_it_succeeds_witness :
  let w := Examples.world_of [] in
  let net := mk_web (fun n _ _ => if (n <? 2)%nat then RequestException else Content "1.2.3.0/24")
               (fun _ => []) (fun _ href => href) (fun _ => None) in
  let self := scraper_init "http://x/" "zones" one_tenth 3 30 in
  exists tr,
    download_zone_file w net self "ir" "http://x/ir.zone" 0
    = (tr, add_successful self, 3%nat, Ok true)
    /\ files_written tr = [(Path "zones/ir.zone", "1.2.3.0/24"%string)]
    /\ List.length (slept tr) = 2%nat.
Proof.
  cbv zeta.
  destruct (a_download_is_retried_until_it_succeeds
              (Examples.world_of [])
              (mk_web (fun n _ _ => if (n <? 2)%nat then RequestException
                                    else Content "1.2.3.0/24")
                 (fun _ => []) (fun _ href => href) (fun _ => None))
              (scraper_init "http://x/" "zones" one_tenth 3 30)
              "ir" "http://x/ir.zone" "1.2.3.0/24" 0 2) as (tr & E & _ & F & Sl).
  - split; [|split]; [|reflexivity|reflexivity].
    intros n url t. cbn [respond]. destruct (n <? 2)%nat; [exact I | reflexivity].
  - split; [reflexivity | discriminate].
  - intros i Hi. cbn [respond]. destruct i as [|[|i]]; [reflexivity | reflexivity | lia].
  - reflexivity.
  - exists tr. split; [exact E|]. split; [exact F|].
    apply Forall2_length in Sl. rewrite <- Sl. reflexivity.
Defined.

(** X20.  A download that keeps failing is given up after [max_retries]
    attempts: [download_zone_file] returns [False] after exactly
    [max_retries] requests, writes no file, counts one failed download,
    and sleeps after every attempt but the last.  With [max_retries]
    below one it returns [False] at once: no request is sent and neither
    counter changes. *)
Theorem a_download_is_given_up_after_max_retries (w : world) (net : web)
    (self : Scraper.t) (country_code url : string) (request : nat) :
  (only_requests_fail w net ->
   1 <= Scraper.max_retries self <= 1025 ->
   (forall i, (i < Z.to_nat (Scraper.max_retries self))%nat ->
              respond net (request + i) url (Scraper.timeout self) = RequestException) ->
   exists tr,
     download_zone_file w net self country_code url request
     = (tr, add_failed_download self,
        (request + Z.to_nat (Scraper.max_retries self))%nat, Ok false)
     /\ requests_of tr = repeat url (Z.to_nat (Scraper.max_retries self))
     /\ files_written tr = []
     /\ Forall2 (backoff self) (py_range 1 (Scraper.max_retries self)) (slept tr))
  /\ (Scraper.max_retries self < 1 ->
      download_zone_file w net self country_code url request
      = ([], self, request, Ok false)).
Proof.
  split.
  - intros Henv [H1 Hmax] Hfail.
    set (m := Scraper.max_retries self) in *.
    destruct (failed_attempts_are_retried w net self country_code url
                (zone_file_of self country_code) Henv Hmax (Z.to_nat (m - 1)) 1 request
                ltac:(lia) ltac:(fold m; lia)) as (tr & R & F & Sl & K).
    { intros i Hi. apply Hfail. lia. }
    fold m in K, Sl.
    replace (1 + Z.of_nat (Z.to_nat (m - 1))) with m in K, Sl by lia.
    eexists. split; [|split; [|split]].
    + unfold download_zone_file. fold (zone_file_of self country_code). fold m.
      apply K. rewrite py_range_cons by lia. rewrite download_attempts_cons. cbv zeta.
      rewrite (Hfail (Z.to_nat (m - 1))) by lia. fold m.
      rewrite Z.ltb_irrefl.
      replace (S (request + Z.to_nat (m - 1))) with (request + Z.to_nat m)%nat by lia.
      reflexivity.
    + rewrite !requests_of_app, R. cbn [requests_of flat_map app].
      rewrite repeat_snoc. f_equal. lia.
    + rewrite !files_written_app, F. reflexivity.
    + rewrite !slept_app. cbn [slept flat_map app]. rewrite app_nil_r. exact Sl.
  - intros H. unfold download_zone_file. rewrite py_range_nil by lia. reflexivity.
Qed.

Lemma a_download_is_given_up_after_max_retries_witness :
  let w := Examples.world_of [] in
  let net := mk_web (fun _ _ _ => RequestException)
               (fun _ => []) (fun _ href => href) (fun _ => None) in
  let self := scraper_init "http://x/" "zones" one_tenth 3 30 in
  exists tr,
    download_zone_file w net self "ir" "http://x/ir.zone" 0
    = (tr, add_failed_download self, 3%nat, Ok false)
    /\ requests_of tr = ["http://x/ir.zone"; "http://x/ir.zone"; "http://x/ir.zone"]%string
    /\ files_written tr = [].
Proof.
  cbv zeta.
  destruct (proj1 (a_download_is_given_up_after_max_retries
              (Examples.world_of [])
              (mk_web (fun _ _ _ => RequestException)
                 (fun _ => []) (fun _ href => href) (fun _ => None))
              (scraper_init "http://x/" "zones" one_tenth 3 30)
              "ir" "http://x/ir.zone" 0)) as (tr & E & R & F & _).
  - split; [|split]; [|reflexivity|reflexivity]. intros n url t. exact I.
  - split; discriminate.
  - intros i _. reflexivity.
  - exists tr. split; [exact E|]. split; [exact R | exact F].
Defined.

(* ================================================================= *)
(** ** The counters of the scraper *)

Lemma download_attempts_end w net self country_code url filepath :
  only_requests_fail w net ->
  Scraper.max_retries self <= 1025 ->
  forall (n : nat) (first : Z) (request : nat),
    1 <= first ->
    Z.to_nat (Scraper.max_retries self + 1 - first) = n ->
    exists tr self' request' returned,
      download_attempts w net self country_code url filepath
        (py_range first (Scraper.max_retries self + 1)) request
      = (tr, self', request', Ok returned)
      /\ ((returned = true /\ self' = add_successful self
           /\ List.length (files_written tr) = 1%nat)
          \/ (returned = false /\ self' = add_failed_download self
              /\ files_written tr = [] /\ first <= Scraper.max_retries self)
          \/ (returned = false /\ self' = self /\ tr = []
              /\ Scraper.max_retries self < first)).
Proof.
  intros (Hreply & Hopen & Hsleep) Hmax.
  induction n as [|n IH]; intros first request H1 Hn.
  - rewrite py_range_nil by lia. exists [], self, request, false.
    split; [reflexivity|]. right. right. repeat split. lia.
  - rewrite py_range_cons by lia. rewrite download_attempts_cons. cbv zeta.
    specialize (Hreply request url (Scraper.timeout self)).
    destruct (respond net request url (Scraper.timeout self)) as [body| |e];
      [| |contradiction].
    + rewrite Hopen.
      destruct (format_bytes_returns (Z.of_nat (String.length body)) ltac:(lia))
        as (size & ->).
      do 4 eexists. split; [reflexivity|]. left. repeat split.
    + destruct (Z.ltb_spec first (Scraper.max_retries self)) as [L|L].
      * destruct (backoff_exists self first) as (seconds & B); [lia|].
        unfold backoff in B. rewrite B, Hsleep.
        destruct (IH (first + 1) (S request)) as (tr & self' & request' & b & E & C);
          [lia|lia|].
        rewrite E. do 4 eexists. split; [reflexivity|].
        rewrite !files_written_app. cbn [files_written flat_map app].
        destruct C as [(-> & -> & W) | [(-> & -> & W & _) | (_ & _ & _ & C)]];
          [left | right; left | lia].
        -- repeat split. exact W.
        -- repeat split; [exact W | lia].
      * do 4 eexists. split; [reflexivity|]. right. left. repeat split. lia.
Qed.

Lemma download_zone_file_ends w net self country_code url request :
  only_requests_fail w net ->
  Scraper.max_retries self <= 1025 ->
  exists tr self' request' returned,
    download_zone_file w net self country_code url request
    = (tr, self', request', Ok returned)
    /\ download_ended self self' tr returned.
Proof.
  intros Henv Hmax. unfold download_zone_file.
  destruct (download_attempts_end w net self country_code url
              (path_join (Scraper.output_dir self) (country_code ++ ".zone"))
              Henv Hmax _ 1 request ltac:(lia) eq_refl)
    as (tr & self' & request' & b & E & C).
  exists tr, self', request', b. split; [exact E|]. unfold download_ended.
  destruct C as [(-> & -> & W) | [(-> & -> & W & L) | (-> & -> & -> & L)]].
  - left. repeat split; [exact W|].
    destruct (Z_lt_le_dec (Scraper.max_retries self) 1) as [Lt|]; [|assumption].
    exfalso. rewrite py_range_nil in E by lia. cbn in E. inversion E.
  - right. left. repeat split; assumption.
  - right. right. repeat split. lia.
Qed.

Lemma download_each_counts w net zone_files :
  only_requests_fail w net ->
  forall (self : Scraper.t) (request : nat),
    Scraper.max_retries self <= 1025 ->
    exists tr self',
      download_each w net self zone_files request = (tr, self', None)
      /\ reset_downloads self' = reset_downloads self
      /\ Scraper.successful_downloads self'
         = Scraper.successful_downloads self + Z.of_nat (List.length (files_written tr))
      /\ Scraper.failed_downloads self <= Scraper.failed_downloads self'
      /\ (1 <= Scraper.max_retries self ->
          Scraper.successful_downloads self' + Scraper.failed_downloads self'
          = Scraper.successful_downloads self + Scraper.failed_downloads self
            + Z.of_nat (List.length zone_files))
      /\ (Scraper.max_retries self < 1 ->
          Scraper.failed_downloads self' = Scraper.failed_downloads self
          /\ files_written tr = []).
Proof.
  intros Henv. pose proof Henv as (_ & _ & Hsleep).
  induction zone_files as [|[country_code url] rest IH]; intros self request Hmax.
  - exists [], self. cbn. repeat split; lia.
  - cbn [download_each].
    destruct (download_zone_file_ends w net self country_code url request Henv Hmax)
      as (tr & self1 & request1 & b & E & C).
    rewrite E, Hsleep.
    assert (M : Scraper.max_retries self1 = Scraper.max_retries self
                /\ reset_downloads self1 = reset_downloads self).
    { destruct C as [(_ & -> & _) | [(_ & -> & _) | (_ & -> & _)]]; split; reflexivity. }
    destruct M as [M R1].
    destruct (IH self1 request1 ltac:(lia)) as (tr' & self2 & E' & R & Su & Fa & A & Z).
    rewrite E'. do 2 eexists. split; [reflexivity|].
    rewrite files_written_app. cbn [files_written flat_map app].
    rewrite length_app, Nat2Z.inj_add. fold (files_written tr').
    rewrite M in A, Z. cbn [List.length]. rewrite Nat2Z.inj_succ.
    split; [congruence|].
    destruct C as [(_ & -> & W & L) | [(_ & -> & W & L) | (_ & -> & W & L)]];
      cbn [add_successful add_failed_download Scraper.successful_downloads
           Scraper.failed_downloads] in *.
    + rewrite W. cbn [List.length app].
      split; [lia|]. split; [lia|]. split; [intros H; specialize (A H); lia|].
      intros H. lia.
    + rewrite W. cbn [List.length app].
      split; [lia|]. split; [lia|]. split; [intros H; specialize (A H); lia|].
      intros H. lia.
    + rewrite W. cbn [List.length app].
      split; [lia|]. split; [lia|]. split; [intros H; lia|].
      intros H. destruct (Z H) as [Zf Zw]. split; [lia | exact Zw].
Qed.

Lemma download_all_returns w net self :
  only_requests_fail w net ->
  mkdir_fails w (Scraper.output_dir self) = false ->
  Scraper.max_retries self <= 1025 ->
  exists tr self' stats,
    download_all w net self = (tr, self', Ok stats)
    /\ Scrape.total stats = Z.of_nat (List.length (zone_links net self))
    /\ Scrape.successful stats = Z.of_nat (List.length (files_written tr))
    /\ 0 <= Scrape.failed stats
    /\ (1 <= Scraper.max_retries self ->
        Scrape.successful stats + Scrape.failed stats = Scrape.total stats)
    /\ (Scraper.max_retries self < 1 ->
        Scrape.successful stats = 0 /\ Scrape.failed stats = 0).
Proof.
  intros Henv Hm Hmax. pose proof Henv as (Hreply & _ & _).
  unfold download_all, ensure_directory, scrape_zone_files, zone_links.
  rewrite Hm. cbv zeta.
  specialize (Hreply 0%nat (Scraper.source_url self) (Scraper.timeout self)).
  destruct (respond net 0 (Scraper.source_url self) (Scraper.timeout self))
    as [body| |e]; [| |contradiction].
  - destruct (flat_map (zone_link net self) (hrefs_of net body)) as [|link links] eqn:L.
    + do 3 eexists. split; [reflexivity|]. cbn. repeat split; lia.
    + destruct (download_each_counts w net (link :: links) Henv (reset_downloads self)
                  1%nat Hmax) as (tr & self' & E & _ & Su & Fa & A & Z).
      rewrite E. do 3 eexists. split; [reflexivity|].
      cbn [Scrape.total Scrape.successful Scrape.failed].
      rewrite !files_written_app. cbn [files_written flat_map app].
      fold (files_written tr). rewrite app_nil_r.
      cbn [reset_downloads Scraper.successful_downloads Scraper.failed_downloads
           Scraper.max_retries] in *.
      split; [reflexivity|]. split; [lia|]. split; [lia|]. split.
      * intros H. specialize (A H). lia.
      * intros H. destruct (Z H) as [Zf Zw]. rewrite Zw in Su. cbn in Su. lia.
  - do 3 eexists. split; [reflexivity|]. cbn. repeat split; lia.
Qed.

(** X21.  The accounts of [download_all].  When nothing but a request
    fails, it returns its statistics: [total] is the number of links found
    on the page, [successful] is the number of files written, and, as long
    as [max_retries] is at least one, every link is counted once, as
    successful or as failed.  With [max_retries] below one no link is
    counted at all: [successful] and [failed] are both zero whatever
    [total] is. *)
Theorem every_link_is_counted_once (w : world) (net : web) (self : Scraper.t) :
  only_requests_fail w net ->
  mkdir_fails w (Scraper.output_dir self) = false ->
  Scraper.max_retries self <= 1025 ->
  exists tr self' stats,
    download_all w net self = (tr, self', Ok stats)
    /\ Scrape.total stats = Z.of_nat (List.length (zone_links net self))
    /\ Scrape.successful stats = Z.of_nat (List.length (files_written tr))
    /\ 0 <= Scrape.failed stats
    /\ (1 <= Scraper.max_retries self ->
        Scrape.successful stats + Scrape.failed stats = Scrape.total stats)
    /\ (Scraper.max_retries self < 1 ->
        Scrape.successful stats = 0 /\ Scrape.failed stats = 0).
Proof. apply download_all_returns. Qed.

(* ================================================================= *)
(** ** The links of the page *)

Lemma substring_all s : substring 0 (String.length s) s = s.
Proof. induction s as [|c s IH]; cbn; [reflexivity | now rewrite IH]. Qed.

Lemma substring_split s : forall k,
  (k <= String.length s)%nat ->
  s = (substring 0 k s ++ substring k (String.length s - k) s)%string.
Proof.
  induction s as [|c s IH]; intros k H.
  - destruct k; [reflexivity | cbn in H; lia].
  - destruct k as [|k].
    + cbn [substring append]. rewrite Nat.sub_0_r.
      change (String.length (String c s)) with (S (String.length s)).
      cbn [substring]. now rewrite substring_all.
    + cbn [String.length] in *. cbn [substring append Nat.sub].
      f_equal. apply IH. lia.
Qed.

Lemma substring_after p : forall k m t,
  substring (String.length p + k) m (p ++ t) = substring k m t.
Proof. induction p as [|c p IH]; intros k m t; cbn; [reflexivity | apply IH]. Qed.

Lemma string_length_app a b :
  String.length (a ++ b) = (String.length a + String.length b)%nat.
Proof. induction a as [|c a IH]; cbn; [reflexivity | now rewrite IH]. Qed.

Lemma endswith_inv suffix s :
  Str.endswith suffix s = true ->
  s = (substring 0 (String.length s - String.length suffix) s ++ suffix)%string.
Proof.
  unfold Str.endswith. intros H. apply andb_true_iff in H as [L E].
  apply Nat.leb_le in L. apply String.eqb_eq in E.
  rewrite (substring_split s (String.length s - String.length suffix)) at 1 by lia.
  replace (String.length s - (String.length s - String.length suffix))%nat
    with (String.length suffix) by lia.
  now rewrite E.
Qed.

Lemma a_zone_link_ends_with_no_line_feed href :
  Str.endswith ".zone" href = true -> Str.endswith nl href = false.
Proof.
  intros H. apply endswith_inv in H. rewrite H.
  set (p := substring 0 (String.length href - String.length ".zone") href).
  unfold Str.endswith. rewrite string_length_app.
  replace (String.length p + String.length ".zone" - String.length nl)%nat
    with (String.length p + 4)%nat by (cbn; lia).
  rewrite substring_after. cbn. apply andb_false_r.
Qed.

Lemma country_code_of_inv href country_code :
  Str.endswith ".zone" href = true ->
  country_code_of href = Some country_code ->
  two_lower_letters country_code
  /\ exists prefix, href = (prefix ++ "/" ++ country_code ++ ".zone")%string.
Proof.
  intros He. unfold country_code_of.
  rewrite (a_zone_link_ends_with_no_line_feed href He). cbv zeta.
  destruct (Nat.leb_spec 8 (String.length href)) as [L|]; [|discriminate].
  pose proof (substring_split href (String.length href - 8) ltac:(lia)) as S8.
  replace (String.length href - (String.length href - 8))%nat with 8%nat in S8 by lia.
  destruct (substring (String.length href - 8) 8 href) as [|slash [|a [|b rest]]];
    try discriminate.
  destruct (Str.eqb_ascii slash "/" && is_lower a && is_lower b
            && String.eqb rest ".zone") eqn:C; [|discriminate].
  intros E. inversion E. subst country_code. clear E.
  repeat (apply andb_true_iff in C as [C ?]).
  apply Ascii.eqb_eq in C. subst slash.
  match goal with H : String.eqb rest _ = true |- _ => apply String.eqb_eq in H; subst rest end.
  split.
  - exists a, b. repeat split; assumption.
  - eexists. exact S8.
Qed.

(** X22.  What [scrape_zone_files] returns when the page is fetched: one
    pair for each link that ends in [/<xx>.zone], [xx] being two letters
    from [a] to [z], and that holds [/countries/], in the order of the
    page and without removing repetitions.  The country code of a pair is
    these two letters and its URL is the link joined to the source URL;
    every other link is left out. *)
Theorem zone_links_are_files_of_countries (net : web) (self : Scraper.t)
    (request : nat) (body : string) :
  respond net request (Scraper.source_url self) (Scraper.timeout self) = Content body ->
  exists tr links,
    scrape_zone_files net self request = (tr, S request, Ok links)
    /\ links = flat_map (zone_link net self) (hrefs_of net body)
    /\ (List.length links <= List.length (hrefs_of net body))%nat
    /\ forall country_code url,
         In (country_code, url) links ->
         two_lower_letters country_code
         /\ exists href prefix,
              In href (hrefs_of net body)
              /\ url = urljoin net (Scraper.source_url self) href
              /\ href = (prefix ++ "/" ++ country_code ++ ".zone")%string
              /\ occurs "/countries/" href = true.
Proof.
  intros H. unfold scrape_zone_files. rewrite H. do 2 eexists.
  split; [reflexivity|]. split; [reflexivity|]. split.
  - induction (hrefs_of net body) as [|href rest IH]; [constructor|].
    cbn [flat_map]. rewrite length_app. cbn [List.length].
    assert (List.length (zone_link net self href) <= 1)%nat; [|lia].
    unfold zone_link. destruct (_ && _); [|cbn; lia].
    destruct (country_code_of href); cbn; lia.
  - intros country_code url Hin. apply in_flat_map in Hin as (href & Hhref & Hin).
    unfold zone_link in Hin.
    destruct (Str.endswith ".zone" href) eqn:He; [|contradiction].
    destruct (occurs "/countries/" href) eqn:Ho; [|contradiction].
    cbn [andb] in Hin.
    destruct (country_code_of href) as [cc|] eqn:Ec; [|contradiction].
    destruct Hin as [Hin | []]. inversion Hin. subst cc url.
    destruct (country_code_of_inv href country_code He Ec) as (T & prefix & P).
    split; [exact T|]. exists href, prefix. repeat split; assumption.
Qed.

Lemma zone_links_are_files_of_countries_witness :
  let net := mk_web (fun _ _ _ => Content "page")
               (fun _ => ["/ipblocks/data/countries/ir.zone"; "/about.html";
                          "/ipblocks/data/countries/us.zone";
                          "/ipblocks/data/aggregated/ir.zone";
                          "/ipblocks/data/countries/MD5SUM";
                          "/ipblocks/data/countries/all.zone"]%string)
               (fun base href => (base ++ href)%string) (fun _ => None) in
  let self := scraper_init "http://x" "zones" one_tenth 3 30 in
  snd (scrape_zone_files net self 0)
  = Ok [("ir", "http://x/ipblocks/data/countries/ir.zone");
        ("us", "http://x/ipblocks/data/countries/us.zone")]%string.
Proof.
  cbv zeta.
  destruct (zone_links_are_files_of_countries
              (mk_web (fun _ _ _ => Content "page")
                 (fun _ => ["/ipblocks/data/countries/ir.zone"; "/about.html";
                            "/ipblocks/data/countries/us.zone";
                            "/ipblocks/data/aggregated/ir.zone";
                            "/ipblocks/data/countries/MD5SUM";
                            "/ipblocks/data/countries/all.zone"]%string)
                 (fun base href => (base ++ href)%string) (fun _ => None))
              (scraper_init "http://x" "zones" one_tenth 3 30) 0 "page" eq_refl)
    as (tr & links & E & L & _).
  rewrite E. cbn [snd]. rewrite L. vm_compute. reflexivity.
Defined.

(* ================================================================= *)
(** ** From the scraper to the converter *)

Lemma a_lower_letter_is_no_separator c :
  is_lower c = true -> Str.eqb_ascii c "/" = false.
Proof.
  destruct c as [[] [] [] [] [] [] [] []]; vm_compute; intros H;
    try discriminate H; reflexivity.
Qed.

Lemma path_of_zone_file_name a b :
  is_lower a = true -> is_lower b = true ->
  Path (String a (String b ".zone")) = mk_path "" [String a (String b ".zone")].
Proof.
  intros Ha Hb.
  pose proof (a_lower_letter_is_no_separator a Ha) as Sa.
  pose proof (a_lower_letter_is_no_separator b Hb) as Sb.
  unfold Path, splitroot. cbn [Str.startswith]. rewrite Sa.
  rewrite split_without_sep.
  - cbn [filter keep_component Str.is_empty negb andb String.eqb].
    destruct (Ascii.eqb a "."); reflexivity.
  - cbn [Str.contains]. rewrite Sa, Sb. reflexivity.
Qed.

Lemma last_snoc {A} (l : list A) x d : last (l ++ [x]) d = x.
Proof.
  induction l as [|a l IH]; [reflexivity|].
  cbn [app]. destruct (l ++ [x]) eqn:E; [destruct l; discriminate E|].
  cbn [last]. cbn [last] in IH. exact IH.
Qed.

(** X23.  The scraper saves a zone under a name the converter looks for.
    For a country code of two letters from [a] to [z], the file written by
    [download_zone_file] is the entry [<code>.zone] of the output
    directory; the pattern [*.zone] of the converter matches it, and its
    stem, from which the converter names its output files, is the country
    code again.  With the default configuration the directory the scraper
    writes to is the one the converter reads. *)
Theorem a_downloaded_zone_is_an_input_of_the_converter (self : Scraper.t)
    (country_code : string) :
  two_lower_letters country_code ->
  zone_file_of self country_code
  = make_child_relpath (Scraper.output_dir self) (country_code ++ ".zone")
  /\ stem (zone_file_of self country_code) = country_code
  /\ (forall w names,
        stat w (Scraper.output_dir self) = Some (Directory names) ->
        In (country_code ++ ".zone")%string names ->
        In (zone_file_of self country_code) (glob_zone w (Scraper.output_dir self)))
  /\ Scraper.output_dir (scraper_of get_default_scraper_config None)
     = Converter.input_path
         (converter_of get_default_config (mk_args None None None None None 1 None)).
Proof.
  intros (a & b & -> & Ha & Hb).
  assert (E : zone_file_of self (String a (String b EmptyString))
              = make_child_relpath (Scraper.output_dir self)
                  (String a (String b ".zone"))).
  { unfold zone_file_of, path_join. cbn [append].
    rewrite (path_of_zone_file_name a b Ha Hb). reflexivity. }
  cbn [append]. split; [exact E|]. split; [|split].
  - rewrite E. unfold stem, path_name, make_child_relpath. cbn [parts].
    rewrite last_snoc. reflexivity.
  - intros w names Hs Hin. rewrite E. unfold glob_zone. rewrite Hs.
    apply in_map. apply filter_In. split; [exact Hin | reflexivity].
  - reflexivity.
Qed.

Lemma a_downloaded_zone_is_an_input_of_the_converter_witness :
  stem (zone_file_of (scraper_init "http://x" "zones" one_tenth 3 30) "ir") = "ir"%string.
Proof.
  refine (proj1 (proj2 (a_downloaded_zone_is_an_input_of_the_converter
                          (scraper_init "http://x" "zones" one_tenth 3 30) "ir" _))).
  exists "i"%char, "r"%char. repeat split.
Defined.

(* ================================================================= *)
(** ** The exit status of the [scrape] command *)

Lemma scrape_ip_ranges_of w net config arg_output :
  scrape_ip_ranges w net arg_output (Some config)
  = download_all w net (scraper_of config arg_output).
Proof. reflexivity. Qed.

Lemma files_written_logs lvl msg tr :
  files_written (Scrape.Log lvl msg :: tr) = files_written tr.
Proof. reflexivity. Qed.

(** X24.  The exit status of the [scrape] command.  It is [1] when the
    output directory cannot be made.  It is [0], although nothing was
    downloaded, when the page of links cannot be fetched, and also when
    [max_retries] is below one.  Otherwise, when nothing but a request
    fails, it is [0] exactly when a file was written for every link
    found. *)
Theorem the_exit_status_of_scrape (w : world) (net : web) (config : scraper_config)
    (arg_output : option string) :
  let self := scraper_of config arg_output in
  let run := main_scrape w net config arg_output in
  (mkdir_fails w (Scraper.output_dir self) = true -> snd run = 1)
  /\ (mkdir_fails w (Scraper.output_dir self) = false ->
      respond net 0 (Scraper.source_url self) (Scraper.timeout self) = RequestException ->
      snd run = 0 /\ files_written (fst run) = [])
  /\ (only_requests_fail w net ->
      mkdir_fails w (Scraper.output_dir self) = false ->
      Scraper.max_retries self <= 1025 ->
      (Scraper.max_retries self < 1 -> snd run = 0 /\ files_written (fst run) = [])
      /\ (1 <= Scraper.max_retries self ->
          (snd run = 0
           <-> List.length (files_written (fst run))
               = List.length (zone_links net self)))).
Proof.
  cbv zeta. unfold main_scrape. rewrite scrape_ip_ranges_of.
  set (self := scraper_of config arg_output).
  split; [|split].
  - intros Hm. unfold download_all, ensure_directory. rewrite Hm. reflexivity.
  - intros Hm Hr. unfold download_all, ensure_directory, scrape_zone_files.
    rewrite Hm, Hr. split; reflexivity.
  - intros Henv Hm Hmax.
    destruct (download_all_returns w net self Henv Hm Hmax)
      as (tr & self' & stats & E & T & Su & F0 & A & Zr).
    rewrite E. cbv beta iota zeta.
    assert (B : forall status,
              files_written
                (fst ([Scrape.Log INFO Scrape.Separator;
                       Scrape.Log INFO Scrape.ScraperBanner;
                       Scrape.Log INFO Scrape.Separator] ++ tr, status : Z))
              = files_written tr) by reflexivity.
    split.
    + intros H. destruct (Zr H) as [Zs Zf]. rewrite Zf. cbn [Z.gtb Z.compare].
      rewrite B. split; [reflexivity|].
      destruct (files_written tr); [reflexivity | cbn in Su; lia].
    + intros H. specialize (A H).
      destruct (Z.gtb_spec (Scrape.failed stats) 0) as [G|G]; rewrite B; cbn [snd];
        split; intros Q; try discriminate; try reflexivity; lia.
Qed.

Lemma the_exit_status_of_scrape_witness :
  let w := Examples.world_of [] in
  let net := mk_web (fun _ _ _ => RequestException) (fun _ => [])
               (fun base href => (base ++ href)%string) (fun _ => None) in
  snd (main_scrape w net get_default_scraper_config None) = 0.
Proof.
  cbv zeta.
  destruct (the_exit_status_of_scrape (Examples.world_of [])
              (mk_web (fun _ _ _ => RequestException) (fun _ => [])
                 (fun base href => (base ++ href)%string) (fun _ => None))
              get_default_scraper_config None) as (_ & H & _).
  exact (proj1 (H eq_refl eq_refl)).
Defined.

Lemma every_link_is_counted_once_witness :
  let w := Examples.world_of [] in
  let net := mk_web
               (fun _ url _ =>
                  if String.eqb url "http://x/countries/us.zone" then RequestException
                  else Content "10.0.0.0/8")
               (fun _ => ["/countries/ir.zone"; "/countries/us.zone"]%string)
               (fun base href => (base ++ href)%string) (fun _ => None) in
  let self := scraper_init "http://x" "zones" one_tenth 2 30 in
  exists tr self' stats,
    download_all w net self = (tr, self', Ok stats)
    /\ Scrape.total stats = 2
    /\ Scrape.successful stats + Scrape.failed stats = 2.
Proof.
  cbv zeta.
  destruct (every_link_is_counted_once (Examples.world_of [])
              (mk_web
                 (fun _ url _ =>
                    if String.eqb url "http://x/countries/us.zone" then RequestException
                    else Content "10.0.0.0/8")
                 (fun _ => ["/countries/ir.zone"; "/countries/us.zone"]%string)
                 (fun base href => (base ++ href)%string) (fun _ => None))
              (scraper_init "http://x" "zones" one_tenth 2 30))
    as (tr & self' & stats & E & T & _ & _ & A & _).
  - split; [|split]; [|reflexivity|reflexivity].
    intros n url t. cbn [respond].
    destruct (String.eqb url "http://x/countries/us.zone"); [exact I | reflexivity].
  - reflexivity.
  - discriminate.
  - exists tr, self', stats. split; [exact E|]. split.
    + rewrite T. vm_compute. reflexivity.
    + rewrite (A ltac:(discriminate)), T. vm_compute. reflexivity.
Defined.

(* ================================================================= *)
(** ** The canonical form of a range *)

Lemma prefixes_read_back p :
  0 <= p <= 32 ->
  make_netmask V4 (Some (Str.of_int p))
  = Ok (mk_address V4 (ip_int_from_prefix V4 p) None, p).
Proof.
  intros H.
  assert (A : List.forallb prefix_reads_back (py_range 0 33) = true)
    by (vm_compute; reflexivity).
  rewrite forallb_forall in A. specialize (A p). rewrite py_range_In in A.
  specialize (A ltac:(lia)). unfold prefix_reads_back in A.
  cbn [make_netmask].
  destruct (v4_make_netmask (Some (Str.of_int p))) as [[nm q]|e] eqn:E; [|discriminate].
  apply Z.eqb_eq in A. subst q.
  destruct (make_netmask_inv V4 _ _ _ E) as [_ ->]. reflexivity.
Qed.

Lemma v4_text_characters n :
  0 <= n <= ALL_ONES V4 ->
  Str.forallb (fun c => negb (Str.isspace c)) (v4_text n) = true
  /\ Str.contains "/" (v4_text n) = false.
Proof.
  intros H.
  destruct (to_bytes4_big_spec n H) as (b3 & b2 & b1 & b0 & E & H3 & H2 & H1 & H0 & F).
  destruct (octet_facts b3 H3) as (_ & _ & _ & S3 & W3).
  destruct (octet_facts b2 H2) as (_ & _ & _ & S2 & W2).
  destruct (octet_facts b1 H1) as (_ & _ & _ & S1 & W1).
  destruct (octet_facts b0 H0) as (_ & _ & _ & S0 & W0).
  unfold v4_text. rewrite E. cbn [map Str.join]. split.
  - rewrite !forallb_app, W3, W2, W1, W0. reflexivity.
  - rewrite !contains_app, S3, S2, S1, S0. reflexivity.
Qed.

Lemma canonical_text_parses n :
  wf_network n -> net_version n = V4 ->
  Str.strip (canonical_text n) = canonical_text n
  /\ ip_network (canonical_text n) false
     = Ok (mk_network (mk_address V4 (ip (network_address n)) None)
             (mk_address V4 (ip_int_from_prefix V4 (prefixlen n)) None)
             (prefixlen n)).
Proof.
  intros W V. pose proof (wf_network_address_bounds n W) as B.
  destruct W as (Hp & Hm & Hl). rewrite V in Hp, Hm.
  unfold net_version in V. rewrite V in B.
  rewrite Hm in Hl. cbn [ip] in Hl.
  set (a := ip (network_address n)) in *. set (p := prefixlen n) in *.
  change (max_prefixlen V4) with 32 in Hp.
  destruct (v4_text_reads_back a B) as [R _].
  destruct (v4_text_characters a B) as [Wa Sa].
  destruct (octet_facts p ltac:(lia)) as (_ & _ & _ & Sp & Wp).
  unfold canonical_text. fold a. fold p. split.
  - apply strip_without_space. rewrite !forallb_app, Wa, Wp. reflexivity.
  - assert (Hs : split_addr_prefix (v4_text a ++ "/" ++ Str.of_int p)
                 = Ok (v4_text a, Some (Str.of_int p))).
    { unfold split_addr_prefix, split_optional_netmask.
      change ("/" ++ Str.of_int p)%string with (String "/" (Str.of_int p)).
      rewrite (split_app "/" _ _ Sa), (split_without_sep _ _ Sp). reflexivity. }
    pose proof (Network_init_nonstrict V4 _ _ _ _ _ _ Hs R (prefixes_read_back p Hp)) as N.
    assert (M : masked V4 (mk_address V4 a None)
                  (mk_address V4 (ip_int_from_prefix V4 p) None)
                = mk_address V4 a None).
    { unfold masked. cbn [ip]. now rewrite Hl, Z.eqb_refl. }
    rewrite M in N.
    rewrite (ip_network_of_parts V4 _ false _ _ _ Hs R); [exact N|].
    left. eexists. exact N.
Qed.

Lemma range_of_v4_network t n :
  net_version n = V4 ->
  range_of_network t n
  = Range.mk t (v4_text (ip (network_address n)))
      (v4_text (ip (network_address n) + Z.ones (32 - prefixlen n)))
      (2 ^ (32 - prefixlen n)).
Proof.
  intros V. unfold range_of_network. rewrite V.
  unfold address_text. unfold net_version in V. rewrite V.
  destruct (scope_id (network_address n)); reflexivity.
Qed.

(** X25.  A version 4 record can be written back in canonical form:
    [<start_ip>/<prefix length>] is a text the parser accepts, and it
    gives a record with the same [start_ip], [end_ip] and [total_ips],
    whatever host bits the original text had set. *)
Theorem the_canonical_form_of_a_range_reads_back (self parser : Converter.t)
    (text : string) (tr : list event) (r : Range.t) (n : network) :
  cidr_to_ip_range parser text = (tr, Ok (Some r)) ->
  ip_network (Str.strip text) false = Ok n ->
  net_version n = V4 ->
  canonical_text n = (Range.start_ip r ++ "/" ++ Str.of_int (prefixlen n))%string
  /\ cidr_to_ip_range self (canonical_text n)
     = ([], Ok (Some (Range.mk (canonical_text n) (Range.start_ip r)
                        (Range.end_ip r) (Range.total_ips r)))).
Proof.
  rewrite cidr_to_ip_range_spec. intros H E V. rewrite E in H.
  inversion H. subst tr r. clear H.
  pose proof (ip_network_wf _ _ _ E) as W.
  destruct (canonical_text_parses n W V) as [S P].
  rewrite (range_of_v4_network _ n V).
  cbn [Range.start_ip Range.end_ip Range.total_ips]. split; [reflexivity|].
  rewrite cidr_to_ip_range_spec, S, P.
  rewrite range_of_v4_network by reflexivity. reflexivity.
Qed.

Lemma the_canonical_form_of_a_range_reads_back_witness :
  cidr_to_ip_range (Examples.converter "zones" ["csv"]%string PyFloat.one None)
    "10.0.0.4/30"
  = ([], Ok (Some (Range.mk "10.0.0.4/30" "10.0.0.4" "10.0.0.7" 4))).
Proof.
  exact (proj2 (the_canonical_form_of_a_range_reads_back
           (Examples.converter "zones" ["csv"]%string PyFloat.one None)
           (Examples.converter "zones" ["txt"]%string PyFloat.one None)
           "10.0.0.5/30" []
           (Range.mk "10.0.0.5/30" "10.0.0.4" "10.0.0.7" 4)
           (mk_network (mk_address V4 167772164 None)
              (mk_address V4 4294967292 None) 30)
           eq_refl eq_refl eq_refl)).
Defined.

(* ================================================================= *)
(** ** Links that are kept *)

Lemma endswith_app suffix p : Str.endswith suffix (p ++ suffix) = true.
Proof.
  unfold Str.endswith. rewrite string_length_app.
  replace (String.length p + String.length suffix - String.length suffix)%nat
    with (String.length p + 0)%nat by lia.
  rewrite substring_after, substring_all, String.eqb_refl, andb_true_r.
  apply Nat.leb_le. lia.
Qed.

Lemma substring_before sub : forall r,
  substring 0 (String.length sub) (sub ++ r) = sub.
Proof.
  induction sub as [|c sub IH]; intros r; cbn.
  - destruct r; reflexivity.
  - now rewrite IH.
Qed.

Lemma occurs_unfold sub s :
  occurs sub s
  = String.prefix sub s
    || match s with
       | EmptyString => false
       | String _ s' => occurs sub s'
       end.
Proof. destruct s; reflexivity. Qed.

Lemma occurs_app sub r : forall p, occurs sub (p ++ sub ++ r) = true.
Proof.
  induction p as [|c p IH].
  - cbn [append]. rewrite occurs_unfold.
    assert (P : String.prefix sub (sub ++ r) = true)
      by (apply prefix_correct, substring_before).
    now rewrite P.
  - cbn [append]. rewrite occurs_unfold, IH. apply orb_true_r.
Qed.

Lemma append_assoc (a b c : string) : ((a ++ b) ++ c = a ++ (b ++ c))%string.
Proof. induction a as [|x a IH]; cbn; [reflexivity | now rewrite IH]. Qed.

Lemma country_code_of_a_zone_link prefix a b :
  is_lower a = true -> is_lower b = true ->
  country_code_of (prefix ++ "/" ++ String a (String b ".zone"))
  = Some (String a (String b EmptyString)).
Proof.
  intros Ha Hb. unfold country_code_of.
  set (href := (prefix ++ "/" ++ String a (String b ".zone"))%string).
  assert (He : Str.endswith ".zone" href = true).
  { unfold href.
    change ("/" ++ String a (String b ".zone"))%string
      with (String "/" (String a (String b EmptyString)) ++ ".zone")%string.
    rewrite <- append_assoc. apply endswith_app. }
  rewrite (a_zone_link_ends_with_no_line_feed href He). cbv zeta.
  assert (L : String.length href = (String.length prefix + 8)%nat)
    by (unfold href; rewrite string_length_app; reflexivity).
  rewrite L.
  replace (String.length prefix + 8 - 8)%nat with (String.length prefix + 0)%nat by lia.
  unfold href. rewrite substring_after.
  assert (G : (8 <=? String.length prefix + 8)%nat = true) by (apply Nat.leb_le; lia).
  rewrite G. cbn [append substring]. rewrite Ha, Hb. reflexivity.
Qed.

(** X26.  No link to the zone of a country is left out: a link of the
    form [<prefix>/countries/<xx>.zone], [xx] being two letters from [a]
    to [z], is kept by [scrape_zone_files], with [xx] as its country code
    and the link joined to the source URL as its URL. *)
Theorem a_link_to_the_zone_of_a_country_is_kept (net : web) (self : Scraper.t)
    (request : nat) (body prefix country_code : string) :
  two_lower_letters country_code ->
  respond net request (Scraper.source_url self) (Scraper.timeout self) = Content body ->
  let href := (prefix ++ "/countries/" ++ country_code ++ ".zone")%string in
  zone_link net self href
  = [(country_code, urljoin net (Scraper.source_url self) href)]
  /\ (In href (hrefs_of net body) ->
      exists links,
        snd (scrape_zone_files net self request) = Ok links
        /\ In (country_code, urljoin net (Scraper.source_url self) href) links).
Proof.
  intros (a & b & -> & Ha & Hb) Hr. cbv zeta.
  set (href := (prefix ++ "/countries/" ++ String a (String b EmptyString) ++ ".zone")%string).
  assert (Z1 : zone_link net self href
               = [(String a (String b EmptyString),
                   urljoin net (Scraper.source_url self) href)]).
  { unfold zone_link.
    assert (E1 : Str.endswith ".zone" href = true).
    { unfold href. rewrite <- !append_assoc. apply endswith_app. }
    assert (E2 : occurs "/countries/" href = true) by apply occurs_app.
    assert (E3 : country_code_of href = Some (String a (String b EmptyString))).
    { unfold href.
      change ("/countries/" ++ String a (String b EmptyString) ++ ".zone")%string
        with ("/countries" ++ "/" ++ String a (String b ".zone"))%string.
      rewrite <- append_assoc. now apply country_code_of_a_zone_link. }
    rewrite E1, E2, E3. reflexivity. }
  split; [exact Z1|].
  intros Hin. unfold scrape_zone_files. rewrite Hr. cbn [snd].
  eexists. split; [reflexivity|].
  apply in_flat_map. exists href. split; [exact Hin|]. rewrite Z1. now left.
Qed.

Lemma a_link_to_the_zone_of_a_country_is_kept_witness :
  let net := mk_web (fun _ _ _ => Content "page") (fun _ => [])
               (fun base href => (base ++ href)%string) (fun _ => None) in
  let self := scraper_init "http://x" "zones" one_tenth 3 30 in
  zone_link net self "/ipblocks/data/countries/ir.zone"
  = [("ir", "http://x/ipblocks/data/countries/ir.zone")]%string.
Proof.
  cbv zeta.
  refine (proj1 (a_link_to_the_zone_of_a_country_is_kept
                   (mk_web (fun _ _ _ => Content "page") (fun _ => [])
                      (fun base href => (base ++ href)%string) (fun _ => None))
                   (scraper_init "http://x" "zones" one_tenth 3 30)
                   0 "page" "/ipblocks/data" "ir" _ eq_refl)).
  exists "i"%char, "r"%char. repeat split.
Defined.

(* ================================================================= *)
(** ** The three files of a zone *)






